(** * A relationship tracker: data-access and notification services

    Shallow embedding of [services/NotificationService.ts], of
    [services/DatabaseService.ts] and of the save and tag handlers of the
    profile screens, with the properties of the two services that the
    specification states and further properties of the code.

    Conventions.  A JavaScript [Date] is its time value, an integer number
    of milliseconds ([Z]).  An [async] method is a computation over the
    state it can touch that either returns or throws; state changes made
    before a [throw] stay.  SQLite tables with an INTEGER PRIMARY KEY are
    finite maps from the key to the rest of the row. *)

From Stdlib Require Import ZArith String Ascii List Lia Bool DecimalString DecimalZ.
From Stdlib Require QArith Qround.
From stdpp Require Import base option list gmap fin_maps strings sorting.

Local Open Scope Z_scope.

(** ** Computations that may throw *)

Inductive exn : Type :=
  | Error (message : string)
  | Rejected (call : string).

Inductive outcome (A : Type) : Type :=
  | Ok (a : A)
  | Throw (e : exn).
Arguments Ok {A} a.
Arguments Throw {A} e.

#[global] Instance outcome_mret : MRet outcome := @Ok.
#[global] Instance outcome_mbind : MBind outcome :=
  λ A B k o, match o with Ok a => k a | Throw e => Throw e end.

Definition async (S A : Type) : Type := S → outcome A * S.

Definition async_ret {S A} (a : A) : async S A := λ s, (Ok a, s).

Definition async_bind {S A B} (m : async S A) (k : A → async S B) : async S B :=
  λ s, match m s with
       | (Ok a, s') => k a s'
       | (Throw e, s') => (Throw e, s')
       end.

Definition throw {S A} (e : exn) : async S A := λ s, (Throw e, s).

(** [try { m } catch (error) { h error }] *)
Definition try_catch {S A} (m : async S A) (h : exn → async S A) : async S A :=
  λ s, match m s with
       | (Ok a, s') => (Ok a, s')
       | (Throw e, s') => h e s'
       end.

Definition gets {S A} (f : S → A) : async S A := λ s, (Ok (f s), s).
Definition modify {S} (f : S → S) : async S unit := λ s, (Ok tt, f s).

#[global] Instance async_mret {S} : MRet (async S) := @async_ret S.
#[global] Instance async_mbind {S} : MBind (async S) :=
  λ A B k m, async_bind m k.

(** Equations between closed terms, decided by evaluation. *)
Ltac vm_refl :=
  lazymatch goal with
  | |- ?l = ?r => vm_cast_no_check (@eq_refl _ r)
  end.

(** ** JSON text *)

Module Json.

#[warnings="-register-all"]
Inductive json : Type :=
  | JNull
  | JBool (b : bool)
  | JNumber (n : Z)
  | JString (s : string)
  | JArray (l : list json)
  | JObject (m : list (string * json)).

Definition dquote : ascii := "034"%char.
Definition backslash : ascii := "092"%char.

Definition hex_digit (n : N) : ascii :=
  default "0"%char (String.get (N.to_nat n) "0123456789abcdef").

Definition hex_value (c : ascii) : option N :=
  let n := N_of_ascii c in
  if (48 <=? n)%N && (n <=? 57)%N then Some (n - 48)%N
  else if (97 <=? n)%N && (n <=? 102)%N then Some (n - 87)%N
  else if (65 <=? n)%N && (n <=? 70)%N then Some (n - 55)%N
  else None.

(** [QuoteJSONString]: the two-character escapes, [\u00XX] for the other
    control characters, every other character as it is. *)
Definition escape_char (c : ascii) : string :=
  if Ascii.eqb c dquote then String backslash (String dquote "")
  else if Ascii.eqb c backslash then String backslash (String backslash "")
  else if Ascii.eqb c "008" then String backslash "b"
  else if Ascii.eqb c "012" then String backslash "f"
  else if Ascii.eqb c "010" then String backslash "n"
  else if Ascii.eqb c "013" then String backslash "r"
  else if Ascii.eqb c "009" then String backslash "t"
  else if (N_of_ascii c <? 32)%N
  then String backslash
         (String "u" (String "0" (String "0"
            (String (hex_digit (N_of_ascii c / 16))
               (String (hex_digit (N_of_ascii c mod 16)) "")))))
  else String c "".

Fixpoint escape (s : string) : string :=
  match s with
  | EmptyString => ""
  | String c s' => escape_char c +:+ escape s'
  end.

Definition quote (s : string) : string :=
  String dquote (escape s +:+ String dquote "").

Definition string_of_Z (n : Z) : string := NilZero.string_of_int (Z.to_int n).

Fixpoint stringify (v : json) : string :=
  match v with
  | JNull => "null"
  | JBool true => "true"
  | JBool false => "false"
  | JNumber n => string_of_Z n
  | JString s => quote s
  | JArray l =>
      "[" +:+
      (fix elements (l : list json) : string :=
         match l with
         | [] => ""
         | [v] => stringify v
         | v :: l' => stringify v +:+ "," +:+ elements l'
         end) l +:+ "]"
  | JObject m =>
      "{" +:+
      (fix members (m : list (string * json)) : string :=
         match m with
         | [] => ""
         | [(k, v)] => quote k +:+ ":" +:+ stringify v
         | (k, v) :: m' => quote k +:+ ":" +:+ stringify v +:+ "," +:+ members m'
         end) m +:+ "}"
  end.

(** *** Parsing *)

Definition is_ws (c : ascii) : bool :=
  Ascii.eqb c " " || Ascii.eqb c "009" || Ascii.eqb c "010" || Ascii.eqb c "013".

Fixpoint skip_ws (s : string) : string :=
  match s with
  | String c s' => if is_ws c then skip_ws s' else s
  | EmptyString => ""
  end.

Definition is_number_char (c : ascii) : bool :=
  Ascii.eqb c "-" || ((48 <=? N_of_ascii c)%N && (N_of_ascii c <=? 57)%N).

(** The longest prefix of sign and digit characters, and what follows. *)
Fixpoint span_number (s : string) : string * string :=
  match s with
  | String c s' =>
      if is_number_char c
      then let '(p, r) := span_number s' in (String c p, r)
      else ("", s)
  | EmptyString => ("", "")
  end.

Definition parse_number (s : string) : option (json * string) :=
  let '(p, r) := span_number s in
  d ← NilZero.int_of_string p; Some (JNumber (Z.of_int d), r).

Definition unescape (c : ascii) : option ascii :=
  if Ascii.eqb c dquote then Some dquote
  else if Ascii.eqb c backslash then Some backslash
  else if Ascii.eqb c "/" then Some "/"%char
  else if Ascii.eqb c "b" then Some "008"%char
  else if Ascii.eqb c "f" then Some "012"%char
  else if Ascii.eqb c "n" then Some "010"%char
  else if Ascii.eqb c "r" then Some "013"%char
  else if Ascii.eqb c "t" then Some "009"%char
  else None.

(** [\uXXXX] for a code unit below 256 (strings here are sequences of
    such code units). *)
Definition unicode_escape (a b c d : ascii) : option ascii :=
  a ← hex_value a; b ← hex_value b; c ← hex_value c; d ← hex_value d;
  if ((a =? 0) && (b =? 0))%N then Some (ascii_of_N (16 * c + d)) else None.

Definition cons_char (c : ascii) (r : option (string * string)) : option (string * string) :=
  '(t, rest) ← r; Some (String c t, rest).

(** The characters of a string literal after its opening quote, up to
    and including the closing quote. *)
Fixpoint parse_chars (s : string) : option (string * string) :=
  match s with
  | EmptyString => None
  | String c s' =>
      if Ascii.eqb c dquote then Some ("", s')
      else if Ascii.eqb c backslash then
        match s' with
        | String e s'' =>
            if Ascii.eqb e "u" then
              match s'' with
              | String h1 (String h2 (String h3 (String h4 r))) =>
                  match unicode_escape h1 h2 h3 h4 with
                  | Some u => cons_char u (parse_chars r)
                  | None => None
                  end
              | _ => None
              end
            else
              match unescape e with
              | Some u => cons_char u (parse_chars s'')
              | None => None
              end
        | EmptyString => None
        end
      else if (N_of_ascii c <? 32)%N then None
      else cons_char c (parse_chars s')
  end.

Fixpoint strip_prefix (word s : string) : option string :=
  match word with
  | EmptyString => Some s
  | String a word' =>
      match s with
      | String b s' => if Ascii.eqb a b then strip_prefix word' s' else None
      | EmptyString => None
      end
  end.

Definition literal (word : string) (v : json) (s : string) : option (json * string) :=
  r ← strip_prefix word s; Some (v, r).

Fixpoint parse_value (fuel : nat) (s : string) : option (json * string) :=
  match fuel with
  | O => None
  | S fuel =>
      match skip_ws s with
      | EmptyString => None
      | String c s' =>
          if is_number_char c then parse_number (String c s')
          else if Ascii.eqb c dquote then
            '(t, r) ← parse_chars s'; Some (JString t, r)
          else if Ascii.eqb c "[" then
            match skip_ws s' with
            | String c' r =>
                if Ascii.eqb c' "]" then Some (JArray [], r)
                else '(l, r) ← parse_elements fuel s'; Some (JArray l, r)
            | EmptyString => None
            end
          else if Ascii.eqb c "{" then
            match skip_ws s' with
            | String c' r =>
                if Ascii.eqb c' "}" then Some (JObject [], r)
                else '(m, r) ← parse_members fuel s'; Some (JObject m, r)
            | EmptyString => None
            end
          else if Ascii.eqb c "n" then literal "null" JNull (String c s')
          else if Ascii.eqb c "t" then literal "true" (JBool true) (String c s')
          else if Ascii.eqb c "f" then literal "false" (JBool false) (String c s')
          else None
      end
  end
with parse_elements (fuel : nat) (s : string) : option (list json * string) :=
  match fuel with
  | O => None
  | S fuel =>
      '(v, r) ← parse_value fuel s;
      match skip_ws r with
      | String c r' =>
          if Ascii.eqb c "," then
            '(l, r'') ← parse_elements fuel r'; Some (v :: l, r'')
          else if Ascii.eqb c "]" then Some ([v], r')
          else None
      | EmptyString => None
      end
  end
with parse_members (fuel : nat) (s : string) : option (list (string * json) * string) :=
  match fuel with
  | O => None
  | S fuel =>
      match skip_ws s with
      | String c s1 =>
          if Ascii.eqb c dquote then
            '(k, r) ← parse_chars s1;
            match skip_ws r with
            | String c1 r1 =>
                if Ascii.eqb c1 ":" then
                  '(v, r2) ← parse_value fuel r1;
                  match skip_ws r2 with
                  | String c2 r3 =>
                      if Ascii.eqb c2 "," then
                        '(m, r4) ← parse_members fuel r3; Some ((k, v) :: m, r4)
                      else if Ascii.eqb c2 "}" then Some ([(k, v)], r3)
                      else None
                  | EmptyString => None
                  end
                else None
            | EmptyString => None
            end
          else None
      | EmptyString => None
      end
  end.

(** [JSON.parse]: [None] stands for the [SyntaxError]. *)
Definition parse (s : string) : option json :=
  '(v, r) ← parse_value (String.length s) s;
  match skip_ws r with
  | EmptyString => Some v
  | _ => None
  end.

End Json.

(** ** The notification service *)

Module NotificationService.

Inductive PermissionStatus := granted | denied | undetermined.

#[global] Instance PermissionStatus_eq_dec : EqDecision PermissionStatus.
Proof. solve_decision. Defined.

Inductive OS := ios | android | web.

#[global] Instance OS_eq_dec : EqDecision OS.
Proof. solve_decision. Defined.

(** The calls into [expo-notifications] that the service awaits. *)
Inductive call :=
  | getPermissionsAsync
  | requestPermissionsAsync
  | setNotificationChannelAsync
  | scheduleNotificationAsync
  | getAllScheduledNotificationsAsync.

Definition call_name (c : call) : string :=
  match c with
  | getPermissionsAsync => "getPermissionsAsync"
  | requestPermissionsAsync => "requestPermissionsAsync"
  | setNotificationChannelAsync => "setNotificationChannelAsync"
  | scheduleNotificationAsync => "scheduleNotificationAsync"
  | getAllScheduledNotificationsAsync => "getAllScheduledNotificationsAsync"
  end.

Record reminder := {
  id : Z;
  title : string;
  description : option string;
  scheduledFor : Z;
  profileName : option string;
}.

Record content := {
  c_title : string;
  c_body : string;
  c_reminderId : Z;
}.

Record request := {
  r_identifier : nat;
  r_content : content;
  r_date : Z;
  r_channelId : option string;
}.

(** What the service reads and writes: its own flag, and the operating
    system's notification centre.  [rejects c] says that the platform
    call [c] throws; [answer] is what the user replies when asked. *)
Record world := {
  isInitialized : bool;
  now : Z;
  platform : OS;
  permission : PermissionStatus;
  answer : PermissionStatus;
  rejects : call → bool;
  channels : list string;
  scheduled : list request;
  fresh : nat;
}.

Definition set_isInitialized (b : bool) (w : world) : world :=
  {| isInitialized := b; now := now w; platform := platform w;
     permission := permission w; answer := answer w; rejects := rejects w;
     channels := channels w; scheduled := scheduled w; fresh := fresh w |}.

Definition set_permission (p : PermissionStatus) (w : world) : world :=
  {| isInitialized := isInitialized w; now := now w; platform := platform w;
     permission := p; answer := answer w; rejects := rejects w;
     channels := channels w; scheduled := scheduled w; fresh := fresh w |}.

Definition add_channel (c : string) (w : world) : world :=
  {| isInitialized := isInitialized w; now := now w; platform := platform w;
     permission := permission w; answer := answer w; rejects := rejects w;
     channels := c :: channels w; scheduled := scheduled w; fresh := fresh w |}.

Definition add_request (r : request) (w : world) : world :=
  {| isInitialized := isInitialized w; now := now w; platform := platform w;
     permission := permission w; answer := answer w; rejects := rejects w;
     channels := channels w; scheduled := scheduled w ++ [r];
     fresh := S (fresh w) |}.

(** A platform call: throws when the platform rejects it. *)
Definition os_call {A} (c : call) (body : async world A) : async world A :=
  λ w, if rejects w c then (Throw (Rejected (call_name c)), w) else body w.

Definition Notifications_getPermissionsAsync : async world PermissionStatus :=
  os_call getPermissionsAsync (gets permission).

Definition Notifications_requestPermissionsAsync : async world PermissionStatus :=
  os_call requestPermissionsAsync
    (a ← gets answer; _ ← modify (set_permission a); mret a).

Definition Notifications_setNotificationChannelAsync (c : string) : async world unit :=
  os_call setNotificationChannelAsync (modify (add_channel c)).

Definition Notifications_scheduleNotificationAsync
    (c : content) (date : Z) (channel : option string) : async world nat :=
  os_call scheduleNotificationAsync
    (n ← gets fresh;
     _ ← modify (add_request {| r_identifier := n; r_content := c;
                                r_date := date; r_channelId := channel |});
     mret n).

Definition Notifications_getAllScheduledNotificationsAsync : async world (list request) :=
  os_call getAllScheduledNotificationsAsync (gets scheduled).

(** [init] returns [undefined] (here [None]) when already initialised,
    otherwise [false] or [true]. *)
Definition init : async world (option bool) :=
  initialized ← gets isInitialized;
  if initialized : bool then mret None
  else
    try_catch
      (existingStatus ← Notifications_getPermissionsAsync;
       finalStatus ←
         (if decide (existingStatus ≠ granted)
          then Notifications_requestPermissionsAsync
          else mret existingStatus);
       if decide (finalStatus ≠ granted) then mret (Some false)
       else
         os ← gets platform;
         _ ← (if decide (os = android)
              then Notifications_setNotificationChannelAsync "reminders"
              else mret tt);
         _ ← modify (set_isInitialized true);
         mret (Some true))
      (λ _, mret (Some false)).

Definition minimumBufferMs : Z := 5000.

(** [reminder.description || (reminder.profileName ? ... : ...)]: the
    empty string is falsy as well. *)
Definition truthy (s : option string) : option string :=
  match s with
  | Some "" | None => None
  | Some s => Some s
  end.

Definition notification_body (r : reminder) : string :=
  match truthy (description r) with
  | Some d => d
  | None =>
      match truthy (profileName r) with
      | Some n => "Reminder about " +:+ n
      | None => "You have a reminder"
      end
  end.

(** The result is the notification identifier, or [null] (here [None])
    for a date that is not in the future. *)
Definition scheduleReminderNotification (r : reminder) : async world (option nat) :=
  try_catch
    (initialized ← gets isInitialized;
     _ ← (if initialized : bool then mret tt
          else
            initialized ← init;
            match initialized with
            | Some true => mret tt
            | _ => throw (Error "Notifications not initialized")
            end);
     let scheduledDate := scheduledFor r in
     now ← gets now;
     if bool_decide (scheduledDate ≤ now) then mret None
     else
       let timeDifferenceMs := scheduledDate - now in
       let scheduledDate :=
         if bool_decide (timeDifferenceMs < minimumBufferMs)
         then now + minimumBufferMs
         else scheduledDate in
       let notificationContent :=
         {| c_title := title r; c_body := notification_body r;
            c_reminderId := id r |} in
       os ← gets platform;
       notificationId ←
         Notifications_scheduleNotificationAsync notificationContent scheduledDate
           (if decide (os = android) then Some "reminders" else None);
       _ ← Notifications_getAllScheduledNotificationsAsync;
       mret (Some notificationId))
    (λ error, throw error).

(** *** Cancelling and listing *)

(** The two platform calls that cancel. *)
Inductive cancel_call :=
  | cancelScheduledNotificationAsync
  | cancelAllScheduledNotificationsAsync.

Definition set_scheduled (l : list request) (w : world) : world :=
  {| isInitialized := isInitialized w; now := now w; platform := platform w;
     permission := permission w; answer := answer w; rejects := rejects w;
     channels := channels w; scheduled := l; fresh := fresh w |}.

Section cancel.

(** Whether the platform rejects a cancelling call. *)
Variable refuses : cancel_call → bool.

Definition Notifications_cancelScheduledNotificationAsync (identifier : nat)
    : async world unit :=
  λ w, if refuses cancelScheduledNotificationAsync
       then (Throw (Rejected "cancelScheduledNotificationAsync"), w)
       else (Ok tt,
             set_scheduled
               (filter (λ r, r_identifier r ≠ identifier) (scheduled w)) w).

Definition Notifications_cancelAllScheduledNotificationsAsync : async world unit :=
  λ w, if refuses cancelAllScheduledNotificationsAsync
       then (Throw (Rejected "cancelAllScheduledNotificationsAsync"), w)
       else (Ok tt, set_scheduled [] w).

Definition cancelNotification (notificationId : nat) : async world unit :=
  try_catch (Notifications_cancelScheduledNotificationAsync notificationId)
    (λ _, mret tt).

Definition cancelAllNotifications : async world unit :=
  try_catch Notifications_cancelAllScheduledNotificationsAsync (λ _, mret tt).

End cancel.

Definition getScheduledNotifications : async world (list request) :=
  try_catch Notifications_getAllScheduledNotificationsAsync (λ _, mret []).

End NotificationService.

(** ** The embedded SQL database

  The fragment of SQLite that the data-access service uses.  A table is
  its column list, its rows by rowid (the INTEGER PRIMARY KEY [id]) and
  the AUTOINCREMENT counter.  A row stores the cells that were written;
  a column without a stored cell reads as NULL, which is how a column
  added by ALTER TABLE reads in the rows that were there before.
  Statement parameters are bound to the named columns by position. *)

Module Sql.

Inductive value : Type :=
  | Null
  | Integer (n : Z)
  | Text (s : string).

#[global] Instance value_eq_dec : EqDecision value.
Proof. solve_decision. Defined.

Record column := {
  col_name : string;
  col_type : string;
  col_notnull : bool;
}.

Record table := {
  columns : list column;
  rows : gmap Z (gmap string value);
  sequence : Z;
}.

Definition column_names (t : table) : list string := col_name <$> columns t.

Definition cell (r : gmap string value) (c : string) : value :=
  default Null (r !! c).

Definition no_such_table {A} (t : string) : outcome A :=
  Throw (Error ("no such table: " +:+ t)).

(** [PRAGMA table_info(t)]: no rows for a table that does not exist. *)
Definition table_info (d : gmap string table) (t : string) : list column :=
  match d !! t with
  | Some tb => columns tb
  | None => []
  end.

(** [CREATE TABLE IF NOT EXISTS t (cols)] *)
Definition create_table (d : gmap string table) (t : string) (cols : list column)
    : gmap string table :=
  match d !! t with
  | Some _ => d
  | None => <[t := {| columns := cols; rows := ∅; sequence := 0 |}]> d
  end.

(** [ALTER TABLE t ADD COLUMN c] *)
Definition add_column (d : gmap string table) (t : string) (c : column)
    : outcome (gmap string table) :=
  match d !! t with
  | None => no_such_table t
  | Some tb =>
      if decide (col_name c ∈ column_names tb)
      then Throw (Error ("duplicate column name: " +:+ col_name c))
      else Ok (<[t := {| columns := columns tb ++ [c]; rows := rows tb;
                         sequence := sequence tb |}]> d)
  end.

(** The cells of [SET c1 = ?, c2 = ?, ...] written over a row. *)
Definition assign (cols : list string) (vals : list value) (r : gmap string value)
    : gmap string value :=
  foldl (λ r cv, <[cv.1 := cv.2]> r) r (zip cols vals).

Definition writable (tb : table) (cols : list string) (vals : list value) : Prop :=
  length cols = length vals ∧
  Forall (λ c, c ≠ "id" ∧ c ∈ column_names tb) cols.

#[global] Instance writable_dec tb cols vals : Decision (writable tb cols vals).
Proof. unfold writable. apply _. Defined.

Definition violates_notnull (tb : table) (r : gmap string value) : bool :=
  existsb (λ c, col_notnull c && bool_decide (cell r (col_name c) = Null))
    (columns tb).

(** AUTOINCREMENT: one more than the largest rowid the table ever had. *)
Definition largest_rowid (tb : table) : Z :=
  map_fold (λ k _ m, Z.max k m) (sequence tb) (rows tb).

Definition next_rowid (tb : table) : Z := largest_rowid tb + 1.

(** [INSERT INTO t (cols) VALUES (?, ...)]; the result is [lastInsertRowId]. *)
Definition insert (d : gmap string table) (t : string)
    (cols : list string) (vals : list value) : outcome (gmap string table * Z) :=
  match d !! t with
  | None => no_such_table t
  | Some tb =>
      if decide (writable tb cols vals) then
        let r := assign cols vals ∅ in
        if violates_notnull tb r
        then Throw (Error ("NOT NULL constraint failed: " +:+ t))
        else
          let k := next_rowid tb in
          Ok (<[t := {| columns := columns tb; rows := <[k := r]> (rows tb);
                        sequence := k |}]> d, k)
      else Throw (Error ("cannot prepare statement on " +:+ t))
  end.

(** [UPDATE t SET c1 = ?, ... WHERE id = ?] *)
Definition update (d : gmap string table) (t : string)
    (cols : list string) (vals : list value) (k : Z) : outcome (gmap string table) :=
  match d !! t with
  | None => no_such_table t
  | Some tb =>
      if decide (writable tb cols vals) then
        match rows tb !! k with
        | None => Ok d
        | Some r =>
            let r' := assign cols vals r in
            if violates_notnull tb r'
            then Throw (Error ("NOT NULL constraint failed: " +:+ t))
            else Ok (<[t := {| columns := columns tb;
                               rows := <[k := r']> (rows tb);
                               sequence := sequence tb |}]> d)
        end
      else Throw (Error ("cannot prepare statement on " +:+ t))
  end.

(** [DELETE FROM t WHERE id = ?] *)
Definition delete_by_id (d : gmap string table) (t : string) (k : Z)
    : outcome (gmap string table) :=
  match d !! t with
  | None => no_such_table t
  | Some tb =>
      Ok (<[t := {| columns := columns tb; rows := delete k (rows tb);
                    sequence := sequence tb |}]> d)
  end.

(** [c = ?] on a row: never true for NULL on either side. *)
Definition matches (c : string) (v : value) (r : gmap string value) : Prop :=
  v ≠ Null ∧ cell r c = v.

#[global] Instance matches_dec c v r : Decision (matches c v r).
Proof. unfold matches. apply _. Defined.

(** [DELETE FROM t WHERE c = ?] for a column [c] other than [id]. *)
Definition delete_where (d : gmap string table) (t : string) (c : string) (v : value)
    : outcome (gmap string table) :=
  match d !! t with
  | None => no_such_table t
  | Some tb =>
      if decide (c ∈ column_names tb) then
        Ok (<[t := {| columns := columns tb;
                      rows := filter (λ kr, ¬ matches c v kr.2) (rows tb);
                      sequence := sequence tb |}]> d)
      else Throw (Error ("no such column: " +:+ c))
  end.

(** A row as [SELECT *] returns it: one property per column. *)
Definition result_row (tb : table) (k : Z) (r : gmap string value)
    : gmap string value :=
  list_to_map
    ((λ c, (c, if decide (c = "id") then Integer k else cell r c))
       <$> column_names tb).

(** [SELECT * FROM t WHERE id = ?] through [getFirstAsync] *)
Definition select_by_id (d : gmap string table) (t : string) (k : Z)
    : outcome (option (gmap string value)) :=
  match d !! t with
  | None => no_such_table t
  | Some tb => Ok (result_row tb k <$> rows tb !! k)
  end.

(** [SELECT * FROM t] *)
Definition select_all (d : gmap string table) (t : string)
    : outcome (list (gmap string value)) :=
  match d !! t with
  | None => no_such_table t
  | Some tb => Ok ((λ kr, result_row tb kr.1 kr.2) <$> map_to_list (rows tb))
  end.

(** The order of [ORDER BY]: NULL first, then numbers, then text by its
    bytes. *)
Definition value_le (a b : value) : Prop :=
  match a, b with
  | Null, _ => True
  | Integer _, Null => False
  | Integer m, Integer n => m ≤ n
  | Integer _, Text _ => True
  | Text _, (Null | Integer _) => False
  | Text s, Text t => String.le s t
  end.

#[global] Instance value_le_dec : RelDecision value_le.
Proof. intros [] []; simpl; apply _. Defined.

Definition order_le (c : string) (desc : bool) (r1 r2 : gmap string value) : Prop :=
  if desc then value_le (cell r2 c) (cell r1 c)
  else value_le (cell r1 c) (cell r2 c).

#[global] Instance order_le_dec c desc : RelDecision (order_le c desc).
Proof. intros r1 r2. unfold order_le. destruct desc; apply _. Defined.

(** [ORDER BY c ASC] or [ORDER BY c DESC] *)
Definition order_by (c : string) (desc : bool) (l : list (gmap string value))
    : list (gmap string value) :=
  merge_sort (order_le c desc) l.

(** [DROP TABLE IF EXISTS t] *)
Definition drop_table (d : gmap string table) (t : string) : gmap string table :=
  delete t d.

(** [UPDATE t SET c1 = ?, ... WHERE id = ?] with a key parameter that may
    be NULL: [id = NULL] holds for no row. *)
Definition update_where_id (d : gmap string table) (t : string)
    (cols : list string) (vals : list value) (k : option Z)
    : outcome (gmap string table) :=
  match k with
  | Some k => update d t cols vals k
  | None =>
      match d !! t with
      | None => no_such_table t
      | Some tb =>
          if decide (writable tb cols vals) then Ok d
          else Throw (Error ("cannot prepare statement on " +:+ t))
      end
  end.

(** An [INSERT] into a table with DEFAULT clauses: a column with a default
    that the statement does not name is written with its default. *)
Definition insert_with_defaults (d : gmap string table) (t : string)
    (defaults : list (string * value)) (cols : list string) (vals : list value)
    : outcome (gmap string table * Z) :=
  let omitted := filter (λ cv, cv.1 ∉ cols) defaults in
  insert d t (cols ++ (fst <$> omitted)) (vals ++ (snd <$> omitted)).

End Sql.

(** ** The data-access service *)

Module DatabaseService.
Import Json.

(** The argument of [createOrUpdateProfile], with the fields the method
    destructures.  [None] is a property that is absent, [undefined] or
    [null]; for the list-valued fields it is the absent one, which the
    destructuring defaults to the empty array. *)
Record profileData := {
  id : option Z;
  name : option string;
  age : option Z;
  phone : option string;
  email : option string;
  relationship : option string;
  job : option string;
  notes : option string;
  tags : option (list json);
  photoUri : option string;
  parents : option (list json);
  kids : option (list json);
  brothers : option (list json);
  sisters : option (list json);
  siblings : option (list json);
  pets : option (list json);
  foodLikes : option (list json);
  foodDislikes : option (list json);
  interests : option (list json);
  instagram : option string;
  snapchat : option string;
  twitter : option string;
  tiktok : option string;
  facebook : option string;
  birthday : option string;
  lastContactDate : option string;
}.

(** What [AuthService] and the remote client answer: the session's user
    id, whether [AuthService.init] throws, whether there is a client, and
    what its [insert] does (throws, returns an error, or succeeds). *)
Record backend := {
  getSession : outcome (option string);
  authInit : outcome unit;
  supabase : option (outcome (option string));
}.

Record collectionData := {
  user_id : string;
  profile_data : profileData;
  operation_type : string;
  profile_id : option Z;
}.

Record world := {
  db : option (gmap string Sql.table);
  isWebFallback : bool;
  now : Z;
  toISOString : Z → string;
  random : QArith_base.Q;
  remote : backend;
  collected_profiles_data : list collectionData;
}.

Definition set_db (d : gmap string Sql.table) (w : world) : world :=
  {| db := Some d; isWebFallback := isWebFallback w; now := now w;
     toISOString := toISOString w; random := random w; remote := remote w;
     collected_profiles_data := collected_profiles_data w |}.

Definition collect (c : collectionData) (w : world) : world :=
  {| db := db w; isWebFallback := isWebFallback w; now := now w;
     toISOString := toISOString w; random := random w; remote := remote w;
     collected_profiles_data := collected_profiles_data w ++ [c] |}.

Definition lift {A} (o : outcome A) : async world A := λ w, (o, w).

(** [this.db!]: a [TypeError] when there is no database. *)
Definition this_db : async world (gmap string Sql.table) :=
  λ w, match db w with
       | Some d => (Ok d, w)
       | None => (Throw (Error "TypeError: null is not an object"), w)
       end.

(** [runAsync] and [execAsync] of a statement that changes the data. *)
Definition run {A} (stmt : gmap string Sql.table → outcome (gmap string Sql.table * A))
    : async world A :=
  d ← this_db;
  r ← lift (stmt d);
  _ ← modify (set_db r.1);
  mret r.2.

Definition exec (stmt : gmap string Sql.table → outcome (gmap string Sql.table))
    : async world unit :=
  run (λ d, match stmt d with Ok d' => Ok (d', tt) | Throw e => Throw e end).

(** [getAllAsync] and [getFirstAsync] *)
Definition query {A} (q : gmap string Sql.table → outcome A) : async world A :=
  d ← this_db; lift (q d).

(** [new Date().toISOString()] *)
Definition Date_now_ISO : async world string :=
  λ w, (Ok (toISOString w (now w)), w).

(** *** The schema of [createTables] *)

Definition col (n t : string) : Sql.column :=
  {| Sql.col_name := n; Sql.col_type := t; Sql.col_notnull := false |}.
Definition col_required (n t : string) : Sql.column :=
  {| Sql.col_name := n; Sql.col_type := t; Sql.col_notnull := true |}.

Definition profiles_schema : list Sql.column :=
  [ col "id" "INTEGER"; col_required "name" "TEXT"; col "age" "INTEGER";
    col "phone" "TEXT"; col "email" "TEXT"; col "relationship" "TEXT";
    col "job" "TEXT"; col "notes" "TEXT"; col "tags" "TEXT";
    col "photoUri" "TEXT"; col "parents" "TEXT"; col "kids" "TEXT";
    col "brothers" "TEXT"; col "sisters" "TEXT"; col "siblings" "TEXT";
    col "pets" "TEXT"; col "foodLikes" "TEXT"; col "foodDislikes" "TEXT";
    col "interests" "TEXT"; col "instagram" "TEXT"; col "snapchat" "TEXT";
    col "twitter" "TEXT"; col "tiktok" "TEXT"; col "facebook" "TEXT";
    col "birthday" "TEXT"; col "lastContactDate" "TEXT";
    col "createdAt" "TEXT"; col "updatedAt" "TEXT" ].

Definition interactions_schema : list Sql.column :=
  [ col "id" "INTEGER"; col "profileId" "INTEGER";
    col_required "description" "TEXT"; col "extractedData" "TEXT";
    col "type" "TEXT"; col "location" "TEXT"; col "createdAt" "TEXT" ].

Definition reminders_schema : list Sql.column :=
  [ col "id" "INTEGER"; col "profileId" "INTEGER"; col_required "title" "TEXT";
    col "description" "TEXT"; col "type" "TEXT";
    col_required "scheduledFor" "TEXT"; col "completed" "INTEGER";
    col "completedAt" "TEXT"; col "notificationId" "TEXT";
    col "createdAt" "TEXT" ].

Definition life_events_schema : list Sql.column :=
  [ col "id" "INTEGER"; col "profileId" "INTEGER";
    col_required "eventType" "TEXT"; col "description" "TEXT";
    col "eventDate" "TEXT"; col "importance" "INTEGER";
    col "createdAt" "TEXT" ].

Definition feedback_schema : list Sql.column :=
  [ col "id" "INTEGER"; col_required "type" "TEXT"; col_required "subject" "TEXT";
    col_required "message" "TEXT"; col "userEmail" "TEXT";
    col "deviceInfo" "TEXT"; col "appVersion" "TEXT"; col "status" "TEXT";
    col "createdAt" "TEXT" ].

Fixpoint for_each {A} (l : list A) (body : A → async world unit) : async world unit :=
  match l with
  | [] => mret tt
  | a :: l' => _ ← body a; for_each l' body
  end.

Definition migrateDatabase : async world unit :=
  d ← gets db;
  match d with
  | None => mret tt
  | Some _ =>
      try_catch
        (tableInfo ← query (λ d, Ok (Sql.table_info d "profiles"));
         let columnNames := Sql.col_name <$> tableInfo in
         let missing (c : string) : list Sql.column :=
           if decide (c ∈ columnNames) then [] else [col c "TEXT"] in
         let missingColumns :=
           missing "parents" ++ missing "brothers" ++ missing "sisters" ++
           missing "instagram" ++ missing "snapchat" ++ missing "twitter" ++
           missing "tiktok" ++ missing "facebook" in
         for_each missingColumns
           (λ column, exec (λ d, Sql.add_column d "profiles" column)))
        (λ _, mret tt)
  end.

Definition createTables : async world unit :=
  d ← gets db;
  match d with
  | None => mret tt
  | Some _ =>
      try_catch
        (_ ← migrateDatabase;
         _ ← exec (λ d, Ok (Sql.create_table d "profiles" profiles_schema));
         _ ← exec (λ d, Ok (Sql.create_table d "interactions" interactions_schema));
         _ ← exec (λ d, Ok (Sql.create_table d "reminders" reminders_schema));
         _ ← exec (λ d, Ok (Sql.create_table d "life_events" life_events_schema));
         exec (λ d, Ok (Sql.create_table d "feedback" feedback_schema)))
        (λ error, throw error)
  end.

(** *** Profiles *)

Definition str (s : string) : json := JString s.

Definition mockProfiles : list (gmap string json) :=
  [ list_to_map
      [ ("id", JNumber 1); ("name", str "John Doe"); ("age", JNumber 30);
        ("phone", str "+1234567890"); ("email", str "john@example.com");
        ("relationship", str "Friend"); ("job", str "Software Engineer");
        ("notes", str "Met at conference last year");
        ("tags", JArray [str "tech"; str "colleague"]); ("photoUri", JNull);
        ("kids", JArray []); ("siblings", JArray [str "Jane Doe"]);
        ("pets", JArray [str "Max (dog)"]);
        ("foodLikes", JArray [str "pizza"; str "sushi"]);
        ("foodDislikes", JArray [str "mushrooms"]);
        ("interests", JArray [str "coding"; str "hiking"]);
        ("birthday", str "1994-05-15"); ("lastContactDate", str "2024-01-15");
        ("createdAt", str "2024-01-01T00:00:00.000Z");
        ("updatedAt", str "2024-01-15T00:00:00.000Z") ];
    list_to_map
      [ ("id", JNumber 2); ("name", str "Sarah Smith"); ("age", JNumber 28);
        ("phone", str "+1987654321"); ("email", str "sarah@example.com");
        ("relationship", str "Colleague"); ("job", str "Designer");
        ("notes", str "Great at UI/UX design");
        ("tags", JArray [str "design"; str "creative"]); ("photoUri", JNull);
        ("kids", JArray []); ("siblings", JArray []);
        ("pets", JArray [str "Luna (cat)"]);
        ("foodLikes", JArray [str "pasta"; str "salads"]);
        ("foodDislikes", JArray [str "spicy food"]);
        ("interests", JArray [str "art"; str "photography"]);
        ("birthday", str "1996-03-22"); ("lastContactDate", str "2024-01-10");
        ("createdAt", str "2024-01-01T00:00:00.000Z");
        ("updatedAt", str "2024-01-10T00:00:00.000Z") ] ].

Definition to_json (v : Sql.value) : json :=
  match v with
  | Sql.Null => JNull
  | Sql.Integer n => JNumber n
  | Sql.Text s => JString s
  end.

(** [x ? JSON.parse(x) : []] on a column of a result row: [null], the
    empty string, zero and a missing property are falsy. *)
Definition parse_or_empty (x : option Sql.value) : outcome json :=
  match x with
  | Some (Sql.Text s) =>
      if decide (s = "") then Ok (JArray [])
      else match parse s with
           | Some v => Ok v
           | None => Throw (Error "SyntaxError: JSON Parse error")
           end
  | Some (Sql.Integer n) => if decide (n = 0) then Ok (JArray []) else Ok (JNumber n)
  | Some Sql.Null | None => Ok (JArray [])
  end.

(** The object literal [{...profile, tags: ..., ..., interests: ...}]. *)
Definition with_lists (profile : gmap string Sql.value) : outcome (gmap string json) :=
  tags ← parse_or_empty (profile !! "tags");
  parents ← parse_or_empty (profile !! "parents");
  kids ← parse_or_empty (profile !! "kids");
  brothers ← parse_or_empty (profile !! "brothers");
  sisters ← parse_or_empty (profile !! "sisters");
  siblings ← parse_or_empty (profile !! "siblings");
  pets ← parse_or_empty (profile !! "pets");
  foodLikes ← parse_or_empty (profile !! "foodLikes");
  foodDislikes ← parse_or_empty (profile !! "foodDislikes");
  interests ← parse_or_empty (profile !! "interests");
  mret (<["interests" := interests]> $ <["foodDislikes" := foodDislikes]> $
        <["foodLikes" := foodLikes]> $ <["pets" := pets]> $
        <["siblings" := siblings]> $ <["sisters" := sisters]> $
        <["brothers" := brothers]> $ <["kids" := kids]> $
        <["parents" := parents]> $ <["tags" := tags]> $
        (to_json <$> profile)).

(** [list.map(f)] for an [f] that may throw. *)
Fixpoint map_outcome {A B} (f : A → outcome B) (l : list A) : outcome (list B) :=
  match l with
  | [] => mret []
  | a :: l' => b ← f a; bs ← map_outcome f l'; mret (b :: bs)
  end.

Definition getAllProfiles : async world (list (gmap string json)) :=
  fallback ← gets isWebFallback;
  if fallback : bool then mret mockProfiles
  else
    result ← query (λ d,
      l ← Sql.select_all d "profiles"; mret (Sql.order_by "updatedAt" true l));
    lift (map_outcome with_lists result).

(** [x === n] for a number [n] *)
Definition strict_equal_number (x : option json) (n : Z) : bool :=
  match x with
  | Some (JNumber m) => bool_decide (m = n)
  | _ => false
  end.

(** [null] is [None]. *)
Definition getProfileById (id : Z) : async world (option (gmap string json)) :=
  fallback ← gets isWebFallback;
  if fallback : bool then
    mockProfiles ← getAllProfiles;
    mret (List.find (λ profile, strict_equal_number (profile !! "id") id)
            mockProfiles)
  else
    result ← query (λ d, Sql.select_by_id d "profiles" id);
    match result with
    | None => mret None
    | Some result => p ← lift (with_lists result); mret (Some p)
    end.

(** A number or a string used as a condition: [0], the empty string,
    [null] and [undefined] are falsy. *)
Definition truthy_number (n : option Z) : option Z :=
  match n with
  | Some 0 | None => None
  | Some n => Some n
  end.

Definition truthy_string (s : option string) : option string :=
  match s with
  | Some "" | None => None
  | Some s => Some s
  end.

Definition AuthService_getSession : async world (option string) :=
  λ w, (getSession (remote w), w).

Definition AuthService_init : async world unit :=
  λ w, (authInit (remote w), w).

(** [supabase.from('collected_profiles_data').insert([c])]: the [error]
    property of what it resolves to. *)
Definition supabase_insert (result : outcome (option string)) (c : collectionData)
    : async world (option string) :=
  λ w, match result with
       | Ok None => (Ok None, collect c w)
       | Ok (Some error) => (Ok (Some error), w)
       | Throw e => (Throw e, w)
       end.

Definition logProfileDataForCollection
    (profileData : profileData) (operationType : string) (profileId : option Z)
    : async world unit :=
  try_catch
    (session ← AuthService_getSession;
     match truthy_string session with
     | None => mret tt
     | Some user =>
         _ ← AuthService_init;
         supabase ← gets (λ w, supabase (remote w));
         match supabase with
         | None => mret tt
         | Some insert =>
             let collectionData :=
               {| user_id := user; profile_data := profileData;
                  operation_type := operationType;
                  profile_id := truthy_number profileId |} in
             error ← supabase_insert insert collectionData;
             mret tt
         end
     end)
    (λ error, mret tt).

Definition text (s : option string) : Sql.value :=
  match s with
  | Some s => Sql.Text s
  | None => Sql.Null
  end.

Definition integer (n : option Z) : Sql.value :=
  match n with
  | Some n => Sql.Integer n
  | None => Sql.Null
  end.

(** [JSON.stringify(list)] as a statement parameter. *)
Definition json_text (l : list json) : Sql.value := Sql.Text (stringify (JArray l)).

(** [Math.floor(Math.random() * 1000) + 3] *)
Definition mock_id (r : QArith_base.Q) : Z :=
  Qround.Qfloor (QArith_base.Qmult r (QArith_base.inject_Z 1000)) + 3.

(** The [UPDATE profiles SET ... WHERE id = ?] statement of the update
    path with its parameter array.  The list-valued fields are the
    destructured ones: [tags = []] and so on. *)
Definition update_profile (profileData : profileData) (now : string) (id : Z)
    (d : gmap string Sql.table) : outcome (gmap string Sql.table) :=
  let tags := default [] (tags profileData) in
  let parents := default [] (parents profileData) in
  let kids := default [] (kids profileData) in
  let brothers := default [] (brothers profileData) in
  let sisters := default [] (sisters profileData) in
  let siblings := default [] (siblings profileData) in
  let pets := default [] (pets profileData) in
  let foodLikes := default [] (foodLikes profileData) in
  let foodDislikes := default [] (foodDislikes profileData) in
  let interests := default [] (interests profileData) in
  Sql.update d "profiles"
    [ "name"; "age"; "phone"; "email"; "relationship";
      "job"; "notes"; "tags"; "photoUri"; "parents"; "kids"; "brothers";
      "sisters"; "siblings"; "pets"; "foodLikes"; "foodDislikes";
      "interests"; "instagram"; "snapchat"; "twitter"; "tiktok"; "facebook";
      "birthday"; "lastContactDate"; "updatedAt" ]
    [ text (name profileData); integer (age profileData);
      text (phone profileData); text (email profileData);
      text (relationship profileData); text (job profileData);
      text (notes profileData);
      json_text tags; text (photoUri profileData); json_text parents;
      json_text kids; json_text brothers; json_text sisters;
      json_text siblings; json_text pets;
      json_text foodLikes; json_text foodDislikes;
      json_text interests; text (instagram profileData);
      text (snapchat profileData); text (twitter profileData);
      text (tiktok profileData); text (facebook profileData);
      text (birthday profileData); text (lastContactDate profileData);
      Sql.Text now ]
    id.

(** The [INSERT INTO profiles (...) VALUES (...)] statement of the create
    path with its parameter array. *)
Definition insert_profile (profileData : profileData) (now : string)
    (d : gmap string Sql.table) : outcome (gmap string Sql.table * Z) :=
  let tags := default [] (tags profileData) in
  let parents := default [] (parents profileData) in
  let kids := default [] (kids profileData) in
  let brothers := default [] (brothers profileData) in
  let sisters := default [] (sisters profileData) in
  let siblings := default [] (siblings profileData) in
  let pets := default [] (pets profileData) in
  let foodLikes := default [] (foodLikes profileData) in
  let foodDislikes := default [] (foodDislikes profileData) in
  let interests := default [] (interests profileData) in
  Sql.insert d "profiles"
    [ "name"; "age"; "phone"; "email"; "relationship"; "job"; "notes";
      "tags"; "photoUri"; "parents"; "kids"; "brothers"; "sisters";
      "siblings"; "pets"; "foodLikes"; "foodDislikes";
      "interests"; "instagram"; "snapchat"; "twitter"; "tiktok"; "facebook";
      "birthday"; "lastContactDate"; "createdAt"; "updatedAt" ]
    [ text (name profileData); integer (age profileData);
      text (phone profileData); text (email profileData);
      text (relationship profileData); text (job profileData);
      text (notes profileData);
      json_text tags; text (photoUri profileData); json_text parents;
      json_text kids; json_text brothers; json_text sisters;
      json_text siblings; json_text pets;
      json_text foodLikes; json_text foodDislikes;
      json_text interests; text (instagram profileData);
      text (snapchat profileData); text (twitter profileData);
      text (tiktok profileData); text (facebook profileData);
      text (birthday profileData); text (lastContactDate profileData);
      Sql.Text now; Sql.Text now ].

Definition createOrUpdateProfile (profileData : profileData) : async world Z :=
  fallback ← gets isWebFallback;
  if fallback : bool then
    r ← gets random;
    let mockId := default (mock_id r) (truthy_number (id profileData)) in
    _ ← logProfileDataForCollection profileData
          (match truthy_number (id profileData) with
           | Some _ => "update"
           | None => "create"
           end)
          (Some mockId);
    mret mockId
  else
    now ← Date_now_ISO;
    match truthy_number (id profileData) with
    | Some id =>
        _ ← exec (update_profile profileData now id);
        _ ← logProfileDataForCollection profileData "update" (Some id);
        mret id
    | None =>
        newProfileId ← run (insert_profile profileData now);
        _ ← logProfileDataForCollection profileData "create" (Some newProfileId);
        mret newProfileId
    end.

(** *** Reminders *)

Definition mockReminders (w : world) : list (gmap string json) :=
  [ list_to_map
      [ ("id", JNumber 1); ("profileId", JNumber 1);
        ("title", str "Follow up with John");
        ("description", str "Check on his new project");
        ("type", str "followup");
        ("scheduledFor", str (toISOString w (now w + 24 * 60 * 60 * 1000)));
        ("completed", JNumber 0); ("completedAt", JNull);
        ("notificationId", JNull);
        ("createdAt", str "2024-01-01T00:00:00.000Z");
        ("profileName", str "John Doe"); ("profilePhoto", JNull) ];
    list_to_map
      [ ("id", JNumber 2); ("profileId", JNumber 2);
        ("title", str "Birthday reminder");
        ("description", str "Sarah's birthday is coming up");
        ("type", str "birthday");
        ("scheduledFor", str (toISOString w (now w + 7 * 24 * 60 * 60 * 1000)));
        ("completed", JNumber 0); ("completedAt", JNull);
        ("notificationId", JNull);
        ("createdAt", str "2024-01-01T00:00:00.000Z");
        ("profileName", str "Sarah Smith"); ("profilePhoto", JNull) ] ].

(** One row of [reminders r LEFT JOIN profiles p ON r.profileId = p.id]
    with the columns [r.*, p.name as profileName, p.photoUri as
    profilePhoto]: the profile's columns are NULL without a match. *)
Definition joined_row (r p : Sql.table) (k : Z) (row : gmap string Sql.value)
    : gmap string Sql.value :=
  let owner :=
    match Sql.cell row "profileId" with
    | Sql.Integer i => Sql.rows p !! i
    | _ => None
    end in
  <["profilePhoto" := from_option (λ o, Sql.cell o "photoUri") Sql.Null owner]> $
  <["profileName" := from_option (λ o, Sql.cell o "name") Sql.Null owner]> $
  Sql.result_row r k row.

(** [SELECT r.*, p.name as profileName, p.photoUri as profilePhoto
     FROM reminders r LEFT JOIN profiles p ON r.profileId = p.id
     ORDER BY r.scheduledFor ASC] *)
Definition select_reminders (d : gmap string Sql.table)
    : outcome (list (gmap string Sql.value)) :=
  match d !! "reminders", d !! "profiles" with
  | Some r, Some p =>
      if decide ("profileId" ∈ Sql.column_names r ∧
                 "scheduledFor" ∈ Sql.column_names r ∧
                 "name" ∈ Sql.column_names p ∧
                 "photoUri" ∈ Sql.column_names p)
      then Ok (Sql.order_by "scheduledFor" false
                 ((λ kr, joined_row r p kr.1 kr.2) <$> map_to_list (Sql.rows r)))
      else Throw (Error "no such column")
  | None, _ => Sql.no_such_table "reminders"
  | _, None => Sql.no_such_table "profiles"
  end.

Definition getAllReminders : async world (list (gmap string json)) :=
  fallback ← gets isWebFallback;
  if fallback : bool then gets mockReminders
  else
    result ← query select_reminders;
    mret ((λ row : gmap string Sql.value, to_json <$> row) <$> result).

Record reminderData := {
  profileId : option Z;
  title : option string;
  description : option string;
  type : option string;
  scheduledFor : option string;
}.

Definition createReminder (reminderData : reminderData) : async world Z :=
  fallback ← gets isWebFallback;
  if fallback : bool then
    r ← gets random;
    mret (Qround.Qfloor (QArith_base.Qmult r (QArith_base.inject_Z 1000)) + 1)
  else
    let type := default "general" (type reminderData) in
    now ← Date_now_ISO;
    run (λ d, Sql.insert d "reminders"
           [ "profileId"; "title"; "description"; "type"; "scheduledFor";
             "createdAt"; "notificationId" ]
           [ integer (profileId reminderData); text (title reminderData);
             text (description reminderData); Sql.Text type;
             text (scheduledFor reminderData); Sql.Text now; Sql.Null ]).

Definition deleteProfile (profileId : Z) : async world unit :=
  fallback ← gets isWebFallback;
  if fallback : bool then mret tt
  else
    _ ← exec (λ d, Sql.delete_where d "reminders" "profileId" (Sql.Integer profileId));
    _ ← exec (λ d, Sql.delete_where d "interactions" "profileId" (Sql.Integer profileId));
    _ ← exec (λ d, Sql.delete_where d "life_events" "profileId" (Sql.Integer profileId));
    exec (λ d, Sql.delete_by_id d "profiles" profileId).

(** [Math.floor(Math.random() * 1000) + 1], the identifier that the
    methods below return in web-fallback mode. *)
Definition simulated_id (r : QArith_base.Q) : Z :=
  Qround.Qfloor (QArith_base.Qmult r (QArith_base.inject_Z 1000)) + 1.

Definition completeReminder (reminderId : Z) : async world unit :=
  fallback ← gets isWebFallback;
  if fallback : bool then mret tt
  else
    now ← Date_now_ISO;
    exec (λ d, Sql.update d "reminders" ["completed"; "completedAt"]
                 [Sql.Integer 1; Sql.Text now] reminderId).

Definition snoozeReminder (reminderId : Z) (newDate : string) : async world unit :=
  fallback ← gets isWebFallback;
  if fallback : bool then mret tt
  else
    exec (λ d, Sql.update d "reminders" ["scheduledFor"] [Sql.Text newDate]
                 reminderId).

Definition updateReminderNotificationId (reminderId : Z)
    (notificationId : option string) : async world unit :=
  fallback ← gets isWebFallback;
  if fallback : bool then mret tt
  else
    exec (λ d, Sql.update d "reminders" ["notificationId"] [text notificationId]
                 reminderId).

(** The argument of [updateReminder]: the fields of a reminder and its
    [id].  Nothing is defaulted here. *)
Module reminderUpdate.
Record t := {
  id : option Z;
  title : option string;
  description : option string;
  type : option string;
  profileId : option Z;
  scheduledFor : option string;
}.
End reminderUpdate.

Definition updateReminder (reminderData : reminderUpdate.t) : async world unit :=
  fallback ← gets isWebFallback;
  if fallback : bool then mret tt
  else
    exec (λ d, Sql.update_where_id d "reminders"
                 [ "title"; "description"; "type"; "profileId"; "scheduledFor" ]
                 [ text (reminderUpdate.title reminderData);
                   text (reminderUpdate.description reminderData);
                   text (reminderUpdate.type reminderData);
                   integer (reminderUpdate.profileId reminderData);
                   text (reminderUpdate.scheduledFor reminderData) ]
                 (reminderUpdate.id reminderData)).

(** [SELECT r.*, p.name as profileName, p.photoUri as profilePhoto
     FROM reminders r LEFT JOIN profiles p ON r.profileId = p.id
     WHERE r.id = ?] through [getFirstAsync] *)
Definition select_reminder (k : Z) (d : gmap string Sql.table)
    : outcome (option (gmap string Sql.value)) :=
  match d !! "reminders", d !! "profiles" with
  | Some r, Some p =>
      if decide ("profileId" ∈ Sql.column_names r ∧
                 "name" ∈ Sql.column_names p ∧
                 "photoUri" ∈ Sql.column_names p)
      then Ok (joined_row r p k <$> Sql.rows r !! k)
      else Throw (Error "no such column")
  | None, _ => Sql.no_such_table "reminders"
  | _, None => Sql.no_such_table "profiles"
  end.

(** [null] is [None]. *)
Definition getReminderById (reminderId : Z) : async world (option (gmap string json)) :=
  fallback ← gets isWebFallback;
  if fallback : bool then
    mockReminders ← getAllReminders;
    mret (List.find (λ reminder, strict_equal_number (reminder !! "id") reminderId)
            mockReminders)
  else
    result ← query (select_reminder reminderId);
    mret ((λ row : gmap string Sql.value, to_json <$> row) <$> result).

Definition deleteReminder (reminderId : Z) : async world unit :=
  fallback ← gets isWebFallback;
  if fallback : bool then mret tt
  else exec (λ d, Sql.delete_by_id d "reminders" reminderId).

(** *** Interactions and life events *)

(** The argument of [addInteraction]; an absent [type] is defaulted by
    the destructuring. *)
Module interactionData.
Record t := {
  profileId : option Z;
  description : option string;
  extractedData : option string;
  type : option string;
  location : option string;
}.
End interactionData.

Definition addInteraction (data : interactionData.t) : async world Z :=
  fallback ← gets isWebFallback;
  if fallback : bool then
    r ← gets random;
    mret (simulated_id r)
  else
    let type := default "conversation" (interactionData.type data) in
    now ← Date_now_ISO;
    run (λ d, Sql.insert d "interactions"
           [ "profileId"; "description"; "extractedData"; "type"; "location";
             "createdAt" ]
           [ integer (interactionData.profileId data);
             text (interactionData.description data);
             text (interactionData.extractedData data); Sql.Text type;
             text (interactionData.location data); Sql.Text now ]).

(** The argument of [addLifeEvent]; an absent [importance] is defaulted
    by the destructuring. *)
Module eventData.
Record t := {
  profileId : option Z;
  eventType : option string;
  description : option string;
  eventDate : option string;
  importance : option Z;
}.
End eventData.

Definition addLifeEvent (data : eventData.t) : async world Z :=
  fallback ← gets isWebFallback;
  if fallback : bool then
    r ← gets random;
    mret (simulated_id r)
  else
    let importance := default 1 (eventData.importance data) in
    now ← Date_now_ISO;
    run (λ d, Sql.insert d "life_events"
           [ "profileId"; "eventType"; "description"; "eventDate"; "importance";
             "createdAt" ]
           [ integer (eventData.profileId data);
             text (eventData.eventType data);
             text (eventData.description data);
             text (eventData.eventDate data); Sql.Integer importance;
             Sql.Text now ]).

(** *** Clearing the data *)

(** The four [DROP TABLE IF EXISTS] statements are one [execAsync]; the
    feedback table is not among them. *)
Definition clearAllData : async world unit :=
  fallback ← gets isWebFallback;
  if fallback : bool then mret tt
  else
    _ ← exec (λ d, Ok (Sql.drop_table
                         (Sql.drop_table
                            (Sql.drop_table (Sql.drop_table d "life_events")
                               "reminders")
                            "interactions")
                         "profiles"));
    createTables.

(** *** Feedback *)

Module feedbackData.
Record t := {
  type : option string;
  subject : option string;
  message : option string;
  userEmail : option string;
  deviceInfo : option string;
  appVersion : option string;
}.
End feedbackData.

(** What a request to the remote feedback table resolves to:
    [{ data, error }]. *)
Record response (A : Type) := {
  data : option A;
  error : option string;
}.
Arguments data {A} _.
Arguments error {A} _.

(** The remote client [this.supabase] of the feedback methods: what its
    insert, select and update requests do (reject, or resolve to a
    response). *)
Record feedbackClient := {
  feedback_insert : outcome (response (gmap string json));
  feedback_select : outcome (response (list (gmap string json)));
  feedback_update : outcome (response unit);
}.

(** The DEFAULT clauses of the feedback table that an INSERT of the
    service can reach: [createdAt] is always named. *)
Definition feedback_defaults : list (string * Sql.value) :=
  [ ("status", Sql.Text "open") ].

Definition mockFeedback : list (gmap string json) :=
  [ list_to_map
      [ ("id", JNumber 1); ("type", str "bug");
        ("subject", str "App crashes when adding profile");
        ("message",
         str "The app crashes whenever I try to add a new profile with a photo.");
        ("userEmail", str "user@example.com");
        ("deviceInfo", str "iPhone 14 Pro, iOS 17.2");
        ("appVersion", str "1.0.0"); ("status", str "open");
        ("createdAt", str "2024-01-15T10:30:00.000Z") ];
    list_to_map
      [ ("id", JNumber 2); ("type", str "feature");
        ("subject", str "Dark mode support");
        ("message", str "Would love to see dark mode support in the app!");
        ("userEmail", str "feedback@example.com");
        ("deviceInfo", str "Samsung Galaxy S23, Android 14");
        ("appVersion", str "1.0.0"); ("status", str "open");
        ("createdAt", str "2024-01-14T15:45:00.000Z") ] ].

Section feedback.

(** The property [this.supabase]; the class reads it and never assigns
    it. *)
Variable this_supabase : option feedbackClient.

(** The [try] block of the three methods: [Some] is what the method
    returns from inside the block, [None] is the fall through to local
    storage. *)
Definition try_remote {A B} (request : feedbackClient → outcome (response A))
    (result : response A → async world B) : async world (option B) :=
  match this_supabase with
  | None => mret None
  | Some client =>
      try_catch
        (r ← lift (request client);
         match error r with
         | Some e => throw (Error e)
         | None => b ← result r; mret (Some b)
         end)
        (λ _, mret None)
  end.

(** The result is [data.id] of the remote row ([None] is [undefined]) or
    the rowid of the local one. *)
Definition submitFeedback (feedbackData : feedbackData.t) : async world (option json) :=
  remote ← try_remote feedback_insert
    (λ r, match data r with
          | Some row => mret (row !! "id")
          | None => throw (Error "TypeError: null is not an object")
          end);
  match remote with
  | Some id => mret id
  | None =>
      fallback ← gets isWebFallback;
      if fallback : bool then
        r ← gets random;
        mret (Some (JNumber (simulated_id r)))
      else
        now ← Date_now_ISO;
        k ← run (λ d, Sql.insert_with_defaults d "feedback" feedback_defaults
                   [ "type"; "subject"; "message"; "userEmail"; "deviceInfo";
                     "appVersion"; "createdAt" ]
                   [ text (feedbackData.type feedbackData);
                     text (feedbackData.subject feedbackData);
                     text (feedbackData.message feedbackData);
                     text (feedbackData.userEmail feedbackData);
                     text (feedbackData.deviceInfo feedbackData);
                     text (feedbackData.appVersion feedbackData); Sql.Text now ]);
        mret (Some (JNumber k))
  end.

Definition getAllFeedback : async world (list (gmap string json)) :=
  remote ← try_remote feedback_select (λ r, mret (default [] (data r)));
  match remote with
  | Some rows => mret rows
  | None =>
      fallback ← gets isWebFallback;
      if fallback : bool then mret mockFeedback
      else
        result ← query (λ d,
          l ← Sql.select_all d "feedback"; mret (Sql.order_by "createdAt" true l));
        mret ((λ row : gmap string Sql.value, to_json <$> row) <$> result)
  end.

Definition updateFeedbackStatus (feedbackId : Z) (status : string) : async world unit :=
  remote ← try_remote feedback_update (λ _, mret tt);
  match remote with
  | Some _ => mret tt
  | None =>
      fallback ← gets isWebFallback;
      if fallback : bool then mret tt
      else
        exec (λ d, Sql.update d "feedback" ["status"] [Sql.Text status] feedbackId)
  end.

End feedback.

(** *** Start-up *)

(** The service together with what [init] reads: the platform, and what
    opening the database file gives (the tables of the file, none for a
    new file; or an error).  [readyPromise] is [true] for a promise that is
    there; a promise that is there has resolved, since a failure sets the
    field back to [null] before the promise rejects. *)
Record startup := {
  state : world;
  readyPromise : bool;
  Platform_OS : NotificationService.OS;
  SQLite_openDatabaseAsync : outcome (gmap string Sql.table);
}.

Definition set_state (w : world) (s : startup) : startup :=
  {| state := w; readyPromise := readyPromise s; Platform_OS := Platform_OS s;
     SQLite_openDatabaseAsync := SQLite_openDatabaseAsync s |}.

Definition set_readyPromise (b : bool) (s : startup) : startup :=
  {| state := state s; readyPromise := b; Platform_OS := Platform_OS s;
     SQLite_openDatabaseAsync := SQLite_openDatabaseAsync s |}.

Definition set_isWebFallback (b : bool) (w : world) : world :=
  {| db := db w; isWebFallback := b; now := now w;
     toISOString := toISOString w; random := random w; remote := remote w;
     collected_profiles_data := collected_profiles_data w |}.

(** A method of the service, run on its fields. *)
Definition on_state {A} (m : async world A) : async startup A :=
  λ s, ((m (state s)).1, set_state (m (state s)).2 s).

(** [haystack.includes(needle)] *)
Fixpoint includes (needle haystack : string) : bool :=
  String.prefix needle haystack ||
  match haystack with
  | EmptyString => false
  | String _ rest => includes needle rest
  end.

Definition initializeDatabase : async startup unit :=
  os ← gets Platform_OS;
  if decide (os = NotificationService.web) then
    on_state (modify (set_isWebFallback true))
  else
    try_catch
      (d ← (λ s, (SQLite_openDatabaseAsync s, s));
       _ ← on_state (modify (set_db d));
       on_state createTables)
      (λ error,
         if match error with
            | Error message => includes "unable to open database file" message
            | Rejected _ => false
            end
         then on_state (modify (set_isWebFallback true))
         else _ ← modify (set_readyPromise false); throw error).

(** [init] stores the promise of [initializeDatabase] and returns it;
    the caller awaits it. *)
Definition init : async startup unit :=
  promise ← gets readyPromise;
  if promise : bool then mret tt
  else _ ← modify (set_readyPromise true); initializeDatabase.

Definition getIsWebFallback : async startup bool :=
  gets (λ s, isWebFallback (state s)).



End DatabaseService.

(** ** The profile screens

  The handlers of the create and the edit screen that call the
  data-access service.  The state of a screen is what the handlers read
  and write: the [saving] flag, the alerts that were shown, and the
  service.  [String.prototype.trim] is a parameter: the handlers are
  considered for every function in its place. *)

Module Screens.
Import Json DatabaseService.

Record screen := {
  saving : bool;
  alerts : list (string * string);
  service : world;
}.

Definition set_saving (b : bool) (u : screen) : screen :=
  {| saving := b; alerts := alerts u; service := service u |}.

Definition set_service (w : world) (u : screen) : screen :=
  {| saving := saving u; alerts := alerts u; service := w |}.

(** [Alert.alert(title, message)] *)
Definition Alert_alert (title message : string) : async screen unit :=
  modify (λ u, {| saving := saving u;
                  alerts := alerts u ++ [(title, message)];
                  service := service u |}).

Definition setSaving (b : bool) : async screen unit := modify (set_saving b).

(** A method of the service, called from a screen. *)
Definition on_service {A} (m : async world A) : async screen A :=
  λ u, ((m (service u)).1, set_service (m (service u)).2 u).

(** [{...profile, lastContactDate: date}] *)
Definition with_lastContactDate (date : string) (p : profileData) : profileData :=
  {| id := id p; name := name p; age := age p; phone := phone p;
     email := email p; relationship := relationship p; job := job p;
     notes := notes p; tags := tags p; photoUri := photoUri p;
     parents := parents p; kids := kids p; brothers := brothers p;
     sisters := sisters p; siblings := siblings p; pets := pets p;
     foodLikes := foodLikes p; foodDislikes := foodDislikes p;
     interests := interests p; instagram := instagram p;
     snapchat := snapchat p; twitter := twitter p; tiktok := tiktok p;
     facebook := facebook p; birthday := birthday p;
     lastContactDate := Some date |}.

(** [{...prev, tags: items}] *)
Definition with_tags (items : list json) (p : profileData) : profileData :=
  {| id := id p; name := name p; age := age p; phone := phone p;
     email := email p; relationship := relationship p; job := job p;
     notes := notes p; tags := Some items; photoUri := photoUri p;
     parents := parents p; kids := kids p; brothers := brothers p;
     sisters := sisters p; siblings := siblings p; pets := pets p;
     foodLikes := foodLikes p; foodDislikes := foodDislikes p;
     interests := interests p; instagram := instagram p;
     snapchat := snapchat p; twitter := twitter p; tiktok := tiktok p;
     facebook := facebook p; birthday := birthday p;
     lastContactDate := lastContactDate p |}.

(** An object without properties, as a profile. *)
Definition no_profile : profileData :=
  {| id := None; name := None; age := None; phone := None; email := None;
     relationship := None; job := None; notes := None; tags := None;
     photoUri := None; parents := None; kids := None; brothers := None;
     sisters := None; siblings := None; pets := None; foodLikes := None;
     foodDislikes := None; interests := None; instagram := None;
     snapchat := None; twitter := None; tiktok := None; facebook := None;
     birthday := None; lastContactDate := None |}.

(** The part of a screen's state that the tag handlers use.  The tag
    editor is shown for a profile that is there: the create screen starts
    with one, the edit screen shows the editor once it has loaded one. *)
Record form := {
  profile : profileData;
  newTag : string;
  selectedTagColor : json;
}.

(** [items.filter((_, i) => keep(i))] *)
Fixpoint filter_index {A} (keep : nat → bool) (i : nat) (items : list A) : list A :=
  match items with
  | [] => []
  | a :: rest =>
      if keep i then a :: filter_index keep (S i) rest
      else filter_index keep (S i) rest
  end.

Section handlers.

Variable trim : string → string.

(** [!profile?.name?.trim()]: no profile, no name, or a name that trims
    to the empty string. *)
Definition name_missing (profile : option profileData) : bool :=
  match profile with
  | Some p =>
      match name p with
      | Some n => bool_decide (trim n = "")
      | None => true
      end
  | None => true
  end.

(** [handleSave] of the create screen *)
Definition CreateProfile_handleSave (profile : option profileData)
    : async screen unit :=
  if name_missing profile then Alert_alert "Error" "Name is required"
  else
    _ ← setSaving true;
    _ ← try_catch
          (now ← on_service Date_now_ISO;
           let profileData := with_lastContactDate now (default no_profile profile) in
           _ ← on_service (createOrUpdateProfile profileData);
           Alert_alert "Success" "Profile created successfully")
          (λ _, Alert_alert "Error" "Failed to create profile");
    setSaving false.

(** [handleSave] of the edit screen *)
Definition EditProfile_handleSave (profile : option profileData)
    : async screen unit :=
  if name_missing profile then Alert_alert "Error" "Name is required"
  else
    _ ← setSaving true;
    _ ← try_catch
          (_ ← on_service (createOrUpdateProfile (default no_profile profile));
           Alert_alert "Success" "Profile updated successfully")
          (λ _, Alert_alert "Error" "Failed to save profile");
    setSaving false.

(** [addTag], the same in both screens *)
Definition addTag (f : form) : form :=
  if bool_decide (trim (newTag f) = "") then f
  else
    let tag := JObject [("text", JString (trim (newTag f)));
                        ("color", selectedTagColor f)] in
    {| profile := with_tags (default [] (tags (profile f)) ++ [tag]) (profile f);
       newTag := "";
       selectedTagColor := selectedTagColor f |}.

End handlers.

(** [removeTag], the same in both screens; without a list of tags
    [prev.tags.filter] is a [TypeError]. *)
Definition removeTag (index : Z) (f : form) : outcome form :=
  match tags (profile f) with
  | None => Throw (Error "TypeError: undefined is not an object")
  | Some items =>
      Ok {| profile :=
              with_tags
                (filter_index (λ i, negb (bool_decide (Z.of_nat i = index))) 0 items)
                (profile f);
            newTag := newTag f;
            selectedTagColor := selectedTagColor f |}
  end.

End Screens.

(** * Properties *)

(** ** JSON round trip *)

Module JsonFacts.
Import Json.

Lemma app_cons c s t : String c s +:+ t = String c (s +:+ t).
Proof. reflexivity. Qed.

Lemma app_nil_l s : "" +:+ s = s.
Proof. reflexivity. Qed.

Lemma app_assoc s t u : (s +:+ t) +:+ u = s +:+ (t +:+ u).
Proof. induction s as [|c s IH]; [done|]. by rewrite !app_cons, IH. Qed.

Lemma app_length s t : String.length (s +:+ t) = (String.length s + String.length t)%nat.
Proof. induction s as [|c s IH]; [done|]. rewrite app_cons. simpl. by rewrite IH. Qed.

Lemma length_cons c s : String.length (String c s) = S (String.length s).
Proof. reflexivity. Qed.

Create Rewrite HintDb str.
Create Rewrite HintDb strlen.
#[local] Hint Rewrite app_assoc app_cons app_nil_l : str.
#[local] Hint Rewrite app_length length_cons : strlen.

(** *** String literals *)

Lemma parse_chars_escape_char c s :
  parse_chars (escape_char c +:+ s) = cons_char c (parse_chars s).
Proof.
  destruct c as [[] [] [] [] [] [] [] []]; reflexivity.
Qed.

Lemma parse_chars_escape s rest :
  parse_chars (escape s +:+ String dquote rest) = Some (s, rest).
Proof.
  induction s as [|c s IH]; [done|].
  cbn [escape]. rewrite app_assoc, parse_chars_escape_char, IH. done.
Qed.

(** *** Numbers *)

Fixpoint number_chars (s : string) : bool :=
  match s with
  | EmptyString => true
  | String c s' => is_number_char c && number_chars s'
  end.

Definition delimited (s : string) : Prop :=
  match s with
  | EmptyString => True
  | String c _ => is_number_char c = false
  end.

Lemma span_number_app p rest :
  number_chars p = true → delimited rest → span_number (p +:+ rest) = (p, rest).
Proof.
  intros Hp Hr. induction p as [|c p IH]; simpl in *.
  - destruct rest as [|c r]; [done|]. simpl in *. by rewrite Hr.
  - apply andb_true_iff in Hp as [Hc Hp]. by rewrite Hc, IH.
Qed.

Lemma number_chars_uint d : number_chars (NilEmpty.string_of_uint d) = true.
Proof. induction d; simpl; try done. Qed.

Lemma number_chars_Z n : number_chars (string_of_Z n) = true.
Proof.
  unfold string_of_Z, NilZero.string_of_int, NilZero.string_of_uint.
  destruct (Z.to_int n) as [d|d]; destruct d; simpl;
    try done; apply number_chars_uint.
Qed.

Lemma int_of_string_of_Z n :
  NilZero.int_of_string (string_of_Z n) = Some (Z.to_int n).
Proof.
  unfold string_of_Z. apply NilZero.isi; destruct n; simpl; try done;
    intros [= H]; by apply DecimalPos.Unsigned.to_uint_nonnil in H.
Qed.

Lemma parse_number_string_of_Z n rest :
  delimited rest → parse_number (string_of_Z n +:+ rest) = Some (JNumber n, rest).
Proof.
  intros Hr. unfold parse_number.
  rewrite span_number_app by auto using number_chars_Z.
  rewrite int_of_string_of_Z. simpl. by rewrite DecimalZ.of_to.
Qed.

Lemma string_of_Z_head n :
  ∃ c s, string_of_Z n = String c s ∧ is_number_char c = true.
Proof.
  pose proof (number_chars_Z n) as H.
  pose proof (int_of_string_of_Z n) as H'.
  destruct (string_of_Z n) as [|c s]; [done|].
  apply andb_true_iff in H as [H _]. eauto.
Qed.

(** *** Values *)

Section json_ind.
Variable P : json → Prop.
Hypothesis Hnull : P JNull.
Hypothesis Hbool : ∀ b, P (JBool b).
Hypothesis Hnumber : ∀ n, P (JNumber n).
Hypothesis Hstring : ∀ s, P (JString s).
Hypothesis Harray : ∀ l, Forall P l → P (JArray l).
Hypothesis Hobject : ∀ m, Forall (λ kv, P kv.2) m → P (JObject m).

Fixpoint json_nested_ind (v : json) : P v :=
  match v with
  | JNull => Hnull
  | JBool b => Hbool b
  | JNumber n => Hnumber n
  | JString s => Hstring s
  | JArray l =>
      Harray l
        ((fix go (l : list json) : Forall P l :=
            match l with
            | [] => Forall_nil_2 P
            | v :: l' => Forall_cons_2 P v l' (json_nested_ind v) (go l')
            end) l)
  | JObject m =>
      Hobject m
        ((fix go (m : list (string * json)) : Forall (λ kv, P kv.2) m :=
            match m with
            | [] => Forall_nil_2 _
            | kv :: m' => Forall_cons_2 _ kv m' (json_nested_ind kv.2) (go m')
            end) m)
  end.
End json_ind.

Fixpoint stringify_elements (l : list json) : string :=
  match l with
  | [] => ""
  | [v] => stringify v
  | v :: l' => stringify v +:+ "," +:+ stringify_elements l'
  end.

Fixpoint stringify_members (m : list (string * json)) : string :=
  match m with
  | [] => ""
  | [(k, v)] => quote k +:+ ":" +:+ stringify v
  | (k, v) :: m' => quote k +:+ ":" +:+ stringify v +:+ "," +:+ stringify_members m'
  end.

Lemma stringify_array l : stringify (JArray l) = "[" +:+ stringify_elements l +:+ "]".
Proof. reflexivity. Qed.

Lemma stringify_object m : stringify (JObject m) = "{" +:+ stringify_members m +:+ "}".
Proof. reflexivity. Qed.

Lemma number_char_not_ws c :
  is_number_char c = true → is_ws c = false ∧ Ascii.eqb c "]" = false.
Proof. destruct c as [[] [] [] [] [] [] [] []]; done. Qed.

(** A printed value starts with a character that is neither blank nor a
    closing bracket. *)
Lemma stringify_head v :
  ∃ c s, stringify v = String c s ∧ is_ws c = false ∧ Ascii.eqb c "]" = false.
Proof.
  destruct v as [|[]|n|s|l|m]; try (do 2 eexists; split; [reflexivity|done]).
  destruct (string_of_Z_head n) as (c & s & Hs & Hc).
  exists c, s. split; [done|]. by apply number_char_not_ws.
Qed.

Lemma skip_ws_stringify v rest :
  skip_ws (stringify v +:+ rest) = stringify v +:+ rest.
Proof.
  destruct (stringify_head v) as (c & s & -> & Hc & _).
  rewrite app_cons. simpl. by rewrite Hc.
Qed.

Lemma stringify_length v : (1 ≤ String.length (stringify v))%nat.
Proof. destruct (stringify_head v) as (c & s & -> & _). simpl. lia. Qed.

Lemma parse_value_S fuel s :
  parse_value (S fuel) s =
    match skip_ws s with
    | EmptyString => None
    | String c s' =>
        if is_number_char c then parse_number (String c s')
        else if Ascii.eqb c dquote then
          '(t, r) ← parse_chars s'; Some (JString t, r)
        else if Ascii.eqb c "[" then
          match skip_ws s' with
          | String c' r =>
              if Ascii.eqb c' "]" then Some (JArray [], r)
              else '(l, r) ← parse_elements fuel s'; Some (JArray l, r)
          | EmptyString => None
          end
        else if Ascii.eqb c "{" then
          match skip_ws s' with
          | String c' r =>
              if Ascii.eqb c' "}" then Some (JObject [], r)
              else '(m, r) ← parse_members fuel s'; Some (JObject m, r)
          | EmptyString => None
          end
        else if Ascii.eqb c "n" then literal "null" JNull (String c s')
        else if Ascii.eqb c "t" then literal "true" (JBool true) (String c s')
        else if Ascii.eqb c "f" then literal "false" (JBool false) (String c s')
        else None
    end.
Proof. reflexivity. Qed.

Lemma parse_elements_S fuel s :
  parse_elements (S fuel) s =
    '(v, r) ← parse_value fuel s;
    match skip_ws r with
    | String c r' =>
        if Ascii.eqb c "," then
          '(l, r'') ← parse_elements fuel r'; Some (v :: l, r'')
        else if Ascii.eqb c "]" then Some ([v], r')
        else None
    | EmptyString => None
    end.
Proof. reflexivity. Qed.

Lemma parse_members_S fuel s :
  parse_members (S fuel) s =
    match skip_ws s with
    | String c s1 =>
        if Ascii.eqb c dquote then
          '(k, r) ← parse_chars s1;
          match skip_ws r with
          | String c1 r1 =>
              if Ascii.eqb c1 ":" then
                '(v, r2) ← parse_value fuel r1;
                match skip_ws r2 with
                | String c2 r3 =>
                    if Ascii.eqb c2 "," then
                      '(m, r4) ← parse_members fuel r3; Some ((k, v) :: m, r4)
                    else if Ascii.eqb c2 "}" then Some ([(k, v)], r3)
                    else None
                | EmptyString => None
                end
              else None
          | EmptyString => None
          end
        else None
    | EmptyString => None
    end.
Proof. reflexivity. Qed.

Definition parses (v : json) : Prop :=
  ∀ fuel rest, (String.length (stringify v) ≤ fuel)%nat → delimited rest →
    parse_value fuel (stringify v +:+ rest) = Some (v, rest).

Lemma parse_elements_stringify l fuel rest :
  l ≠ [] → Forall parses l →
  (String.length (stringify_elements l) + 1 ≤ fuel)%nat →
  parse_elements fuel (stringify_elements l +:+ String "]" rest) = Some (l, rest).
Proof.
  intros Hne Hl. revert fuel. induction Hl as [|v l Hv Hl IH]; [done|].
  intros [|fuel] Hfuel; [lia|]. rewrite parse_elements_S.
  destruct l as [|v' l'].
  - cbn [stringify_elements] in *.
    rewrite Hv by (first [reflexivity | simpl in *; lia]). simpl. done.
  - change (stringify_elements (v :: v' :: l'))
      with (stringify v +:+ "," +:+ stringify_elements (v' :: l')) in *.
    autorewrite with strlen in Hfuel. autorewrite with str.
    rewrite Hv by (first [reflexivity | simpl in *; lia]). simpl.
    rewrite IH by (first [done | simpl in *; lia]). done.
Qed.

Lemma parse_members_stringify m fuel rest :
  m ≠ [] → Forall (λ kv, parses kv.2) m →
  (String.length (stringify_members m) + 1 ≤ fuel)%nat →
  parse_members fuel (stringify_members m +:+ String "}" rest) = Some (m, rest).
Proof.
  intros Hne Hm. revert fuel. induction Hm as [|[k v] m Hv Hm IH]; [done|].
  intros [|fuel] Hfuel; [lia|]. rewrite parse_members_S.
  destruct m as [|kv' m'].
  - cbn [stringify_members] in *. unfold quote, dquote in *.
    autorewrite with str in *. simpl.
    rewrite parse_chars_escape. simpl.
    autorewrite with strlen in Hfuel.
    rewrite Hv by (first [reflexivity | simpl in *; lia]). simpl. done.
  - change (stringify_members ((k, v) :: kv' :: m'))
      with (quote k +:+ ":" +:+ stringify v +:+ "," +:+ stringify_members (kv' :: m')) in *.
    unfold quote, dquote in *.
    autorewrite with str in *. simpl.
    rewrite parse_chars_escape. simpl.
    autorewrite with strlen in Hfuel.
    rewrite Hv by (first [reflexivity | simpl in *; lia]). simpl.
    rewrite IH by (first [done | simpl in *; lia]). done.
Qed.

Lemma parse_value_stringify v : parses v.
Proof.
  induction v as [|b|n|s|l IH|m IH] using json_nested_ind;
    intros fuel rest Hfuel Hrest;
    (destruct fuel as [|fuel];
     [match type of Hfuel with
      | (String.length (stringify ?v) ≤ 0)%nat =>
          pose proof (stringify_length v); lia
      end|]).
  - reflexivity.
  - by destruct b.
  - rewrite parse_value_S, skip_ws_stringify. cbn [stringify].
    destruct (string_of_Z_head n) as (c & s & Hs & Hc).
    rewrite Hs, app_cons, Hc, <- app_cons, <- Hs.
    by apply parse_number_string_of_Z.
  - rewrite parse_value_S. cbn [stringify]. unfold quote, dquote.
    autorewrite with str. simpl. by rewrite parse_chars_escape.
  - rewrite parse_value_S, stringify_array in *.
    autorewrite with str strlen in *. simpl.
    destruct l as [|v l]; [done|].
    destruct (stringify_head v) as (c & s & Hs & Hc & Hc').
    assert (skip_ws (stringify_elements (v :: l) +:+ String "]" rest)
            = String c (s +:+ (match l with
                               | [] => ""
                               | _ => "," +:+ stringify_elements l
                               end) +:+ String "]" rest)) as ->.
    { destruct l; cbn [stringify_elements]; rewrite Hs;
        autorewrite with str; simpl; by rewrite Hc. }
    rewrite Hc'.
    rewrite parse_elements_stringify by (done || simpl in *; lia). done.
  - rewrite parse_value_S, stringify_object in *.
    autorewrite with str strlen in *. simpl.
    destruct m as [|[k v] m]; [done|].
    assert (∃ s, stringify_members ((k, v) :: m) = String dquote s) as [s Hs].
    { destruct m; cbn [stringify_members]; unfold quote;
        autorewrite with str; eauto. }
    assert (skip_ws (stringify_members ((k, v) :: m) +:+ String "}" rest)
            = String dquote (s +:+ String "}" rest)) as ->.
    { by rewrite Hs. }
    unfold dquote at 1. cbn -[stringify_members parse_members].
    rewrite parse_members_stringify by (done || simpl in *; lia). done.
Qed.

(** [JSON.parse (JSON.stringify v)] gives [v] back. *)
Theorem parse_stringify v : parse (stringify v) = Some v.
Proof.
  unfold parse.
  pose proof (parse_value_stringify v (String.length (stringify v)) "") as H.
  assert (stringify v +:+ "" = stringify v) as Heq.
  { generalize (stringify v). intros s. induction s; [done|].
    by rewrite app_cons, IHs. }
  rewrite Heq in H. rewrite H by done. done.
Qed.

End JsonFacts.

(** ** Scheduling *)

Module NotificationFacts.
Import NotificationService.

(** The status that [init] ends up with: the current one, or the user's
    answer when the current one is not [granted]. *)
Definition permission_after_asking (w : world) : PermissionStatus :=
  if decide (permission w ≠ granted) then answer w else permission w.

(** The service only sets its flag after seeing [granted]. *)
Definition consistent (w : world) : Prop :=
  isInitialized w = true → permission w = granted.

Definition accepts_all (w : world) : Prop := ∀ c, rejects w c = false.

Definition reminder_at (t : Z) : reminder :=
  {| id := 7; title := "Call Ana"; description := None; scheduledFor := t;
     profileName := Some "Ana" |}.

#[local] Instance call_eq_dec : EqDecision call.
Proof. solve_decision. Defined.

Definition rejecting (c0 : call) : call → bool := λ c, bool_decide (c = c0).
Definition accepting : call → bool := λ _, false.

Definition world0 (f : call → bool) : world :=
  {| isInitialized := false; now := 1000; platform := android;
     permission := granted; answer := denied; rejects := f;
     channels := []; scheduled := []; fresh := 0 |}.

Ltac run :=
  unfold scheduleReminderNotification, init,
    Notifications_getPermissionsAsync, Notifications_requestPermissionsAsync,
    Notifications_setNotificationChannelAsync,
    Notifications_scheduleNotificationAsync,
    Notifications_getAllScheduledNotificationsAsync,
    try_catch, throw, os_call,
    mbind, mret, async_mbind, async_mret, async_bind, async_ret, gets, modify
    in *; simpl in *.

(** The method after its initialisation guard, run on a world. *)
Definition request_for (r : reminder) (w : world) : request :=
  {| r_identifier := fresh w;
     r_content := {| c_title := title r; c_body := notification_body r;
                     c_reminderId := id r |};
     r_date := if bool_decide (scheduledFor r - now w < minimumBufferMs)
               then now w + minimumBufferMs else scheduledFor r;
     r_channelId := if decide (platform w = android)
                    then Some "reminders" else None |}.

Definition after_guard (r : reminder) (w : world) : outcome (option nat) * world :=
  if bool_decide (scheduledFor r ≤ now w) then (Ok None, w)
  else if rejects w scheduleNotificationAsync
  then (Throw (Rejected "scheduleNotificationAsync"), w)
  else if rejects w getAllScheduledNotificationsAsync
  then (Throw (Rejected "getAllScheduledNotificationsAsync"),
        add_request (request_for r w) w)
  else (Ok (Some (fresh w)), add_request (request_for r w) w).

Lemma schedule_unfold r w :
  scheduleReminderNotification r w =
    if isInitialized w then after_guard r w
    else match init w with
         | (Ok (Some true), w1) => after_guard r w1
         | (Ok _, w1) => (Throw (Error "Notifications not initialized"), w1)
         | (Throw e, w1) => (Throw e, w1)
         end.
Proof.
  unfold scheduleReminderNotification, try_catch, after_guard, request_for.
  unfold mbind at 1, async_mbind at 1, async_bind at 1, gets at 1.
  unfold mbind at 1, async_mbind at 1, async_bind at 1.
  destruct (isInitialized w).
  - unfold mret at 1, async_mret at 1, async_ret at 1.
    unfold Notifications_scheduleNotificationAsync,
      Notifications_getAllScheduledNotificationsAsync, os_call,
      mbind, mret, async_mbind, async_mret, async_bind, async_ret, gets, modify, throw.
    simpl. repeat (case_match; simplify_eq/=; try done).
  - unfold mbind at 1, async_mbind at 1, async_bind at 1.
    destruct (init w) as [[[[|]|]|e] w1]; simpl; try reflexivity.
    unfold Notifications_scheduleNotificationAsync,
      Notifications_getAllScheduledNotificationsAsync, os_call,
      mbind, mret, async_mbind, async_mret, async_bind, async_ret, gets, modify, throw.
    simpl. repeat (case_match; simplify_eq/=; try done).
Qed.

Ltac run_init :=
  unfold init, Notifications_getPermissionsAsync,
    Notifications_requestPermissionsAsync,
    Notifications_setNotificationChannelAsync, try_catch, os_call,
    mbind, mret, async_mbind, async_mret, async_bind, async_ret, gets, modify;
  simpl.

(** [init] never throws, and leaves the clock, the platform's behaviour and
    the scheduled requests alone. *)
Lemma init_frame w :
  (∃ b, (init w).1 = Ok b) ∧
  now (init w).2 = now w ∧ fresh (init w).2 = fresh w ∧
  rejects (init w).2 = rejects w ∧ scheduled (init w).2 = scheduled w ∧
  platform (init w).2 = platform w.
Proof.
  run_init. repeat (case_match; simplify_eq/=; try done); eauto 10.
Qed.

Lemma init_consistent w : consistent w → consistent (init w).2.
Proof.
  unfold consistent. run_init. intros Hw.
  repeat (case_match; simplify_eq/=; try done);
    intros; try congruence; auto; by apply dec_stable.
Qed.

Lemma init_result w :
  accepts_all w → isInitialized w = false →
  (init w).1 = Ok (Some (bool_decide (permission_after_asking w = granted))).
Proof.
  unfold accepts_all, permission_after_asking. intros Ha Hi. run_init.
  rewrite Hi, !Ha. simpl.
  repeat (repeat case_decide; simpl; rewrite ?Ha; simpl);
    try done; exfalso; naive_solver.
Qed.

(** Whenever an identifier comes back, exactly one request was added, and
    its date is the padded or the given one. *)
Lemma after_guard_returned r w n w' :
  after_guard r w = (Ok (Some n), w') →
  now w < scheduledFor r ∧ n = fresh w ∧
  scheduled w' = scheduled w ++ [request_for r w].
Proof.
  unfold after_guard. intros H.
  repeat (case_bool_decide || case_match); simplify_eq/=.
  split; [lia | done].
Qed.

Lemma schedule_returned w r n w' :
  scheduleReminderNotification r w = (Ok (Some n), w') →
  now w < scheduledFor r ∧
  ∃ req, scheduled w' = scheduled w ++ [req] ∧ r_identifier req = n ∧
         r_date req =
           if bool_decide (scheduledFor r - now w < minimumBufferMs)
           then now w + minimumBufferMs else scheduledFor r.
Proof.
  rewrite schedule_unfold. destruct (isInitialized w).
  - intros (? & -> & ->)%after_guard_returned. split; [done|].
    by eexists.
  - destruct (init_frame w) as (_ & Hn & Hf & _ & Hs & _).
    destruct (init w) as [[[[|]|]|e] w1]; simpl in *; try done.
    intros (? & -> & ->)%after_guard_returned.
    split; [lia|]. eexists. split; [by rewrite Hs|]. split; [done|].
    simpl. by rewrite Hn.
Qed.

Lemma after_guard_runs r w :
  accepts_all w → now w < scheduledFor r →
  after_guard r w = (Ok (Some (fresh w)), add_request (request_for r w) w).
Proof.
  unfold accepts_all, after_guard. intros Ha Hn.
  rewrite bool_decide_eq_false_2 by lia. by rewrite !Ha.
Qed.

Lemma schedule_runs w r :
  accepts_all w → consistent w →
  permission_after_asking w = granted → now w < scheduledFor r →
  ∃ w', scheduleReminderNotification r w = (Ok (Some (fresh w)), w').
Proof.
  intros Ha Hc Hp Hn. rewrite schedule_unfold.
  destruct (isInitialized w) eqn:Hi.
  - rewrite after_guard_runs by done. eauto.
  - pose proof (init_result w Ha Hi) as Hr.
    destruct (init_frame w) as (_ & Hn' & Hf & Hrej & _).
    rewrite bool_decide_eq_true_2 in Hr by done.
    destruct (init w) as [o w1]; simpl in *. subst o.
    rewrite after_guard_runs; [rewrite Hf; eauto| |lia].
    intros c. by rewrite Hrej.
Qed.




(** The request is placed and the method fails all the same when only the
    listing call after it is rejected. *)
Example schedule_fails_after_scheduling :
  (scheduleReminderNotification (reminder_at 60000)
     (world0 (rejecting getAllScheduledNotificationsAsync))).1
    = Throw (Rejected "getAllScheduledNotificationsAsync") ∧
  length (scheduled (scheduleReminderNotification (reminder_at 60000)
               (world0 (rejecting getAllScheduledNotificationsAsync))).2) = 1%nat.
Proof. repeat split. Qed.



(** C4: a date strictly in the future but less than 5000 ms away is
    replaced by the current time plus 5000 ms as the trigger; a date at
    least 5000 ms away is the trigger unchanged. *)
Theorem trigger_date_buffer w r :
  accepts_all w → consistent w → permission_after_asking w = granted →
  now w < scheduledFor r →
  ∃ req w',
    scheduleReminderNotification r w = (Ok (Some (r_identifier req)), w') ∧
    scheduled w' = scheduled w ++ [req] ∧
    (scheduledFor r - now w < 5000 → r_date req = now w + 5000) ∧
    (5000 ≤ scheduledFor r - now w → r_date req = scheduledFor r).
Proof.
  intros Ha Hc Hp Hn.
  destruct (schedule_runs w r Ha Hc Hp Hn) as [w' Hrun].
  destruct (schedule_returned _ _ _ _ Hrun) as (_ & req & Hs & Hid & Hd).
  exists req, w'. rewrite Hid. split; [done|]. split; [done|].
  unfold minimumBufferMs in Hd. rewrite Hd.
  split; intros; case_bool_decide; done || lia.
Qed.

Lemma trigger_date_buffer_witness :
  ∃ req w',
    scheduleReminderNotification (reminder_at 3000) (world0 accepting)
      = (Ok (Some (r_identifier req)), w') ∧
    scheduled w' = scheduled (world0 accepting) ++ [req] ∧
    (scheduledFor (reminder_at 3000) - now (world0 accepting) < 5000 →
     r_date req = now (world0 accepting) + 5000) ∧
    (5000 ≤ scheduledFor (reminder_at 3000) - now (world0 accepting) →
     r_date req = scheduledFor (reminder_at 3000)).
Proof.
  apply (trigger_date_buffer (world0 accepting) (reminder_at 3000)).
  - intros c. reflexivity.
  - intros H. simpl in H. discriminate.
  - reflexivity.
  - simpl. lia.
Defined.

Example trigger_padded :
  r_date <$> scheduled (scheduleReminderNotification (reminder_at 3000)
                          (world0 accepting)).2 = [6000].
Proof. reflexivity. Qed.

Example trigger_unchanged :
  r_date <$> scheduled (scheduleReminderNotification (reminder_at 6000)
                          (world0 accepting)).2 = [6000].
Proof. reflexivity. Qed.

End NotificationFacts.
(** ** Initialising, cancelling and listing *)

Module NotificationLifecycle.
Import NotificationService NotificationFacts.

(** What [init] needs from the platform and the user to succeed. *)
Definition init_succeeds (w : world) : Prop :=
  rejects w getPermissionsAsync = false ∧
  (permission w = granted ∨
   (rejects w requestPermissionsAsync = false ∧ answer w = granted)) ∧
  (platform w = android → rejects w setNotificationChannelAsync = false).

#[local] Instance init_succeeds_dec w : Decision (init_succeeds w).
Proof. unfold init_succeeds. apply _. Defined.

(** A phone on which the user has not been asked yet and will agree. *)
Definition first_start (os : OS) (f : call → bool) : world :=
  {| isInitialized := false; now := 1000; platform := os;
     permission := undetermined; answer := granted; rejects := f;
     channels := []; scheduled := []; fresh := 0 |}.

Definition request_of (n : nat) (t : string) : request :=
  {| r_identifier := n;
     r_content := {| c_title := t; c_body := "You have a reminder";
                     c_reminderId := Z.of_nat n |};
     r_date := 90000; r_channelId := None |}.

(** A phone with two notifications waiting. *)
Definition two_waiting : world :=
  {| isInitialized := true; now := 1000; platform := ios;
     permission := granted; answer := granted; rejects := accepting;
     channels := [];
     scheduled := [request_of 0 "Call Ana"; request_of 1 "Water the plants"];
     fresh := 2 |}.

Definition never : cancel_call → bool := λ _, false.
Definition always : cancel_call → bool := λ _, true.

(** [init] never throws.  Once the service is initialised it returns
    [undefined] and touches nothing, whatever the platform would answer.
    Before that it returns [true] or [false], sets the flag exactly when
    it returns [true], and returns [true] exactly when the permission
    query succeeds, the permission is granted already or the user grants
    it on request, and (on Android) the channel can be created. *)
Theorem init_outcome w :
  (isInitialized w = true → init w = (Ok None, w)) ∧
  (isInitialized w = false →
     ∃ b, (init w).1 = Ok (Some b) ∧
          isInitialized (init w).2 = b ∧
          (b = true ↔ init_succeeds w)).
Proof.
  split.
  - intros Hi. unfold init, mbind, async_mbind, async_bind, gets.
    by rewrite Hi.
  - intros Hi. unfold init_succeeds. run_init. rewrite Hi.
    destruct (rejects w getPermissionsAsync) eqn:H1; simpl.
    { exists false. rewrite Hi. repeat split; try done. by intros [? _]. }
    destruct (decide (permission w ≠ granted)) as [Hp|Hp]; simpl.
    + destruct (rejects w requestPermissionsAsync) eqn:H2; simpl.
      { exists false. rewrite Hi. repeat split; try done.
        intros (_ & [?|[? _]] & _); done. }
      destruct (decide (answer w ≠ granted)) as [Ha|Ha]; simpl.
      { exists false. rewrite Hi. repeat split; try done.
        intros (_ & [?|[_ ?]] & _); done. }
      apply dec_stable in Ha.
      destruct (decide (platform w = android)) as [Ho|Ho]; simpl.
      * destruct (rejects w setNotificationChannelAsync) eqn:H3; simpl.
        { exists false. rewrite Hi. repeat split; try done.
          intros (_ & _ & H). by specialize (H Ho). }
        exists true. repeat split; auto.
      * exists true. repeat split; auto. done.
    + apply dec_stable in Hp.
      destruct (decide (permission w ≠ granted)) as [?|_]; [done|]. simpl.
      destruct (decide (platform w = android)) as [Ho|Ho]; simpl.
      * destruct (rejects w setNotificationChannelAsync) eqn:H3; simpl.
        { exists false. rewrite Hi. repeat split; try done.
          intros (_ & _ & H). by specialize (H Ho). }
        exists true. repeat split; auto.
      * exists true. repeat split; auto. done.
Qed.

(** [init] asks the user only when the permission is not granted yet,
    and then the permission is the user's answer; the [reminders] channel
    is created exactly when [init] succeeds on Android; afterwards a set
    flag means that the permission is granted; the notifications that
    are scheduled are never touched. *)
Theorem init_effects w :
  isInitialized w = false →
  (permission w = granted → permission (init w).2 = granted) ∧
  (permission w ≠ granted → rejects w getPermissionsAsync = false →
   rejects w requestPermissionsAsync = false →
   permission (init w).2 = answer w) ∧
  (isInitialized (init w).2 = true → permission (init w).2 = granted) ∧
  channels (init w).2
    = (if decide (isInitialized (init w).2 = true ∧ platform w = android)
       then "reminders" :: channels w else channels w) ∧
  scheduled (init w).2 = scheduled w.
Proof.
  intros Hi. run_init. rewrite Hi.
  destruct (rejects w getPermissionsAsync) eqn:H1; simpl.
  { rewrite Hi. rewrite decide_False by (by intros [? _]). repeat split; done. }
  destruct (decide (permission w ≠ granted)) as [Hp|Hp]; simpl.
  - destruct (rejects w requestPermissionsAsync) eqn:H2; simpl.
    { rewrite Hi. rewrite decide_False by (by intros [? _]). repeat split; done. }
    destruct (decide (answer w ≠ granted)) as [Ha|Ha]; simpl.
    { rewrite Hi. rewrite decide_False by (by intros [? _]). repeat split; done. }
    apply dec_stable in Ha.
    destruct (decide (platform w = android)) as [Ho|Ho]; simpl.
    + destruct (rejects w setNotificationChannelAsync) eqn:H3; simpl.
      { rewrite Hi. rewrite decide_False by (by intros [? _]).
        repeat split; done. }
      rewrite decide_True by done. repeat split; done.
    + rewrite decide_False by (by intros [_ ?]). repeat split; done.
  - apply dec_stable in Hp.
    destruct (decide (permission w ≠ granted)) as [?|_]; [done|]. simpl.
    destruct (decide (platform w = android)) as [Ho|Ho]; simpl.
    + destruct (rejects w setNotificationChannelAsync) eqn:H3; simpl.
      { rewrite Hi. rewrite decide_False by (by intros [? _]).
        repeat split; done. }
      rewrite decide_True by done. repeat split; done.
    + rewrite decide_False by (by intros [_ ?]). repeat split; done.
Qed.

Lemma init_effects_witness :
  (permission (first_start android accepting) = granted →
   permission (init (first_start android accepting)).2 = granted) ∧
  (permission (first_start android accepting) ≠ granted →
   rejects (first_start android accepting) getPermissionsAsync = false →
   rejects (first_start android accepting) requestPermissionsAsync = false →
   permission (init (first_start android accepting)).2
     = answer (first_start android accepting)) ∧
  (isInitialized (init (first_start android accepting)).2 = true →
   permission (init (first_start android accepting)).2 = granted) ∧
  channels (init (first_start android accepting)).2
    = (if decide (isInitialized (init (first_start android accepting)).2 = true ∧
                  platform (first_start android accepting) = android)
       then "reminders" :: channels (first_start android accepting)
       else channels (first_start android accepting)) ∧
  scheduled (init (first_start android accepting)).2
    = scheduled (first_start android accepting).
Proof.
  apply (init_effects (first_start android accepting)). reflexivity.
Defined.

(** On the first start on Android the user is asked, agrees, and the
    channel is there; on iOS no channel is made. *)
Example init_first_start :
  (init (first_start android accepting)).1 = Ok (Some true) ∧
  channels (init (first_start android accepting)).2 = ["reminders"] ∧
  channels (init (first_start ios accepting)).2 = [] ∧
  (init (first_start android (rejecting setNotificationChannelAsync))).1
    = Ok (Some false).
Proof. repeat split. Qed.

(** What a notification says.  Whenever
    [scheduleReminderNotification] returns an identifier, the one request
    it has added carries the reminder's title and id; its body is the
    description when there is a non-empty one, otherwise the line about
    the profile when there is a non-empty profile name, otherwise the
    general line; and the request names the [reminders] channel exactly on
    Android. *)
Theorem scheduled_notification_content w r n w' :
  scheduleReminderNotification r w = (Ok (Some n), w') →
  ∃ req,
    scheduled w' = scheduled w ++ [req] ∧ r_identifier req = n ∧
    c_title (r_content req) = title r ∧
    c_reminderId (r_content req) = id r ∧
    (∀ d, description r = Some d → d ≠ "" → c_body (r_content req) = d) ∧
    (description r = None ∨ description r = Some "" →
     ∀ p, profileName r = Some p → p ≠ "" →
          c_body (r_content req) = "Reminder about " +:+ p) ∧
    (description r = None ∨ description r = Some "" →
     profileName r = None ∨ profileName r = Some "" →
     c_body (r_content req) = "You have a reminder") ∧
    r_channelId req
      = (if decide (platform w = android) then Some "reminders" else None).
Proof.
  rewrite schedule_unfold.
  assert (∀ w0, platform w0 = platform w → scheduled w0 = scheduled w →
            after_guard r w0 = (Ok (Some n), w') →
            ∃ req,
              scheduled w' = scheduled w ++ [req] ∧ r_identifier req = n ∧
              c_title (r_content req) = title r ∧
              c_reminderId (r_content req) = id r ∧
              (∀ d, description r = Some d → d ≠ "" →
                    c_body (r_content req) = d) ∧
              (description r = None ∨ description r = Some "" →
               ∀ p, profileName r = Some p → p ≠ "" →
                    c_body (r_content req) = "Reminder about " +:+ p) ∧
              (description r = None ∨ description r = Some "" →
               profileName r = None ∨ profileName r = Some "" →
               c_body (r_content req) = "You have a reminder") ∧
              r_channelId req
                = (if decide (platform w = android)
                   then Some "reminders" else None)) as Hguard.
  { intros w0 Hos Hsch (_ & -> & ->)%after_guard_returned.
    exists (request_for r w0). rewrite Hsch.
    split; [done|]. split; [done|]. split; [done|]. split; [done|].
    unfold request_for. cbn [r_content c_body r_channelId].
    unfold notification_body, truthy. rewrite Hos.
    split; [|split; [|split; [|done]]].
    - intros d -> Hd. by destruct d.
    - intros [->| ->] p -> Hp; by destruct p.
    - intros [->| ->] [->| ->]; done. }
  destruct (isInitialized w); [by apply Hguard|].
  destruct (init_frame w) as (_ & _ & _ & _ & Hs & Ho).
  destruct (init w) as [[[[|]|]|e] w1]; simpl in *; try done.
  by apply Hguard.
Qed.

Lemma scheduled_notification_content_witness :
  ∃ req,
    scheduled (scheduleReminderNotification (reminder_at 60000) (world0 accepting)).2
      = scheduled (world0 accepting) ++ [req] ∧
    r_identifier req = 0%nat ∧
    c_title (r_content req) = title (reminder_at 60000) ∧
    c_reminderId (r_content req) = id (reminder_at 60000) ∧
    (∀ d, description (reminder_at 60000) = Some d → d ≠ "" →
          c_body (r_content req) = d) ∧
    (description (reminder_at 60000) = None ∨
     description (reminder_at 60000) = Some "" →
     ∀ p, profileName (reminder_at 60000) = Some p → p ≠ "" →
          c_body (r_content req) = "Reminder about " +:+ p) ∧
    (description (reminder_at 60000) = None ∨
     description (reminder_at 60000) = Some "" →
     profileName (reminder_at 60000) = None ∨
     profileName (reminder_at 60000) = Some "" →
     c_body (r_content req) = "You have a reminder") ∧
    r_channelId req
      = (if decide (platform (world0 accepting) = android)
         then Some "reminders" else None).
Proof.
  apply (scheduled_notification_content (world0 accepting) (reminder_at 60000)).
  reflexivity.
Defined.

Example notification_about_ana :
  (λ q, (c_title (r_content q), c_body (r_content q), r_channelId q))
    <$> scheduled (scheduleReminderNotification (reminder_at 60000)
                     (world0 accepting)).2
  = [("Call Ana", "Reminder about Ana", Some "reminders")].
Proof. reflexivity. Qed.

(** *** Cancelling *)

(** The platform hands out identifiers that are not in use. *)
Definition fresh_unused (w : world) : Prop :=
  Forall (λ q, r_identifier q ≠ fresh w) (scheduled w).

#[local] Instance fresh_unused_dec w : Decision (fresh_unused w).
Proof. unfold fresh_unused. apply _. Defined.

Lemma filter_other_identifiers n (l : list request) :
  Forall (λ q, r_identifier q ≠ n) l →
  filter (λ q, r_identifier q ≠ n) l = l.
Proof.
  induction 1 as [|q l Hq Hl IH]; [done|].
  rewrite filter_cons, decide_True by done. by rewrite IH.
Qed.

Lemma cancel_unfold refuses n w :
  cancelNotification refuses n w =
    (Ok tt,
     if refuses cancelScheduledNotificationAsync then w
     else set_scheduled (filter (λ q, r_identifier q ≠ n) (scheduled w)) w).
Proof.
  unfold cancelNotification, Notifications_cancelScheduledNotificationAsync,
    try_catch.
  by destruct (refuses cancelScheduledNotificationAsync).
Qed.

(** [cancelNotification] never throws.  When the platform rejects the
    call nothing changes; otherwise exactly the requests with the given
    identifier are gone, the others stay in their order, and nothing else
    changes.  Cancelling an identifier that is not scheduled changes
    nothing. *)
Theorem cancelNotification_removes refuses n w :
  ∃ w', cancelNotification refuses n w = (Ok tt, w') ∧
    (refuses cancelScheduledNotificationAsync = true → w' = w) ∧
    (refuses cancelScheduledNotificationAsync = false →
       scheduled w' = filter (λ q, r_identifier q ≠ n) (scheduled w) ∧
       (∀ q, q ∈ scheduled w' ↔ q ∈ scheduled w ∧ r_identifier q ≠ n) ∧
       (Forall (λ q, r_identifier q ≠ n) (scheduled w) → w' = w)) ∧
    isInitialized w' = isInitialized w ∧ permission w' = permission w ∧
    channels w' = channels w ∧ fresh w' = fresh w.
Proof.
  rewrite cancel_unfold. eexists. split; [reflexivity|].
  destruct (refuses cancelScheduledNotificationAsync).
  - repeat split; done.
  - split; [done|]. split; [|done]. intros _. simpl.
    split; [done|]. split.
    + intros q. by rewrite list_elem_of_filter, (comm and).
    + intros Hall. rewrite filter_other_identifiers by done. by destruct w.
Qed.

(** Scheduling a reminder and cancelling the identifier that came back
    leaves the notifications that were scheduled before, provided the
    platform accepts the cancellation and its new identifier was not in
    use. *)
Theorem schedule_then_cancel refuses w r n w' :
  scheduleReminderNotification r w = (Ok (Some n), w') →
  fresh_unused w →
  refuses cancelScheduledNotificationAsync = false →
  scheduled (cancelNotification refuses n w').2 = scheduled w.
Proof.
  intros Hrun Hfresh Hacc. rewrite cancel_unfold, Hacc. simpl.
  assert (∀ w0, fresh w0 = fresh w → scheduled w0 = scheduled w →
            after_guard r w0 = (Ok (Some n), w') →
            filter (λ q, r_identifier q ≠ n) (scheduled w') = scheduled w)
    as Hguard.
  { intros w0 Hf Hs (_ & -> & ->)%after_guard_returned.
    rewrite Hs, Hf, filter_app. rewrite filter_cons, decide_False;
      [|by intros H; apply H].
    rewrite filter_nil, app_nil_r. by apply filter_other_identifiers. }
  rewrite schedule_unfold in Hrun.
  destruct (isInitialized w); [by apply (Hguard w)|].
  destruct (init_frame w) as (_ & _ & Hf & _ & Hs & _).
  destruct (init w) as [[[[|]|]|e] w1]; simpl in *; try done.
  by apply (Hguard w1).
Qed.

Lemma schedule_then_cancel_witness :
  scheduled
    (cancelNotification never 2
       (scheduleReminderNotification (reminder_at 60000) two_waiting).2).2
  = scheduled two_waiting.
Proof.
  apply (schedule_then_cancel never two_waiting (reminder_at 60000) 2).
  - reflexivity.
  - apply (bool_decide_unpack _). reflexivity.
  - reflexivity.
Defined.

(** [cancelAllNotifications] and [getScheduledNotifications] never throw.
    The first leaves no scheduled notification when the platform accepts
    the call and changes nothing when it does not; the second returns the
    scheduled notifications, or the empty list when the platform rejects
    the call, and changes nothing.  So after an accepted
    [cancelAllNotifications] the list that [getScheduledNotifications]
    returns is empty. *)
Theorem cancelAll_then_list_is_empty refuses w :
  ∃ w', cancelAllNotifications refuses w = (Ok tt, w') ∧
    (refuses cancelAllScheduledNotificationsAsync = true → w' = w) ∧
    (refuses cancelAllScheduledNotificationsAsync = false →
       scheduled w' = [] ∧ getScheduledNotifications w' = (Ok [], w')) ∧
    getScheduledNotifications w
      = (Ok (if rejects w getAllScheduledNotificationsAsync then []
             else scheduled w), w) ∧
    isInitialized w' = isInitialized w ∧ permission w' = permission w ∧
    channels w' = channels w.
Proof.
  unfold cancelAllNotifications, getScheduledNotifications,
    Notifications_cancelAllScheduledNotificationsAsync,
    Notifications_getAllScheduledNotificationsAsync, os_call, try_catch, gets.
  destruct (refuses cancelAllScheduledNotificationsAsync).
  - exists w. split; [done|]. split; [done|]. split; [done|].
    split; [|done]. by destruct (rejects w _).
  - eexists. split; [reflexivity|]. split; [done|]. split.
    + intros _. split; [done|]. simpl. by destruct (rejects w _).
    + split; [|done]. by destruct (rejects w _).
Qed.

Example cancel_one_of_two :
  r_identifier <$> scheduled (cancelNotification never 0 two_waiting).2 = [1%nat] ∧
  scheduled (cancelNotification always 0 two_waiting).2 = scheduled two_waiting ∧
  scheduled (cancelAllNotifications never two_waiting).2 = [].
Proof. repeat split. Qed.

End NotificationLifecycle.

(** ** The SQL fragment *)

Module SqlFacts.
Import Sql.

Lemma assign_lookup_notin cols vals (r : gmap string value) c :
  c ∉ cols → assign cols vals r !! c = r !! c.
Proof.
  unfold assign. revert vals r.
  induction cols as [|c' cols IH]; intros [|v vals] r Hc; try done.
  apply not_elem_of_cons in Hc as [Hne Hc]. simpl.
  rewrite IH by done. by rewrite lookup_insert_ne.
Qed.

Lemma assign_lookup_in cols vals (r : gmap string value) c v :
  NoDup cols → (c, v) ∈ zip cols vals → assign cols vals r !! c = Some v.
Proof.
  unfold assign. revert vals r.
  induction cols as [|c' cols IH]; intros [|v' vals] r Hnd Hin;
    try by apply elem_of_nil in Hin.
  apply NoDup_cons in Hnd as [Hc' Hnd]. simpl in *.
  apply elem_of_cons in Hin as [[= -> ->]|Hin].
  - fold (assign cols vals (<[c':=v']> r)).
    rewrite assign_lookup_notin by done. apply lookup_insert_eq.
  - by apply IH.
Qed.

Lemma list_to_map_tabulate (f : string → value) (l : list string) c :
  (list_to_map ((λ c, (c, f c)) <$> l) : gmap string value) !! c
    = if decide (c ∈ l) then Some (f c) else None.
Proof.
  induction l as [|c' l IH].
  - rewrite fmap_nil, list_to_map_nil, lookup_empty.
    destruct (decide (c ∈ [])) as [Hin|]; [|done]. by apply elem_of_nil in Hin.
  - rewrite fmap_cons, list_to_map_cons.
    destruct (decide (c' = c)) as [->|Hne].
    + rewrite lookup_insert_eq.
      destruct (decide (c ∈ c :: l)) as [|Hin]; [done|].
      exfalso. apply Hin. set_solver.
    + rewrite lookup_insert_ne by done. rewrite IH.
      destruct (decide (c ∈ l)) as [H1|H1], (decide (c ∈ c' :: l)) as [H2|H2];
        try done; exfalso.
      * apply H2, elem_of_cons. by right.
      * apply elem_of_cons in H2 as [?|?]; congruence.
Qed.

Lemma result_row_lookup tb k r c :
  result_row tb k r !! c =
    if decide (c ∈ column_names tb)
    then Some (if decide (c = "id") then Integer k else cell r c)
    else None.
Proof. unfold result_row. apply list_to_map_tabulate. Qed.

Lemma largest_rowid_bound tb :
  sequence tb ≤ largest_rowid tb ∧
  ∀ k, is_Some (rows tb !! k) → k ≤ largest_rowid tb.
Proof.
  unfold largest_rowid.
  apply (map_fold_weak_ind
           (λ acc (m : gmap Z (gmap string value)),
              sequence tb ≤ acc ∧ ∀ k, is_Some (m !! k) → k ≤ acc)).
  - split; [lia|]. intros k [? Hk]. by rewrite lookup_empty in Hk.
  - intros i x m acc Hi [Hs Hm]. split; [lia|].
    intros k Hk. destruct (decide (i = k)) as [->|Hne]; [lia|].
    rewrite lookup_insert_ne in Hk by done. specialize (Hm k Hk). lia.
Qed.

(** The rowid of an inserted row is not in use. *)
Lemma next_rowid_fresh tb : rows tb !! next_rowid tb = None.
Proof.
  destruct (rows tb !! next_rowid tb) eqn:Hk; [|done].
  destruct (largest_rowid_bound tb) as [_ Hb].
  specialize (Hb (next_rowid tb) (mk_is_Some _ _ Hk)).
  unfold next_rowid in Hb. lia.
Qed.

(** The order of [ORDER BY] is total. *)
#[global] Instance value_le_total : Total value_le.
Proof.
  intros [|m|s] [|n|t]; simpl; auto.
  - lia.
  - apply (total String.le).
Qed.

#[global] Instance order_le_total c desc : Total (order_le c desc).
Proof.
  intros r1 r2. unfold order_le.
  destruct desc; [destruct (total value_le (cell r2 c) (cell r1 c))
                 |destruct (total value_le (cell r1 c) (cell r2 c))]; auto.
Qed.

(** It is transitive: in a sorted result every row is below all the rows
    after it. *)
#[global] Instance value_le_trans : Transitive value_le.
Proof.
  intros [|m|s] [|n|t] [|o|u]; simpl; try done; [lia|].
  apply (transitivity (R:=String.le)).
Qed.

#[global] Instance order_le_trans c desc : Transitive (order_le c desc).
Proof.
  intros r1 r2 r3. unfold order_le. destruct desc; intros H1 H2.
  - by transitivity (cell r2 c).
  - by transitivity (cell r2 c).
Qed.

Lemma order_by_sorted c desc l :
  StronglySorted (order_le c desc) (order_by c desc l).
Proof.
  apply Sorted_StronglySorted; [apply _|].
  apply Sorted_merge_sort. apply _.
Qed.

Lemma order_by_permutation c desc l : order_by c desc l ≡ₚ l.
Proof. apply merge_sort_Permutation. Qed.

End SqlFacts.

(** ** The data-access service *)

Module DatabaseFacts.
Import Json Sql DatabaseService SqlFacts.

#[local] Arguments stringify : simpl never.
#[local] Arguments parse : simpl never.

Ltac exec_all :=
  unfold exec, run, query, this_db, lift, Date_now_ISO, try_catch, throw,
    mbind, mret, async_mbind, async_mret, async_bind, async_ret, gets, modify
    in *; simpl in *.

(** *** Example devices *)

Definition offline : backend :=
  {| getSession := Ok None; authInit := Ok tt; supabase := None |}.

Definition device (fallback : bool) (d : option (gmap string table)) : world :=
  {| db := d; isWebFallback := fallback; now := 1717236000000;
     toISOString := λ _, "2024-06-01T10:00:00.000Z";
     random := QArith_base.Qmake 1 2; remote := offline;
     collected_profiles_data := [] |}.

(** The database of a phone after the first start of the application. *)
Definition installed_db : gmap string table :=
  default ∅ (db (createTables (device false (Some ∅))).2).

Definition installed : world := device false (Some installed_db).

Definition table_of (d : gmap string table) (t : string) : table :=
  default {| columns := []; rows := ∅; sequence := 0 |} (d !! t).

Definition blue : json :=
  JObject [("name", JString "Blue"); ("light", JString "#DBEAFE");
           ("dark", JString "#1E3A8A"); ("text", JString "#1E40AF")].

Definition ana : profileData :=
  {| id := None; name := Some "Ana"; age := Some 31; phone := None;
     email := Some "ana@example.com"; relationship := Some "friend";
     job := None; notes := Some "";
     tags := Some [JObject [("text", JString "climbing"); ("color", blue)]];
     photoUri := None; parents := Some [JString "Eva"; JString "Tom"];
     kids := Some []; brothers := None; sisters := None; siblings := None;
     pets := None; foodLikes := Some [JString "ramen"]; foodDislikes := None;
     interests := None; instagram := Some "@ana"; snapchat := None;
     twitter := None; tiktok := None; facebook := None; birthday := None;
     lastContactDate := Some "2024-05-30T08:00:00.000Z" |}.

Definition with_id (k : Z) (p : profileData) : profileData :=
  {| id := Some k; name := name p; age := age p; phone := phone p;
     email := email p; relationship := relationship p; job := job p;
     notes := notes p; tags := tags p; photoUri := photoUri p;
     parents := parents p; kids := kids p; brothers := brothers p;
     sisters := sisters p; siblings := siblings p; pets := pets p;
     foodLikes := foodLikes p; foodDislikes := foodDislikes p;
     interests := interests p; instagram := instagram p;
     snapchat := snapchat p; twitter := twitter p; tiktok := tiktok p;
     facebook := facebook p; birthday := birthday p;
     lastContactDate := lastContactDate p |}.

Definition without_name (p : profileData) : profileData :=
  {| id := id p; name := None; age := age p; phone := phone p;
     email := email p; relationship := relationship p; job := job p;
     notes := notes p; tags := tags p; photoUri := photoUri p;
     parents := parents p; kids := kids p; brothers := brothers p;
     sisters := sisters p; siblings := siblings p; pets := pets p;
     foodLikes := foodLikes p; foodDislikes := foodDislikes p;
     interests := interests p; instagram := instagram p;
     snapchat := snapchat p; twitter := twitter p; tiktok := tiktok p;
     facebook := facebook p; birthday := birthday p;
     lastContactDate := lastContactDate p |}.

Definition call_ana : reminderData :=
  {| profileId := Some 1; title := Some "Call Ana"; description := None;
     type := None; scheduledFor := Some "2024-06-03T09:00:00.000Z" |}.

Definition water_plants : reminderData :=
  {| profileId := None; title := Some "Water the plants"; description := None;
     type := Some "chore"; scheduledFor := Some "2024-06-02T07:30:00.000Z" |}.

(** The database of the phone after one profile and two reminders, one of
    them for the profile, have been saved. *)
Definition in_use_db : gmap string table :=
  default ∅
    (db (createReminder water_plants
           (createReminder call_ana
              (createOrUpdateProfile ana installed).2).2).2).

Definition in_use : world := device false (Some in_use_db).

(** The phone after the profile alone has been saved. *)
Definition one_profile_db : gmap string table :=
  default ∅ (db (createOrUpdateProfile ana installed).2).

Definition one_profile : world := device false (Some one_profile_db).

Example in_use_ids :
  (createOrUpdateProfile ana installed).1 = Ok 1 ∧
  (createReminder call_ana (createOrUpdateProfile ana installed).2).1 = Ok 1 ∧
  (createReminder water_plants
     (createReminder call_ana (createOrUpdateProfile ana installed).2).2).1 = Ok 2.
Proof. repeat split; vm_refl. Qed.

(** *** The remote collection step *)

(** Everything of a world but what was collected remotely. *)
Definition same_device (w w' : world) : Prop :=
  db w' = db w ∧ isWebFallback w' = isWebFallback w ∧ now w' = now w ∧
  toISOString w' = toISOString w ∧ random w' = random w ∧ remote w' = remote w.


Lemma log_returns p op k w :
  (logProfileDataForCollection p op k w).1 = Ok tt ∧
  same_device w (logProfileDataForCollection p op k w).2.
Proof.
  unfold logProfileDataForCollection, AuthService_getSession,
    AuthService_init, supabase_insert, same_device. exec_all.
  destruct (getSession (remote w)) as [session|e]; simpl; [|done].
  destruct (truthy_string session); simpl; [|done].
  destruct (authInit (remote w)); simpl; [|done].
  destruct (supabase (remote w)) as [[[error|]|e]|]; simpl; done.
Qed.

Definition operation (p : profileData) : string :=
  match truthy_number (id p) with
  | Some _ => "update"
  | None => "create"
  end.

(** The local part of a save: the mock identifier in web-fallback mode,
    the UPDATE or the INSERT otherwise. *)
Definition local_save (p : profileData) (w : world) : outcome Z * world :=
  if isWebFallback w
  then (Ok (default (mock_id (random w)) (truthy_number (id p))), w)
  else
    match db w with
    | None => (Throw (Error "TypeError: null is not an object"), w)
    | Some d =>
        match truthy_number (id p) with
        | Some k =>
            match update_profile p (toISOString w (now w)) k d with
            | Ok d' => (Ok k, set_db d' w)
            | Throw e => (Throw e, w)
            end
        | None =>
            match insert_profile p (toISOString w (now w)) d with
            | Ok (d', k) => (Ok k, set_db d' w)
            | Throw e => (Throw e, w)
            end
        end
    end.

Lemma save_unfold p w :
  createOrUpdateProfile p w =
    match local_save p w with
    | (Ok k, w1) =>
        (Ok k, (logProfileDataForCollection p (operation p) (Some k) w1).2)
    | (Throw e, w1) => (Throw e, w1)
    end.
Proof.
  unfold createOrUpdateProfile, local_save, operation.
  unfold mbind at 1, async_mbind at 1, async_bind at 1, gets at 1.
  destruct (isWebFallback w).
  - exec_all.
    destruct (log_returns p
                match truthy_number (id p) with
                | Some _ => "update"
                | None => "create"
                end
                (Some (default (mock_id (random w)) (truthy_number (id p)))) w)
      as [Hr _].
    destruct (logProfileDataForCollection _ _ _ w) as [o w']. simpl in *.
    by subst o.
  - unfold mbind at 1, async_mbind at 1, async_bind at 1, Date_now_ISO.
    destruct (truthy_number (id p)) as [k|]; exec_all.
    + destruct (db w) as [d|]; [|done].
      destruct (update_profile p _ k d) as [d'|e]; [|done].
      destruct (log_returns p "update" (Some k) (set_db d' w)) as [Hr _].
      destruct (logProfileDataForCollection _ _ _ _) as [o w']. simpl in *.
      by subst o.
    + destruct (db w) as [d|]; [|done].
      destruct (insert_profile p _ d) as [[d' k]|e]; [|done]. simpl.
      destruct (log_returns p "create" (Some k) (set_db d' w)) as [Hr _].
      destruct (logProfileDataForCollection _ _ _ _) as [o w']. simpl in *.
      by subst o.
Qed.



(** *** Web-fallback mode *)

Definition unit_interval (r : QArith_base.Q) : Prop :=
  QArith_base.Qle (QArith_base.inject_Z 0) r ∧
  QArith_base.Qlt r (QArith_base.inject_Z 1).

Lemma mock_id_range r : unit_interval r → 3 ≤ mock_id r ≤ 1002.
Proof.
  intros [H0 H1]. unfold mock_id.
  set (x := QArith_base.Qmult r (QArith_base.inject_Z 1000)).
  assert (QArith_base.Qle (QArith_base.inject_Z 0) x) as Hx0.
  { unfold x, QArith_base.Qle in *. destruct r as [a b]. simpl in *. lia. }
  assert (QArith_base.Qlt x (QArith_base.inject_Z 1000)) as Hx1.
  { unfold x, QArith_base.Qlt in *. destruct r as [a b]. simpl in *. lia. }
  apply Qround.Qfloor_resp_le in Hx0. rewrite Qround.Qfloor_Z in Hx0.
  pose proof (Qround.Qfloor_le x) as Hf.
  assert (Qround.Qfloor x < 1000); [|lia].
  pose proof (QArith_base.Qle_lt_trans _ _ _ Hf Hx1) as Hlt.
  by rewrite <- QArith_base.Zlt_Qlt in Hlt.
Qed.






(** *** Statements on a database that is there *)

Lemma exec_ok stmt w d d' :
  db w = Some d → stmt d = Ok d' → exec stmt w = (Ok tt, set_db d' w).
Proof. intros Hd Hs. exec_all. by rewrite Hd, Hs. Qed.

Lemma exec_throw stmt w d e :
  db w = Some d → stmt d = Throw e → exec stmt w = (Throw e, w).
Proof. intros Hd Hs. exec_all. by rewrite Hd, Hs. Qed.

Lemma query_ok {A} (q : gmap string table → outcome A) w d :
  db w = Some d → query q w = (q d, w).
Proof. intros Hd. exec_all. rewrite Hd. by destruct (q d). Qed.

Lemma bind_ok {A B} (m : async world A) (k : A → async world B) w a w' :
  m w = (Ok a, w') → (m ≫= k) w = k a w'.
Proof. intros H. unfold mbind, async_mbind, async_bind. by rewrite H. Qed.

Lemma bind_throw {A B} (m : async world A) (k : A → async world B) w e w' :
  m w = (Throw e, w') → (m ≫= k) w = (Throw e, w').
Proof. intros H. unfold mbind, async_mbind, async_bind. by rewrite H. Qed.

Lemma set_db_set_db d d' w : set_db d' (set_db d w) = set_db d' w.
Proof. reflexivity. Qed.

(** *** Deleting a profile *)

(** A table after [DELETE FROM t WHERE profileId = k]. *)
Definition prune (k : Z) (tb : table) : table :=
  {| columns := columns tb;
     rows := filter (λ kr, ¬ matches "profileId" (Integer k) kr.2) (rows tb);
     sequence := sequence tb |}.

(** A table after [DELETE FROM t WHERE id = k]. *)
Definition without (k : Z) (tb : table) : table :=
  {| columns := columns tb; rows := delete k (rows tb);
     sequence := sequence tb |}.

Lemma delete_where_profileId d t k tb :
  d !! t = Some tb → "profileId" ∈ column_names tb →
  delete_where d t "profileId" (Integer k) = Ok (<[t := prune k tb]> d).
Proof.
  intros Ht Hc. unfold delete_where. rewrite Ht.
  by rewrite decide_True by done.
Qed.

Lemma prune_lookup k tb j row :
  rows (prune k tb) !! j = Some row ↔
  rows tb !! j = Some row ∧ cell row "profileId" ≠ Integer k.
Proof.
  unfold prune. simpl. rewrite map_lookup_filter_Some. simpl.
  unfold matches. split; intros [H1 H2]; (split; [done|]).
  - intros Hc. apply H2. by split.
  - intros [_ Hc]. done.
Qed.

Definition dependent_tables : list string :=
  ["reminders"; "interactions"; "life_events"].

(** The tables of [createTables] that refer to a profile are there. *)
Definition has_column (d : gmap string table) (t c : string) : Prop :=
  match d !! t with
  | Some tb => c ∈ column_names tb
  | None => False
  end.

#[local] Instance has_column_dec d t c : Decision (has_column d t c).
Proof. unfold has_column. destruct (d !! t); apply _. Defined.

Lemma has_column_inv d t c :
  has_column d t c → ∃ tb, d !! t = Some tb ∧ c ∈ column_names tb.
Proof. unfold has_column. destruct (d !! t) as [tb|]; [eauto|done]. Qed.

Definition ready (d : gmap string table) : Prop :=
  is_Some (d !! "profiles") ∧
  Forall (λ t, has_column d t "profileId") dependent_tables.

Definition after_delete (k : Z) (d : gmap string table) : gmap string table :=
  alter (without k) "profiles"
    (alter (prune k) "life_events"
       (alter (prune k) "interactions"
          (alter (prune k) "reminders" d))).

Lemma deleteProfile_embedded k w d :
  isWebFallback w = false → db w = Some d → ready d →
  deleteProfile k w = (Ok tt, set_db (after_delete k d) w).
Proof.
  intros Hw Hd (Hp & Hdep). unfold dependent_tables in Hdep.
  apply Forall_cons in Hdep as [(r & Hr & Hrc)%has_column_inv Hdep].
  apply Forall_cons in Hdep as [(i & Hi & Hic)%has_column_inv Hdep].
  apply Forall_cons in Hdep as [(l & Hl & Hlc)%has_column_inv _].
  destruct Hp as [p Hp].
  unfold deleteProfile.
  unfold mbind at 1, async_mbind at 1, async_bind at 1, gets at 1.
  rewrite Hw.
  erewrite bind_ok; last first.
  { eapply exec_ok; [done|]. cbv beta. by apply delete_where_profileId. }
  erewrite bind_ok; last first.
  { eapply exec_ok; [reflexivity|]. cbv beta.
    apply delete_where_profileId; [by rewrite lookup_insert_ne|done]. }
  erewrite bind_ok; last first.
  { eapply exec_ok; [reflexivity|]. cbv beta.
    apply delete_where_profileId; [by rewrite !lookup_insert_ne|done]. }
  erewrite exec_ok; [| reflexivity |]; last first.
  { unfold delete_by_id. by rewrite !lookup_insert_ne, Hp by done. }
  rewrite !set_db_set_db. do 2 f_equal. unfold after_delete.
  apply map_eq. intros t.
  destruct (decide (t = "profiles")) as [->|?];
    [rewrite lookup_insert_eq, lookup_alter_eq, !lookup_alter_ne, Hp by done; done|].
  rewrite lookup_insert_ne, lookup_alter_ne by done.
  destruct (decide (t = "life_events")) as [->|?];
    [rewrite lookup_insert_eq, lookup_alter_eq, !lookup_alter_ne, Hl by done; done|].
  rewrite lookup_insert_ne, lookup_alter_ne by done.
  destruct (decide (t = "interactions")) as [->|?];
    [rewrite lookup_insert_eq, lookup_alter_eq, !lookup_alter_ne, Hi by done; done|].
  rewrite lookup_insert_ne, lookup_alter_ne by done.
  destruct (decide (t = "reminders")) as [->|?];
    [rewrite lookup_insert_eq, lookup_alter_eq, Hr by done; done|].
  by rewrite lookup_insert_ne, lookup_alter_ne by done.
Qed.

Lemma getProfileById_embedded k w d tb :
  isWebFallback w = false → db w = Some d → d !! "profiles" = Some tb →
  getProfileById k w =
    match rows tb !! k with
    | None => (Ok None, w)
    | Some row =>
        match with_lists (result_row tb k row) with
        | Ok p => (Ok (Some p), w)
        | Throw e => (Throw e, w)
        end
    end.
Proof.
  intros Hw Hd Ht. unfold getProfileById.
  unfold mbind at 1, async_mbind at 1, async_bind at 1, gets at 1.
  rewrite Hw.
  unfold mbind at 1, async_mbind at 1, async_bind at 1.
  rewrite (query_ok _ w d Hd). unfold select_by_id. rewrite Ht.
  destruct (rows tb !! k) as [row|]; [|done]. cbn [fmap option_fmap option_map].
  unfold lift, mbind, mret, async_mbind, async_mret, async_bind, async_ret.
  by destruct (with_lists (result_row tb k row)).
Qed.

Lemma after_delete_profiles k d :
  after_delete k d !! "profiles" = without k <$> d !! "profiles".
Proof.
  unfold after_delete. rewrite lookup_alter_eq. by rewrite !lookup_alter_ne by done.
Qed.

Lemma after_delete_dependent k d t :
  t ∈ dependent_tables → after_delete k d !! t = prune k <$> d !! t.
Proof.
  unfold after_delete, dependent_tables. intros Ht.
  repeat (apply elem_of_cons in Ht as [->|Ht]);
    [..|by apply elem_of_nil in Ht];
    rewrite ?lookup_alter_ne by done; rewrite lookup_alter_eq;
    by rewrite ?lookup_alter_ne by done.
Qed.

Lemma after_delete_other k d t :
  t ≠ "profiles" → t ∉ dependent_tables → after_delete k d !! t = d !! t.
Proof.
  unfold after_delete, dependent_tables. intros Hp Ht.
  rewrite !not_elem_of_cons in Ht. destruct Ht as (? & ? & ? & _).
  by rewrite !lookup_alter_ne by done.
Qed.

(** C2 (amended): outside web-fallback mode, [deleteProfile k] removes the
    profile row [k] and every reminder, interaction and life event whose
    [profileId] is [k]; afterwards [getProfileById k] returns [null];
    the other rows of these tables, and every other table (so the
    feedback), are as they were. *)
Theorem deleteProfile_cascades k w d :
  isWebFallback w = false → db w = Some d → ready d →
  ∃ d',
    deleteProfile k w = (Ok tt, set_db d' w) ∧
    getProfileById k (set_db d' w) = (Ok None, set_db d' w) ∧
    (∀ t tb, t ∈ dependent_tables → d !! t = Some tb →
       ∃ tb', d' !! t = Some tb' ∧ columns tb' = columns tb ∧
              ∀ j row, rows tb' !! j = Some row ↔
                       rows tb !! j = Some row ∧
                       cell row "profileId" ≠ Integer k) ∧
    (∀ p, d !! "profiles" = Some p →
       ∃ p', d' !! "profiles" = Some p' ∧ columns p' = columns p ∧
             rows p' !! k = None ∧
             ∀ j, j ≠ k → rows p' !! j = rows p !! j) ∧
    (∀ t, t ≠ "profiles" → t ∉ dependent_tables → d' !! t = d !! t).
Proof.
  intros Hw Hd Hready. exists (after_delete k d).
  split; [by apply deleteProfile_embedded|].
  destruct Hready as [[p Hp] _].
  split; [|split; [|split]].
  - erewrite getProfileById_embedded; [|done|reflexivity|].
    2:{ by rewrite after_delete_profiles, Hp. }
    simpl. by rewrite lookup_delete_eq.
  - intros t tb Ht Htb. exists (prune k tb).
    rewrite after_delete_dependent, Htb by done.
    split; [done|]. split; [done|]. apply prune_lookup.
  - intros p' Hp'. exists (without k p').
    rewrite after_delete_profiles, Hp'. split; [done|]. split; [done|].
    simpl. split; [apply lookup_delete_eq|].
    intros j Hj. by apply lookup_delete_ne.
  - intros t Hp' Ht. by apply after_delete_other.
Qed.

Lemma deleteProfile_cascades_witness :
  ∃ d',
    deleteProfile 1 in_use = (Ok tt, set_db d' in_use) ∧
    getProfileById 1 (set_db d' in_use) = (Ok None, set_db d' in_use) ∧
    (∀ t tb, t ∈ dependent_tables → in_use_db !! t = Some tb →
       ∃ tb', d' !! t = Some tb' ∧ columns tb' = columns tb ∧
              ∀ j row, rows tb' !! j = Some row ↔
                       rows tb !! j = Some row ∧
                       cell row "profileId" ≠ Integer 1) ∧
    (∀ p, in_use_db !! "profiles" = Some p →
       ∃ p', d' !! "profiles" = Some p' ∧ columns p' = columns p ∧
             rows p' !! 1 = None ∧
             ∀ j, j ≠ 1 → rows p' !! j = rows p !! j) ∧
    (∀ t, t ≠ "profiles" → t ∉ dependent_tables → d' !! t = in_use_db !! t).
Proof.
  apply (deleteProfile_cascades 1 in_use in_use_db).
  - reflexivity.
  - reflexivity.
  - apply (bool_decide_unpack _). vm_compute. reflexivity.
Defined.

(** C2, as stated for every profile id, does not hold in web-fallback
    mode: [deleteProfile 1] does nothing there and [getProfileById 1]
    still returns the first mock profile. *)
Lemma deleteProfile_web_fallback :
  isWebFallback (device true None) = true ∧
  deleteProfile 1 (device true None) = (Ok tt, device true None) ∧
  match (getProfileById 1 (deleteProfile 1 (device true None)).2).1 with
  | Ok (Some john) => john !! "name"
  | _ => None
  end = Some (JString "John Doe").
Proof. repeat split; vm_refl. Qed.

(** *** Migration *)

Definition migrated_columns : list string :=
  ["parents"; "brothers"; "sisters"; "instagram"; "snapchat"; "twitter";
   "tiktok"; "facebook"].

(** The columns that [migrateDatabase] finds missing in a table. *)
Definition missing_in (tb : table) : list string :=
  filter (λ c, c ∉ column_names tb) migrated_columns.

Definition extend (tb : table) (cs : list column) : table :=
  {| columns := columns tb ++ cs; rows := rows tb; sequence := sequence tb |}.

Lemma set_db_same w d : db w = Some d → set_db d w = w.
Proof. destruct w. simpl. by intros ->. Qed.

Lemma missing_concat (ns : list string) (l : list string) :
  concat ((λ c, if decide (c ∈ ns) then [] else [col c "TEXT"]) <$> l)
    = (λ c, col c "TEXT") <$> filter (λ c, c ∉ ns) l.
Proof.
  induction l as [|c l IH]; [done|].
  rewrite fmap_cons, concat_cons, filter_cons, IH.
  destruct (decide (c ∈ ns)), (decide (c ∉ ns)); done.
Qed.

Lemma for_each_add_column (cs : list column) w d tb :
  db w = Some d → d !! "profiles" = Some tb →
  NoDup (col_name <$> cs) →
  Forall (λ c, col_name c ∉ column_names tb) cs →
  for_each cs (λ column, exec (λ d, add_column d "profiles" column)) w
    = (Ok tt, set_db (<["profiles" := extend tb cs]> d) w).
Proof.
  revert w d tb. induction cs as [|c cs IH]; intros w d tb Hd Ht Hnd Hcs.
  - cbn [for_each]. unfold mret, async_mret, async_ret. f_equal.
    rewrite insert_id; [by rewrite set_db_same|].
    rewrite Ht. f_equal. destruct tb. unfold extend. simpl.
    by rewrite app_nil_r.
  - rewrite fmap_cons in Hnd. apply NoDup_cons in Hnd as [Hc Hnd].
    apply Forall_cons in Hcs as [Hct Hcs].
    cbn [for_each].
    erewrite bind_ok; last first.
    { eapply exec_ok; [done|]. cbv beta. unfold add_column.
      rewrite Ht. by rewrite decide_False by done. }
    erewrite IH; [| reflexivity | apply lookup_insert_eq | done |].
    + rewrite set_db_set_db, insert_insert_eq. do 3 f_equal.
      unfold extend. simpl. by rewrite <- app_assoc.
    + unfold column_names. simpl. rewrite fmap_app. simpl.
      apply Forall_forall. intros c' Hc'.
      rewrite elem_of_app, list_elem_of_singleton. intros [Hin|Heq].
      * rewrite Forall_forall in Hcs. by apply (Hcs c').
      * apply Hc. rewrite <- Heq. by apply list_elem_of_fmap_2.
Qed.

Lemma migrateDatabase_unfold w d :
  db w = Some d →
  migrateDatabase w =
    try_catch
      (for_each ((λ c, col c "TEXT") <$>
                   filter (λ c, c ∉ col_name <$> table_info d "profiles")
                     migrated_columns)
         (λ column, exec (λ d, add_column d "profiles" column)))
      (λ _, mret tt) w.
Proof.
  intros Hd. unfold migrateDatabase.
  unfold mbind at 1, async_mbind at 1, async_bind at 1, gets at 1.
  rewrite Hd. unfold try_catch.
  unfold mbind at 1, async_mbind at 1, async_bind at 1.
  rewrite (query_ok _ w d Hd). cbv beta iota zeta.
  rewrite <- missing_concat. simpl. by rewrite app_nil_r.
Qed.

Definition text_columns (cs : list string) : list column :=
  (λ c, col c "TEXT") <$> cs.

Lemma text_columns_names cs : col_name <$> text_columns cs = cs.
Proof.
  unfold text_columns. rewrite <- list_fmap_compose.
  induction cs as [|c cs IH]; [done|]. by rewrite fmap_cons, IH.
Qed.

Lemma migrateDatabase_table w d tb :
  db w = Some d → d !! "profiles" = Some tb →
  migrateDatabase w
    = (Ok tt, set_db (<["profiles" := extend tb (text_columns (missing_in tb))]> d) w).
Proof.
  intros Hd Ht. rewrite (migrateDatabase_unfold w d Hd).
  unfold table_info. rewrite Ht. unfold try_catch.
  fold (column_names tb). fold (missing_in tb). fold (text_columns (missing_in tb)).
  rewrite (for_each_add_column _ w d tb Hd Ht); [done| |].
  - rewrite text_columns_names. apply NoDup_filter.
    apply (bool_decide_unpack _). vm_compute. reflexivity.
  - unfold text_columns. apply Forall_fmap, Forall_forall.
    intros c Hc. simpl. unfold missing_in in Hc.
    by apply list_elem_of_filter in Hc as [Hc _].
Qed.

Lemma migrateDatabase_no_table w d :
  db w = Some d → d !! "profiles" = None → migrateDatabase w = (Ok tt, w).
Proof.
  intros Hd Ht. rewrite (migrateDatabase_unfold w d Hd).
  unfold table_info. rewrite Ht.
  assert (filter (λ c, c ∉ col_name <$> []) migrated_columns = migrated_columns)
    as -> by (vm_compute; reflexivity).
  unfold try_catch, migrated_columns. rewrite !fmap_cons. cbn [for_each].
  erewrite bind_throw; [done|].
  eapply exec_throw; [done|]. cbv beta. unfold add_column. by rewrite Ht.
Qed.

Lemma missing_in_extend tb : missing_in (extend tb (text_columns (missing_in tb))) = [].
Proof.
  unfold missing_in at 1.
  assert (Forall (λ c, ¬ (c ∉ column_names (extend tb (text_columns (missing_in tb)))))
            migrated_columns) as H.
  { apply Forall_forall. intros c Hc Hn. apply Hn.
    unfold column_names, extend. simpl.
    rewrite fmap_app, text_columns_names, elem_of_app.
    destruct (decide (c ∈ col_name <$> columns tb)) as [|Hm]; [by left|right].
    unfold missing_in. by apply list_elem_of_filter. }
  induction H as [|c l Hc Hl IH]; [done|].
  rewrite filter_cons. by rewrite decide_False.
Qed.

(** C8: [migrateDatabase] completes without an error.  On an existing
    profiles table it appends, as TEXT columns, exactly those of the
    eight column names that the table does not have, and leaves the
    existing columns, the rows, the rowid counter and the other tables
    alone; when there is no profiles table (or no database) it changes
    nothing; run a second time it changes nothing. *)
Theorem migrateDatabase_adds_missing_columns w :
  ∃ w', migrateDatabase w = (Ok tt, w') ∧
        migrateDatabase w' = (Ok tt, w') ∧
        match db w with
        | None => w' = w
        | Some d =>
            match d !! "profiles" with
            | None => w' = w
            | Some tb =>
                w' = set_db
                       (<["profiles" :=
                            {| columns := columns tb ++
                                 ((λ c, col c "TEXT") <$>
                                    filter (λ c, c ∉ column_names tb)
                                      ["parents"; "brothers"; "sisters";
                                       "instagram"; "snapchat"; "twitter";
                                       "tiktok"; "facebook"]);
                               rows := rows tb;
                               sequence := sequence tb |}]> d) w
            end
        end.
Proof.
  destruct (db w) as [d|] eqn:Hd.
  - destruct (d !! "profiles") as [tb|] eqn:Ht.
    + eexists. split; [by apply migrateDatabase_table|]. split; [|done].
      set (tb' := extend tb _).
      erewrite migrateDatabase_table; [|reflexivity|apply lookup_insert_eq].
      rewrite set_db_set_db, insert_insert_eq. unfold tb'.
      rewrite missing_in_extend. do 3 f_equal.
      unfold extend, text_columns. simpl. by rewrite app_nil_r.
    + exists w. by rewrite (migrateDatabase_no_table w d).
  - exists w. unfold migrateDatabase, mbind, async_mbind, async_bind, gets.
    by rewrite Hd.
Qed.

Example migrate_old_table :
  column_names <$>
    (db (migrateDatabase
           (device false
              (Some {[ "profiles" :=
                         {| columns := [col "id" "INTEGER"; col_required "name" "TEXT";
                                        col "parents" "TEXT"; col "twitter" "TEXT"];
                            rows := ∅; sequence := 0 |} ]}))).2
       ≫= λ d, d !! "profiles")
    = Some ["id"; "name"; "parents"; "twitter"; "brothers"; "sisters";
            "instagram"; "snapchat"; "tiktok"; "facebook"].
Proof. vm_refl. Qed.

(** *** Reminders *)

Definition by_scheduledFor (a b : gmap string value) : Prop :=
  value_le (cell a "scheduledFor") (cell b "scheduledFor").

Lemma getAllReminders_embedded w d r p :
  isWebFallback w = false → db w = Some d →
  d !! "reminders" = Some r → d !! "profiles" = Some p →
  "profileId" ∈ column_names r → "scheduledFor" ∈ column_names r →
  "name" ∈ column_names p → "photoUri" ∈ column_names p →
  getAllReminders w =
    (Ok ((λ row : gmap string value, to_json <$> row) <$>
           order_by "scheduledFor" false
             ((λ kr, joined_row r p kr.1 kr.2) <$> map_to_list (rows r))), w).
Proof.
  intros Hw Hd Hr Hp ? ? ? ?. unfold getAllReminders.
  unfold mbind at 1, async_mbind at 1, async_bind at 1, gets at 1.
  rewrite Hw.
  unfold mbind at 1, async_mbind at 1, async_bind at 1.
  rewrite (query_ok _ w d Hd). unfold select_reminders. rewrite Hr, Hp.
  by rewrite decide_True by done.
Qed.

Lemma joined_row_column r p k row c :
  c ∈ column_names r → c ≠ "profileName" → c ≠ "profilePhoto" →
  joined_row r p k row !! c
    = Some (if decide (c = "id") then Integer k else cell row c).
Proof.
  intros Hc H1 H2. unfold joined_row.
  rewrite !lookup_insert_ne by done. rewrite result_row_lookup.
  by rewrite decide_True by done.
Qed.

Lemma joined_row_profile r p k row :
  joined_row r p k row !! "profileName"
    = Some (match cell row "profileId" with
            | Integer i => from_option (λ o, cell o "name") Null (rows p !! i)
            | _ => Null
            end) ∧
  joined_row r p k row !! "profilePhoto"
    = Some (match cell row "profileId" with
            | Integer i => from_option (λ o, cell o "photoUri") Null (rows p !! i)
            | _ => Null
            end).
Proof.
  unfold joined_row. rewrite lookup_insert_ne by done.
  rewrite !lookup_insert_eq. by destruct (cell row "profileId").
Qed.



(** The [scheduledFor] column holds text and text is compared by its
    bytes.  For dates written in one form that the order of the instants
    can be read from (as [toISOString] writes them: UTC, fixed width), the
    result is in the order of the instants. *)
Lemma sorted_by_time (iso : Z → string) (times : list Z)
    (result : list (gmap string value)) :
  (∀ a b, String.le (iso a) (iso b) → a ≤ b) →
  StronglySorted by_scheduledFor result →
  (λ row, cell row "scheduledFor") <$> result = (λ t, Text (iso t)) <$> times →
  StronglySorted Z.le times.
Proof.
  intros Hiso Hs. revert times.
  induction Hs as [|row result Hs IH Hrow]; intros [|t times] Heq;
    try done; [constructor|].
  rewrite !fmap_cons in Heq. injection Heq as Ht Heq.
  constructor; [by apply IH|].
  apply Forall_forall. intros u Hu.
  assert (Text (iso u) ∈ (λ t, Text (iso t)) <$> times) as Hin
    by (by apply (list_elem_of_fmap_2 (λ t, Text (iso t)))).
  rewrite <- Heq in Hin. apply list_elem_of_fmap in Hin as (row' & Hc & Hin).
  rewrite Forall_forall in Hrow. specialize (Hrow row' Hin).
  unfold by_scheduledFor in Hrow. rewrite Ht, <- Hc in Hrow.
  by apply Hiso.
Qed.

(** The reminder for the earlier date comes first; the one without a
    profile has no profile name. *)
Example reminders_in_use :
  match (getAllReminders in_use).1 with
  | Ok l => (λ o : gmap string json,
               (o !! "title", o !! "scheduledFor", o !! "profileName")) <$> l
  | Throw _ => []
  end
  = [ (Some (JString "Water the plants"),
       Some (JString "2024-06-02T07:30:00.000Z"), Some JNull);
      (Some (JString "Call Ana"),
       Some (JString "2024-06-03T09:00:00.000Z"), Some (JString "Ana")) ].
Proof. vm_refl. Qed.

(** *** Saving a profile *)

Definition list_fields : list string :=
  ["tags"; "parents"; "kids"; "brothers"; "sisters"; "siblings"; "pets";
   "foodLikes"; "foodDislikes"; "interests"].

(** What a save stores for the scalar fields: an absent field is NULL. *)
Definition scalar_cells (p : profileData) : list (string * value) :=
  [ ("name", text (name p)); ("age", integer (age p));
    ("phone", text (phone p)); ("email", text (email p));
    ("relationship", text (relationship p)); ("job", text (job p));
    ("notes", text (notes p)); ("photoUri", text (photoUri p));
    ("instagram", text (instagram p)); ("snapchat", text (snapchat p));
    ("twitter", text (twitter p)); ("tiktok", text (tiktok p));
    ("facebook", text (facebook p)); ("birthday", text (birthday p));
    ("lastContactDate", text (lastContactDate p)) ].

(** The list-valued fields of a save: an absent one is the empty list. *)
Definition list_cells (p : profileData) : list (string * list json) :=
  [ ("tags", default [] (tags p)); ("parents", default [] (parents p));
    ("kids", default [] (kids p)); ("brothers", default [] (brothers p));
    ("sisters", default [] (sisters p)); ("siblings", default [] (siblings p));
    ("pets", default [] (pets p)); ("foodLikes", default [] (foodLikes p));
    ("foodDislikes", default [] (foodDislikes p));
    ("interests", default [] (interests p)) ].

Definition stored_cells (p : profileData) : list (string * value) :=
  scalar_cells p ++ ((λ cl, (cl.1, json_text cl.2)) <$> list_cells p).

Definition data_columns : list string :=
  ["name"; "age"; "phone"; "email"; "relationship"; "job"; "notes"; "tags";
   "photoUri"; "parents"; "kids"; "brothers"; "sisters"; "siblings"; "pets";
   "foodLikes"; "foodDislikes"; "interests"; "instagram"; "snapchat";
   "twitter"; "tiktok"; "facebook"; "birthday"; "lastContactDate"].

(** A profiles table on which the statements of a save can run: it has
    the columns they name, and no NOT NULL column but [name]. *)
Definition current (tb : table) : Prop :=
  Forall (λ c, c ∈ column_names tb) (data_columns ++ ["createdAt"; "updatedAt"]) ∧
  Forall (λ c, col_notnull c = true → col_name c = "name") (columns tb).

#[local] Instance current_dec tb : Decision (current tb).
Proof. unfold current. apply _. Defined.

Ltac in_literal :=
  repeat first [apply list_elem_of_here | apply list_elem_of_further].

Ltac all_in_literal :=
  repeat (apply Forall_cons; split; [in_literal|]); apply Forall_nil_2.

Lemma writable_current tb cols vals :
  current tb → length cols = length vals →
  Forall (λ c, c ≠ "id" ∧ c ∈ data_columns ++ ["createdAt"; "updatedAt"]) cols →
  writable tb cols vals.
Proof.
  intros [Hc _] Hlen Hcols. split; [done|].
  rewrite Forall_forall in Hc. eapply Forall_impl; [exact Hcols|].
  intros c [? ?]. split; [done|]. by apply Hc.
Qed.

Lemma notnull_current tb r :
  current tb → cell r "name" ≠ Null → violates_notnull tb r = false.
Proof.
  intros [_ Hn] Hname. unfold violates_notnull.
  induction Hn as [|c cs Hc Hcs IH]; [done|]. cbn [existsb].
  rewrite IH, orb_false_r. destruct (col_notnull c); [|done].
  rewrite (Hc eq_refl). simpl. by apply bool_decide_eq_false_2.
Qed.

(** What the UPDATE of a save makes of a row [r]. *)
Definition updated (p : profileData) (now : string) (r r' : gmap string value)
    : Prop :=
  (∀ c v, (c, v) ∈ stored_cells p → r' !! c = Some v) ∧
  r' !! "updatedAt" = Some (Text now) ∧
  (∀ c, c ∉ data_columns → c ≠ "updatedAt" → r' !! c = r !! c).

(** The row that the INSERT of a save creates. *)
Definition created (p : profileData) (now : string) (r' : gmap string value)
    : Prop :=
  (∀ c v, (c, v) ∈ stored_cells p → r' !! c = Some v) ∧
  r' !! "createdAt" = Some (Text now) ∧
  r' !! "updatedAt" = Some (Text now).

Definition with_row (tb : table) (k : Z) (r : gmap string value) (seq : Z)
    : table :=
  {| columns := columns tb; rows := <[k := r]> (rows tb); sequence := seq |}.

Lemma update_profile_row p now k d tb r :
  d !! "profiles" = Some tb → rows tb !! k = Some r →
  ∃ r', updated p now r r' ∧
    ((∃ e, update_profile p now k d = Throw e) ∨
     update_profile p now k d
       = Ok (<["profiles" := with_row tb k r' (sequence tb)]> d)) ∧
    (current tb → cell r' "name" ≠ Null →
     update_profile p now k d
       = Ok (<["profiles" := with_row tb k r' (sequence tb)]> d)).
Proof.
  intros Ht Hr. unfold update_profile. cbv zeta.
  unfold update. rewrite Ht, Hr. cbv zeta.
  match goal with
  | |- context [assign ?cols ?vals r] =>
      set (cs := cols); set (vs := vals);
      assert (NoDup cs) as Hnd
        by (apply (bool_decide_unpack _); vm_compute; reflexivity);
      assert (Forall (λ cv, cv ∈ zip cs vs)
                (("updatedAt", Text now) :: stored_cells p)) as Hin
        by (unfold cs, vs; cbn; all_in_literal)
  end.
  exists (assign cs vs r).
  apply Forall_cons in Hin as [Hup Hin]. rewrite Forall_forall in Hin.
  split; [|split].
  - split; [|split].
    + intros c v Hcv. apply assign_lookup_in; [done|]. by apply Hin.
    + by apply assign_lookup_in.
    + intros c Hc Hu. apply assign_lookup_notin. unfold cs.
      change (c ∉ data_columns ++ ["updatedAt"]).
      intros [?|?%list_elem_of_singleton]%elem_of_app; done.
  - destruct (decide (writable tb cs vs)); [|left; eauto].
    destruct (violates_notnull tb (assign cs vs r)); [left; eauto|by right].
  - intros Hcur Hname.
    rewrite decide_True; last first.
    { apply writable_current; [done|reflexivity|].
      apply (bool_decide_unpack _). vm_compute. reflexivity. }
    by rewrite notnull_current.
Qed.


Lemma insert_profile_row p now d tb :
  d !! "profiles" = Some tb →
  ∃ r', created p now r' ∧
    ((∃ e, insert_profile p now d = Throw e) ∨
     insert_profile p now d
       = Ok (<["profiles" := with_row tb (next_rowid tb) r' (next_rowid tb)]> d,
             next_rowid tb)) ∧
    (current tb → cell r' "name" ≠ Null →
     insert_profile p now d
       = Ok (<["profiles" := with_row tb (next_rowid tb) r' (next_rowid tb)]> d,
             next_rowid tb)).
Proof.
  intros Ht. unfold insert_profile. cbv zeta.
  unfold insert. rewrite Ht. cbv zeta.
  match goal with
  | |- context [assign ?cols ?vals ∅] =>
      set (cs := cols); set (vs := vals);
      assert (NoDup cs) as Hnd
        by (apply (bool_decide_unpack _); vm_compute; reflexivity);
      assert (Forall (λ cv, cv ∈ zip cs vs)
                (("createdAt", Text now) :: ("updatedAt", Text now)
                   :: stored_cells p)) as Hin
        by (unfold cs, vs; cbn; all_in_literal)
  end.
  exists (assign cs vs ∅).
  apply Forall_cons in Hin as [Hcr Hin]. apply Forall_cons in Hin as [Hup Hin].
  rewrite Forall_forall in Hin.
  split; [|split].
  - split; [|split].
    + intros c v Hcv. apply assign_lookup_in; [done|]. by apply Hin.
    + by apply assign_lookup_in.
    + by apply assign_lookup_in.
  - destruct (decide (writable tb cs vs)); [|left; eauto].
    destruct (violates_notnull tb (assign cs vs ∅)); [left; eauto|by right].
  - intros Hcur Hname.
    rewrite decide_True; last first.
    { apply writable_current; [done|reflexivity|].
      apply (bool_decide_unpack _). vm_compute. reflexivity. }
    by rewrite notnull_current.
Qed.

Lemma stored_name p n r' :
  name p = Some n → (∀ c v, (c, v) ∈ stored_cells p → r' !! c = Some v) →
  cell r' "name" ≠ Null.
Proof.
  intros Hname Hcells. unfold cell.
  rewrite (Hcells "name" (Text n)); [done|].
  unfold stored_cells, scalar_cells. rewrite Hname. apply list_elem_of_here.
Qed.

(** C7 (amended): on the update path (an id of an existing row, outside
    web-fallback mode) and with a name in the input,
    [createOrUpdateProfile] overwrites every data column of that row from
    the input, an absent field becoming NULL or the empty list, and sets
    [updatedAt] to the current time; the row keeps its id and its
    [createdAt], and every other row and table is unchanged. *)
Theorem update_overwrites_row p w d tb k r n :
  isWebFallback w = false → db w = Some d →
  d !! "profiles" = Some tb → current tb →
  truthy_number (id p) = Some k → rows tb !! k = Some r →
  name p = Some n →
  ∃ w' d' tb' r',
    createOrUpdateProfile p w = (Ok k, w') ∧ db w' = Some d' ∧
    d' !! "profiles" = Some tb' ∧ rows tb' !! k = Some r' ∧
    (∀ c v, (c, v) ∈ stored_cells p → r' !! c = Some v) ∧
    r' !! "updatedAt" = Some (Text (toISOString w (now w))) ∧
    r' !! "createdAt" = r !! "createdAt" ∧
    (∀ j, j ≠ k → rows tb' !! j = rows tb !! j) ∧
    columns tb' = columns tb ∧
    (∀ t, t ≠ "profiles" → d' !! t = d !! t).
Proof.
  intros Hw Hd Ht Hcur Hk Hr Hname.
  destruct (update_profile_row p (toISOString w (now w)) k d tb r Ht Hr)
    as (r' & (Hcells & Hupd & Hother) & _ & Hup).
  rewrite save_unfold. unfold local_save.
  rewrite Hw, Hd, Hk, Hup by eauto using stored_name.
  set (d' := <["profiles" := _]> d).
  destruct (log_returns p (operation p) (Some k) (set_db d' w))
    as (_ & Hdb & _).
  eexists _, d', _, r'. split; [reflexivity|]. split; [exact Hdb|].
  split; [apply lookup_insert_eq|]. simpl.
  split; [apply lookup_insert_eq|]. split; [done|]. split; [done|].
  split.
  { apply Hother; [|done]. apply (bool_decide_unpack _). vm_compute. reflexivity. }
  split; [by intros j Hj; apply lookup_insert_ne|]. split; [done|].
  intros t Hne. by apply lookup_insert_ne.
Qed.

(** *** Reading a profile *)

(** A list column at rest: NULL, or the JSON text of an array. *)
Definition serialized (v : value) : Prop :=
  v = Null ∨ ∃ l, v = Text (stringify (JArray l)).

(** The array that a list column holds. *)
Definition decode (v : value) : list json :=
  match v with
  | Text s => match parse s with Some (JArray l) => l | _ => [] end
  | _ => []
  end.

#[local] Instance serialized_dec v : Decision (serialized v).
Proof.
  refine
    match v with
    | Null => left _
    | Integer _ => right _
    | Text s =>
        match parse s as o return parse s = o → _ with
        | Some (JArray l) => λ Hs,
            match decide (s = stringify (JArray l)) with
            | left Heq => left _
            | right Hne => right _
            end
        | _ => λ Hs, right _
        end eq_refl
    end;
    try (by left); try (by right; exists l; rewrite Heq);
    intros [?|[l' Hl']]; simplify_eq;
    rewrite JsonFacts.parse_stringify in Hs; by simplify_eq.
Defined.

Lemma decode_json_text l : decode (json_text l) = l.
Proof. unfold decode, json_text. by rewrite JsonFacts.parse_stringify. Qed.

Lemma parse_or_empty_serialized (x : option value) :
  serialized (default Null x) →
  parse_or_empty x = Ok (JArray (decode (default Null x))).
Proof.
  intros [Hx|[l Hx]]; destruct x as [[|n|s]|]; simplify_eq/=; try done.
  by rewrite JsonFacts.parse_stringify.
Qed.

Lemma with_lists_serialized (row : gmap string value) :
  Forall (λ c, serialized (cell row c)) list_fields →
  ∃ profile,
    with_lists row = Ok profile ∧
    (∀ c, c ∈ list_fields → profile !! c = Some (JArray (decode (cell row c)))) ∧
    (∀ c, c ∉ list_fields → profile !! c = to_json <$> row !! c).
Proof.
  intros H. unfold list_fields in *.
  repeat match type of H with
         | Forall _ (_ :: _) =>
             let H1 := fresh "H" in apply Forall_cons in H as [H1 H]
         end.
  unfold with_lists.
  repeat match goal with
         | Hc : serialized (cell row ?c) |- _ =>
             rewrite (parse_or_empty_serialized (row !! c) Hc); clear Hc
         end.
  unfold mbind, outcome_mbind, mret, outcome_mret. cbv beta iota.
  eexists. split; [reflexivity|]. split.
  - intros c Hc.
    repeat (apply elem_of_cons in Hc as [->|Hc];
            [rewrite ?lookup_insert_ne by done; by rewrite lookup_insert_eq|]).
    by apply elem_of_nil in Hc.
  - intros c Hc. rewrite !not_elem_of_cons in Hc.
    destruct Hc as (?&?&?&?&?&?&?&?&?&?&_).
    rewrite !lookup_insert_ne by done. apply lookup_fmap.
Qed.

Lemma result_row_cell tb k row c :
  c ≠ "id" →
  cell (result_row tb k row) c
    = if decide (c ∈ column_names tb) then cell row c else Null.
Proof.
  intros Hc. unfold cell at 1. rewrite result_row_lookup.
  destruct (decide (c ∈ column_names tb)); [|done].
  by rewrite decide_False by done.
Qed.

Lemma result_row_serialized tb k row :
  Forall (λ c, serialized (cell row c)) list_fields →
  Forall (λ c, serialized (cell (result_row tb k row) c)) list_fields.
Proof.
  assert ("id" ∉ list_fields) as Hid
    by (apply (bool_decide_unpack _); vm_compute; reflexivity).
  rewrite !Forall_forall. intros H c Hc. specialize (H c Hc).
  rewrite result_row_cell by (by intros ->).
  destruct (decide (c ∈ column_names tb)); [done|by left].
Qed.

Definition scalar_fields : list string :=
  ["name"; "age"; "phone"; "email"; "relationship"; "job"; "notes";
   "photoUri"; "instagram"; "snapchat"; "twitter"; "tiktok"; "facebook";
   "birthday"; "lastContactDate"].

Lemma scalar_cells_field p c v :
  (c, v) ∈ scalar_cells p →
  (c, v) ∈ stored_cells p ∧ c ∈ data_columns ∧ (c ∉ list_fields) ∧ c ≠ "id".
Proof.
  intros Hc. split; [apply elem_of_app; by left|].
  assert (c ∈ scalar_fields) as Hf.
  { change scalar_fields with (fst <$> scalar_cells p).
    by apply (list_elem_of_fmap_2 fst) in Hc. }
  clear Hc. revert c Hf. apply Forall_forall.
  apply (bool_decide_unpack _). vm_compute. reflexivity.
Qed.

Lemma list_cells_field p c l :
  (c, l) ∈ list_cells p →
  (c, json_text l) ∈ stored_cells p ∧ c ∈ data_columns ∧ c ∈ list_fields ∧
  c ≠ "id".
Proof.
  intros Hc. split.
  { apply elem_of_app. right.
    by apply (list_elem_of_fmap_2 (λ cl, (cl.1, json_text cl.2))) in Hc. }
  assert (c ∈ list_fields) as Hf.
  { change list_fields with (fst <$> list_cells p).
    by apply (list_elem_of_fmap_2 fst) in Hc. }
  clear Hc. revert c Hf. apply Forall_forall.
  apply (bool_decide_unpack _). vm_compute. reflexivity.
Qed.

Lemma list_fields_cells p c :
  c ∈ list_fields → ∃ l, (c, l) ∈ list_cells p.
Proof.
  change list_fields with (fst <$> list_cells p).
  intros ([c' l] & -> & Hl)%list_elem_of_fmap_1. eauto.
Qed.

Lemma stored_serialized p (r : gmap string value) :
  (∀ c v, (c, v) ∈ stored_cells p → r !! c = Some v) →
  Forall (λ c, serialized (cell r c)) list_fields.
Proof.
  intros Hr. apply Forall_forall. intros c [l Hl]%(list_fields_cells p).
  apply list_cells_field in Hl as (Hl & _). right. exists l.
  unfold cell. by rewrite (Hr _ _ Hl).
Qed.

(** Reading back a row that holds what a save stores. *)
Lemma read_back p k w d tb r :
  isWebFallback w = false → db w = Some d → d !! "profiles" = Some tb →
  Forall (λ c, c ∈ column_names tb) data_columns →
  rows tb !! k = Some r →
  (∀ c v, (c, v) ∈ stored_cells p → r !! c = Some v) →
  ∃ saved,
    getProfileById k w = (Ok (Some saved), w) ∧
    (∀ c v, (c, v) ∈ scalar_cells p → saved !! c = Some (to_json v)) ∧
    (∀ c l, (c, l) ∈ list_cells p → saved !! c = Some (JArray l)).
Proof.
  intros Hw Hd Ht Hcols Hr Hcells. rewrite Forall_forall in Hcols.
  rewrite (getProfileById_embedded k w d tb Hw Hd Ht), Hr.
  destruct (with_lists_serialized (result_row tb k r))
    as (saved & -> & Hlists & Hscalars).
  { apply result_row_serialized. by apply (stored_serialized p). }
  exists saved. split; [done|]. split.
  - intros c v (Hs & Hc & Hl & Hid)%scalar_cells_field.
    rewrite Hscalars, result_row_lookup by done.
    rewrite decide_True by by apply Hcols.
    rewrite decide_False by done. unfold cell. by rewrite (Hcells _ _ Hs).
  - intros c l (Hs & Hc & Hl & Hid)%list_cells_field.
    rewrite Hlists, result_row_cell by done.
    rewrite decide_True by by apply Hcols.
    unfold cell. rewrite (Hcells _ _ Hs).
    change (default Null (Some (json_text l))) with (json_text l).
    by rewrite decode_json_text.
Qed.

Lemma current_data_columns tb :
  current tb → Forall (λ c, c ∈ column_names tb) data_columns.
Proof. intros [H _]. by apply Forall_app in H as [H _]. Qed.

(** C1 (amended): while the embedded database is in use, a save that
    creates a profile (no id in the input) or updates a profile whose id
    is in the table returns an id under which [getProfileById] yields the
    saved values: every scalar field as it was given ([null] for an
    absent one), every list-valued field equal as a sequence (empty for
    an absent one). *)
Theorem saved_profile_is_retrievable p w d tb n :
  isWebFallback w = false → db w = Some d →
  d !! "profiles" = Some tb → current tb →
  name p = Some n →
  (∀ k, truthy_number (id p) = Some k → is_Some (rows tb !! k)) →
  ∃ k w' saved,
    createOrUpdateProfile p w = (Ok k, w') ∧
    getProfileById k w' = (Ok (Some saved), w') ∧
    (∀ c v, (c, v) ∈ scalar_cells p → saved !! c = Some (to_json v)) ∧
    (∀ c l, (c, l) ∈ list_cells p → saved !! c = Some (JArray l)).
Proof.
  intros Hw Hd Ht Hcur Hname Hid.
  rewrite save_unfold. unfold local_save. rewrite Hw, Hd.
  destruct (truthy_number (id p)) as [k|] eqn:Hk.
  - destruct (Hid k eq_refl) as [r Hr].
    destruct (update_profile_row p (toISOString w (now w)) k d tb r Ht Hr)
      as (r' & (Hcells & _) & _ & Hup).
    rewrite Hup by eauto using stored_name.
    set (d' := <["profiles" := _]> d).
    destruct (log_returns p (operation p) (Some k) (set_db d' w))
      as (_ & Hdb & Hfb & _).
    set (w' := (logProfileDataForCollection _ _ _ _).2) in *.
    destruct (read_back p k w' d' (with_row tb k r' (sequence tb)) r')
      as (saved & Hget & Hs & Hl); try done.
    + by rewrite Hfb.
    + apply lookup_insert_eq.
    + by apply current_data_columns.
    + apply lookup_insert_eq.
    + by exists k, w', saved.
  - destruct (insert_profile_row p (toISOString w (now w)) d tb Ht)
      as (r' & (Hcells & _) & _ & Hins).
    rewrite Hins by eauto using stored_name.
    set (k := next_rowid tb). set (d' := <["profiles" := _]> d).
    destruct (log_returns p (operation p) (Some k) (set_db d' w))
      as (_ & Hdb & Hfb & _).
    set (w' := (logProfileDataForCollection _ _ _ _).2) in *.
    destruct (read_back p k w' d' (with_row tb k r' k) r')
      as (saved & Hget & Hs & Hl); try done.
    + by rewrite Hfb.
    + apply lookup_insert_eq.
    + by apply current_data_columns.
    + apply lookup_insert_eq.
    + by exists k, w', saved.
Qed.

(** *** List-valued fields at rest and in memory *)






Lemma getAllProfiles_embedded w d tb :
  isWebFallback w = false → db w = Some d → d !! "profiles" = Some tb →
  getAllProfiles w =
    (map_outcome with_lists
       (order_by "updatedAt" true
          ((λ kr, result_row tb kr.1 kr.2) <$> map_to_list (rows tb))), w).
Proof.
  intros Hw Hd Ht. unfold getAllProfiles.
  unfold mbind at 1, async_mbind at 1, async_bind at 1, gets at 1.
  rewrite Hw.
  unfold mbind at 1, async_mbind at 1, async_bind at 1.
  rewrite (query_ok _ w d Hd). unfold select_all. rewrite Ht.
  unfold mbind, outcome_mbind, mret, outcome_mret, lift. done.
Qed.




(** *** The theorems at work on the example devices *)

Lemma saved_profile_is_retrievable_witness :
  ∃ k w' saved,
    createOrUpdateProfile ana installed = (Ok k, w') ∧
    getProfileById k w' = (Ok (Some saved), w') ∧
    (∀ c v, (c, v) ∈ scalar_cells ana → saved !! c = Some (to_json v)) ∧
    (∀ c l, (c, l) ∈ list_cells ana → saved !! c = Some (JArray l)).
Proof.
  apply (saved_profile_is_retrievable ana installed installed_db
           (table_of installed_db "profiles") "Ana").
  - reflexivity.
  - reflexivity.
  - vm_refl.
  - apply (bool_decide_unpack _). vm_compute. reflexivity.
  - reflexivity.
  - intros k Hk. vm_compute in Hk. discriminate.
Defined.

(** C1, as stated, does not hold: a save under an id that is not in the
    table returns that id and writes nothing, and [getProfileById] then
    returns [null]. *)
Lemma saved_under_unknown_id_is_lost :
  isWebFallback one_profile = false ∧
  (createOrUpdateProfile (with_id 99 ana) one_profile).1 = Ok 99 ∧
  (getProfileById 99 (createOrUpdateProfile (with_id 99 ana) one_profile).2).1
    = Ok None.
Proof. repeat split; vm_refl. Qed.

Definition bea : profileData :=
  {| id := Some 1; name := Some "Bea"; age := None; phone := Some "+15550100";
     email := None; relationship := Some "coworker"; job := Some "Baker";
     notes := None; tags := None; photoUri := None;
     parents := None; kids := Some [JString "Cleo"]; brothers := None;
     sisters := None; siblings := None; pets := None; foodLikes := None;
     foodDislikes := None; interests := None; instagram := None;
     snapchat := None; twitter := None; tiktok := None; facebook := None;
     birthday := None; lastContactDate := None |}.

Lemma update_overwrites_row_witness :
  ∃ w' d' tb' r',
    createOrUpdateProfile bea one_profile = (Ok 1, w') ∧ db w' = Some d' ∧
    d' !! "profiles" = Some tb' ∧ rows tb' !! 1 = Some r' ∧
    (∀ c v, (c, v) ∈ stored_cells bea → r' !! c = Some v) ∧
    r' !! "updatedAt"
      = Some (Text (toISOString one_profile (now one_profile))) ∧
    r' !! "createdAt"
      = default ∅ (rows (table_of one_profile_db "profiles") !! 1)
          !! "createdAt" ∧
    (∀ j, j ≠ 1 → rows tb' !! j
                  = rows (table_of one_profile_db "profiles") !! j) ∧
    columns tb' = columns (table_of one_profile_db "profiles") ∧
    (∀ t, t ≠ "profiles" → d' !! t = one_profile_db !! t).
Proof.
  apply (update_overwrites_row bea one_profile one_profile_db
           (table_of one_profile_db "profiles") 1
           (default ∅ (rows (table_of one_profile_db "profiles") !! 1)) "Bea").
  - reflexivity.
  - reflexivity.
  - vm_refl.
  - apply (bool_decide_unpack _). vm_compute. reflexivity.
  - reflexivity.
  - vm_refl.
  - reflexivity.
Defined.

(** C7, as stated, does not hold for an input without a name: the UPDATE
    violates the NOT NULL constraint of the name column, the save fails
    and the row stays as it was. *)
Lemma update_without_name_fails :
  (createOrUpdateProfile (without_name bea) one_profile).1
    = Throw (Error "NOT NULL constraint failed: profiles") ∧
  db (createOrUpdateProfile (without_name bea) one_profile).2
    = Some one_profile_db ∧
  default ∅ (rows (table_of one_profile_db "profiles") !! 1) !! "name"
    = Some (Text "Ana") ∧
  name (without_name bea) = None ∧ id (without_name bea) = Some 1.
Proof. repeat split; vm_refl. Qed.


Example ana_read_back :
  match (getProfileById 1 one_profile).1 with
  | Ok (Some profile) =>
      (profile !! "name", profile !! "age", profile !! "phone",
       profile !! "parents", profile !! "pets")
  | _ => (None, None, None, None, None)
  end
  = (Some (JString "Ana"), Some (JNumber 31), Some JNull,
     Some (JArray [JString "Eva"; JString "Tom"]), Some (JArray [])).
Proof. vm_refl. Qed.


Example mock_id_of_one_half : mock_id (QArith_base.Qmake 1 2) = 503.
Proof. reflexivity. Qed.

End DatabaseFacts.
(** ** Reminders *)

Module ReminderFacts.
Import Json Sql DatabaseService SqlFacts DatabaseFacts.

#[local] Arguments stringify : simpl never.
#[local] Arguments parse : simpl never.

(** A closed decidable statement, by evaluation. *)
Ltac decide_closed := apply (bool_decide_unpack _); vm_compute; reflexivity.

#[export] Instance column_eq_dec : EqDecision column.
Proof. solve_decision. Defined.

(** A table with the columns [schema] whose rows respect the NOT NULL
    constraints, as the rows written by INSERT and UPDATE do. *)
Definition intact (schema : list column) (tb : table) : Prop :=
  columns tb = schema ∧
  map_Forall (λ _ r, violates_notnull tb r = false) (rows tb).

#[export] Instance intact_dec schema tb : Decision (intact schema tb).
Proof. unfold intact. apply _. Defined.

(** The tables that the reminder methods use are there: the reminders as
    [createTables] makes them, and profiles with a name and a photo. *)
Definition reminders_ready (d : gmap string table) : Prop :=
  match d !! "reminders", d !! "profiles" with
  | Some r, Some p =>
      intact reminders_schema r ∧
      "name" ∈ column_names p ∧ "photoUri" ∈ column_names p
  | _, _ => False
  end.

#[local] Instance reminders_ready_dec d : Decision (reminders_ready d).
Proof.
  unfold reminders_ready.
  destruct (d !! "reminders"), (d !! "profiles"); apply _.
Defined.

Lemma reminders_ready_inv d :
  reminders_ready d →
  ∃ r p, d !! "reminders" = Some r ∧ d !! "profiles" = Some p ∧
         intact reminders_schema r ∧
         "name" ∈ column_names p ∧ "photoUri" ∈ column_names p.
Proof.
  unfold reminders_ready.
  destruct (d !! "reminders") as [r|], (d !! "profiles") as [p|]; try done.
  intros (? & ? & ?). by exists r, p.
Qed.

(** Two states of the device that differ at most in the reminders. *)
Definition same_but (t : string) (w w' : world) : Prop :=
  isWebFallback w' = isWebFallback w ∧ now w' = now w ∧
  toISOString w' = toISOString w ∧ random w' = random w ∧
  remote w' = remote w ∧
  collected_profiles_data w' = collected_profiles_data w ∧
  ∃ d d', db w = Some d ∧ db w' = Some d' ∧
          ∀ t', t' ≠ t → d' !! t' = d !! t'.

Lemma same_but_refl t w d : db w = Some d → same_but t w w.
Proof. intros Hd. repeat split. by exists d, d. Qed.

Lemma same_but_set_db t w d tb :
  db w = Some d → same_but t w (set_db (<[t := tb]> d) w).
Proof.
  intros Hd. repeat split. exists d, (<[t := tb]> d).
  repeat split; [done|]. intros t' Ht. by apply lookup_insert_ne.
Qed.

Lemma reminders_schema_names :
  col_name <$> reminders_schema
    = ["id"; "profileId"; "title"; "description"; "type"; "scheduledFor";
       "completed"; "completedAt"; "notificationId"; "createdAt"].
Proof. reflexivity. Qed.

Lemma reminders_notnull tb r :
  columns tb = reminders_schema →
  violates_notnull tb r = false ↔
  cell r "title" ≠ Null ∧ cell r "scheduledFor" ≠ Null.
Proof.
  intros Hc. unfold violates_notnull. rewrite Hc.
  cbn [reminders_schema existsb col col_required col_notnull col_name andb orb].
  rewrite orb_false_r, orb_false_iff, !bool_decide_eq_false. done.
Qed.

Lemma writable_reminders tb cols vals :
  columns tb = reminders_schema → length cols = length vals →
  Forall (λ c, c ∈ ["profileId"; "title"; "description"; "type";
                    "scheduledFor"; "completed"; "completedAt";
                    "notificationId"; "createdAt"]) cols →
  writable tb cols vals.
Proof.
  intros Hc Hlen Hcols. split; [done|].
  eapply Forall_impl; [exact Hcols|]. intros c Hin.
  unfold column_names. rewrite Hc, reminders_schema_names. split.
  - intros ->. revert Hin. decide_closed.
  - by apply list_elem_of_further.
Qed.

(** *** Reading one reminder *)

Lemma getReminderById_embedded k w d r p :
  isWebFallback w = false → db w = Some d →
  d !! "reminders" = Some r → d !! "profiles" = Some p →
  "profileId" ∈ column_names r →
  "name" ∈ column_names p → "photoUri" ∈ column_names p →
  getReminderById k w
    = (Ok ((λ row, to_json <$> joined_row r p k row) <$> rows r !! k), w).
Proof.
  intros Hw Hd Hr Hp ? ? ?. unfold getReminderById.
  unfold mbind at 1, async_mbind at 1, async_bind at 1, gets at 1.
  rewrite Hw.
  unfold mbind at 1, async_mbind at 1, async_bind at 1.
  rewrite (query_ok _ w d Hd). unfold select_reminder. rewrite Hr, Hp.
  rewrite decide_True by done.
  unfold mret, async_mret, async_ret. by destruct (rows r !! k).
Qed.

Lemma getReminderById_ready k w d r p :
  isWebFallback w = false → db w = Some d →
  d !! "reminders" = Some r → d !! "profiles" = Some p →
  columns r = reminders_schema →
  "name" ∈ column_names p → "photoUri" ∈ column_names p →
  getReminderById k w
    = (Ok ((λ row, to_json <$> joined_row r p k row) <$> rows r !! k), w).
Proof.
  intros Hw Hd Hr Hp Hc ? ?. apply (getReminderById_embedded k w d r p); try done.
  unfold column_names. rewrite Hc, reminders_schema_names.
  decide_closed.
Qed.

(** The columns of a reminder as [getReminderById] and [getAllReminders]
    show them. *)
Definition reminder_columns : list string :=
  ["id"; "profileId"; "title"; "description"; "type"; "scheduledFor";
   "completed"; "completedAt"; "notificationId"; "createdAt"].

Lemma joined_row_reminder r p k row c :
  columns r = reminders_schema → c ∈ reminder_columns →
  (to_json <$> joined_row r p k row) !! c
    = Some (if decide (c = "id") then JNumber k else to_json (cell row c)).
Proof.
  intros Hc Hin. rewrite lookup_fmap.
  rewrite joined_row_column.
  - simpl. by destruct (decide (c = "id")).
  - unfold column_names. by rewrite Hc, reminders_schema_names.
  - intros ->. revert Hin. decide_closed.
  - intros ->. revert Hin. decide_closed.
Qed.

(** The name and the photo that a reminder row is shown with. *)
Definition owner_cell (p : table) (row : gmap string value) (c : string) : value :=
  match cell row "profileId" with
  | Integer i => from_option (λ o, cell o c) Null (rows p !! i)
  | _ => Null
  end.

Lemma joined_row_owner r p k row :
  (to_json <$> joined_row r p k row) !! "profileName"
    = Some (to_json (owner_cell p row "name")) ∧
  (to_json <$> joined_row r p k row) !! "profilePhoto"
    = Some (to_json (owner_cell p row "photoUri")).
Proof.
  rewrite !lookup_fmap. destruct (joined_row_profile r p k row) as [-> ->].
  done.
Qed.

Lemma joined_row_other r p k row c :
  columns r = reminders_schema → c ∉ reminder_columns →
  c ≠ "profileName" → c ≠ "profilePhoto" →
  (to_json <$> joined_row r p k row) !! c = None.
Proof.
  intros Hc Hin H1 H2. rewrite lookup_fmap. unfold joined_row.
  rewrite !lookup_insert_ne by done. rewrite result_row_lookup.
  rewrite decide_False; [done|].
  unfold column_names. by rewrite Hc, reminders_schema_names.
Qed.

(** Rows that agree on every column but those in [cols] are shown alike
    but for those columns, as long as the owner is not among them. *)
Lemma joined_row_agree r r' p k row row' (cols : list string) c :
  columns r = reminders_schema → columns r' = reminders_schema →
  (∀ c, c ∉ cols → row' !! c = row !! c) →
  "profileId" ∉ cols → c ∉ cols →
  (to_json <$> joined_row r' p k row') !! c
    = (to_json <$> joined_row r p k row) !! c.
Proof.
  intros Hc Hc' Hsame Hp Hcc.
  assert (∀ c, c ∉ cols → cell row' c = cell row c) as Hcell.
  { intros c' Hc1. unfold cell. by rewrite Hsame. }
  destruct (decide (c = "profileName")) as [->|H1].
  { destruct (joined_row_owner r p k row) as [-> _].
    destruct (joined_row_owner r' p k row') as [-> _].
    unfold owner_cell. by rewrite Hcell. }
  destruct (decide (c = "profilePhoto")) as [->|H2].
  { destruct (joined_row_owner r p k row) as [_ ->].
    destruct (joined_row_owner r' p k row') as [_ ->].
    unfold owner_cell. by rewrite Hcell. }
  destruct (decide (c ∈ reminder_columns)) as [Hin|Hin].
  - rewrite !joined_row_reminder by done. by rewrite Hcell.
  - by rewrite !joined_row_other.
Qed.

(** *** Statements that change one row *)

Lemma assign_lookup_notin' cols vals (r : gmap string value) c :
  c ∉ cols → cell (assign cols vals r) c = cell r c.
Proof. intros Hc. unfold cell. by rewrite assign_lookup_notin. Qed.

Lemma update_row d t tb cols vals k r :
  d !! t = Some tb → writable tb cols vals → rows tb !! k = Some r →
  violates_notnull tb (assign cols vals r) = false →
  update d t cols vals k
    = Ok (<[t := with_row tb k (assign cols vals r) (sequence tb)]> d).
Proof.
  intros Ht Hw Hr Hn. unfold update. rewrite Ht, Hr.
  rewrite decide_True by done. cbv zeta. by rewrite Hn.
Qed.

Lemma update_no_row d t tb cols vals k :
  d !! t = Some tb → writable tb cols vals → rows tb !! k = None →
  update d t cols vals k = Ok d.
Proof.
  intros Ht Hw Hr. unfold update. rewrite Ht, Hr.
  by rewrite decide_True by done.
Qed.

Lemma update_rejected d t tb cols vals k r :
  d !! t = Some tb → writable tb cols vals → rows tb !! k = Some r →
  violates_notnull tb (assign cols vals r) = true →
  update d t cols vals k = Throw (Error ("NOT NULL constraint failed: " +:+ t)).
Proof.
  intros Ht Hw Hr Hn. unfold update. rewrite Ht, Hr.
  rewrite decide_True by done. cbv zeta. by rewrite Hn.
Qed.

Lemma insert_row d t tb cols vals :
  d !! t = Some tb → writable tb cols vals →
  violates_notnull tb (assign cols vals ∅) = false →
  insert d t cols vals
    = Ok (<[t := with_row tb (next_rowid tb) (assign cols vals ∅) (next_rowid tb)]> d,
          next_rowid tb).
Proof.
  intros Ht Hw Hn. unfold insert. rewrite Ht.
  rewrite decide_True by done. cbv zeta. by rewrite Hn.
Qed.

Lemma insert_rejected d t tb cols vals :
  d !! t = Some tb → writable tb cols vals →
  violates_notnull tb (assign cols vals ∅) = true →
  insert d t cols vals = Throw (Error ("NOT NULL constraint failed: " +:+ t)).
Proof.
  intros Ht Hw Hn. unfold insert. rewrite Ht.
  rewrite decide_True by done. cbv zeta. by rewrite Hn.
Qed.

Lemma intact_with_row schema tb k r' seq :
  intact schema tb → violates_notnull tb r' = false →
  intact schema (with_row tb k r' seq).
Proof.
  intros [Hc Hrows] Hr'. split; [done|].
  unfold with_row. simpl. apply map_Forall_insert_2; [done|].
  intros j row Hj. by apply (Hrows j).
Qed.

(** What [getReminderById] shows after one reminder row has been
    written. *)
Lemma reminder_rewritten k w d r p row' seq :
  isWebFallback w = false → db w = Some d →
  d !! "reminders" = Some r → d !! "profiles" = Some p →
  intact reminders_schema r →
  "name" ∈ column_names p → "photoUri" ∈ column_names p →
  violates_notnull r row' = false →
  same_but "reminders" w
    (set_db (<["reminders" := with_row r k row' seq]> d) w) ∧
  reminders_ready (<["reminders" := with_row r k row' seq]> d) ∧
  (∀ j, j ≠ k →
     (getReminderById j
        (set_db (<["reminders" := with_row r k row' seq]> d) w)).1
       = (getReminderById j w).1) ∧
  (getReminderById k w).1
    = Ok ((λ row, to_json <$> joined_row r p k row) <$> rows r !! k) ∧
  (getReminderById k
     (set_db (<["reminders" := with_row r k row' seq]> d) w)).1
    = Ok (Some (to_json <$> joined_row r p k row')).
Proof.
  intros Hw Hd Hr Hp Hint Hn Hph Hrow'.
  set (r' := with_row r k row' seq).
  set (d' := <["reminders" := r']> d).
  assert (d' !! "reminders" = Some r') as Hr' by apply lookup_insert_eq.
  assert (d' !! "profiles" = Some p) as Hp'
    by (unfold d'; by rewrite lookup_insert_ne).
  assert (intact reminders_schema r') as Hint' by by apply intact_with_row.
  assert (∀ j, getReminderById j (set_db d' w)
               = (Ok ((λ row, to_json <$> joined_row r p j row) <$> rows r' !! j),
                  set_db d' w)) as Hget'.
  { intros j. rewrite (getReminderById_ready j (set_db d' w) d' r' p);
      try done. apply Hint'. }
  assert (∀ j, getReminderById j w
               = (Ok ((λ row, to_json <$> joined_row r p j row) <$> rows r !! j),
                  w)) as Hget.
  { intros j. rewrite (getReminderById_ready j w d r p); try done. apply Hint. }
  split; [by apply same_but_set_db|]. split.
  { unfold reminders_ready. by rewrite Hr', Hp'. }
  split; [|split].
  - intros j Hj. rewrite Hget', Hget. unfold r', with_row. simpl.
    by rewrite lookup_insert_ne.
  - by rewrite Hget.
  - rewrite Hget'. unfold r', with_row. simpl. by rewrite lookup_insert_eq.
Qed.

(** An UPDATE of some columns of the reminder [k], none of them the
    owner, as [getReminderById] shows it. *)
Lemma reminder_columns_updated cols vals k w d :
  isWebFallback w = false → db w = Some d → reminders_ready d →
  NoDup cols → length cols = length vals →
  Forall (λ c, c ∈ ["title"; "description"; "type"; "scheduledFor";
                    "completed"; "completedAt"; "notificationId";
                    "createdAt"]) cols →
  (∀ r, cell r "title" ≠ Null → cell r "scheduledFor" ≠ Null →
        cell (assign cols vals r) "title" ≠ Null ∧
        cell (assign cols vals r) "scheduledFor" ≠ Null) →
  ∃ w', exec (λ d, update d "reminders" cols vals k) w = (Ok tt, w') ∧
    same_but "reminders" w w' ∧
    (∀ d', db w' = Some d' → reminders_ready d') ∧
    (∀ j, j ≠ k → (getReminderById j w').1 = (getReminderById j w).1) ∧
    match (getReminderById k w).1 with
    | Ok (Some before) =>
        ∃ after, (getReminderById k w').1 = Ok (Some after) ∧
          (∀ c v, (c, v) ∈ zip cols vals → after !! c = Some (to_json v)) ∧
          (∀ c, c ∉ cols → after !! c = before !! c)
    | _ => w' = w
    end.
Proof.
  intros Hw Hd (r & p & Hr & Hp & Hint & Hn & Hph)%reminders_ready_inv
    Hnd Hlen Hcols Hkeep.
  assert (writable r cols vals) as Hwr.
  { apply writable_reminders; [apply Hint|done|].
    eapply Forall_impl; [exact Hcols|]. intros c Hc.
    by apply list_elem_of_further. }
  destruct (rows r !! k) as [row|] eqn:Hrow.
  - assert (violates_notnull r (assign cols vals row) = false) as Hok.
    { destruct Hint as [Hc Hrows]. apply reminders_notnull; [done|].
      specialize (Hrows k row Hrow). simpl in Hrows.
      apply (reminders_notnull r row Hc) in Hrows as [? ?]. by apply Hkeep. }
    destruct (reminder_rewritten k w d r p (assign cols vals row) (sequence r))
      as (Hsame & Hready & Hother & Hbefore & Hafter); try done.
    rewrite Hrow in Hbefore. simpl in Hbefore.
    eexists. split.
    { eapply exec_ok; [done|]. cbv beta. by apply (update_row _ _ r). }
    split; [done|]. split; [by intros d' [= <-]|]. split; [done|].
    rewrite Hbefore. eexists. split; [exact Hafter|].
    destruct Hint as [Hc _]. split.
    + intros c v Hcv.
      assert (c ∈ cols) as Hin.
      { apply (list_elem_of_fmap_2 fst) in Hcv. simpl in Hcv.
        by rewrite fst_zip in Hcv by lia. }
      rewrite Forall_forall in Hcols. specialize (Hcols c Hin).
      rewrite joined_row_reminder; [|done|].
      2:{ unfold reminder_columns. apply list_elem_of_further.
          apply list_elem_of_further.
          revert Hcols. rewrite !elem_of_cons. tauto. }
      rewrite decide_False.
      2:{ intros ->. revert Hcols. apply (bool_decide_unpack _).
          vm_compute. reflexivity. }
      unfold cell. by rewrite (assign_lookup_in cols vals row c v).
    + intros c Hc'. apply (joined_row_agree r r p k row _ cols); try done.
      * intros c0 Hc0. by apply assign_lookup_notin.
      * intros Hin. rewrite Forall_forall in Hcols. specialize (Hcols _ Hin).
        revert Hcols. decide_closed.
  - exists w. split.
    { erewrite exec_ok; [|done|by apply (update_no_row _ _ r)].
      by rewrite set_db_same. }
    split; [by apply (same_but_refl _ w d)|].
    split.
    { intros d' Hd'. rewrite Hd in Hd'. injection Hd' as <-.
      unfold reminders_ready. by rewrite Hr, Hp. }
    split; [done|].
    rewrite (getReminderById_ready k w d r p); try done; [|apply Hint].
    by rewrite Hrow.
Qed.

(** *** Completing, snoozing, and the notification of a reminder *)

(** Outside web-fallback mode [completeReminder k] marks the reminder [k]
    as completed, at the current time; [getReminderById k] shows the
    other columns as they were, the other reminders and all other tables
    are unchanged, and for an identifier that is not in use nothing
    changes. *)
Theorem completeReminder_marks_completed k w d :
  isWebFallback w = false → db w = Some d → reminders_ready d →
  ∃ w', completeReminder k w = (Ok tt, w') ∧
    same_but "reminders" w w' ∧
    (∀ d', db w' = Some d' → reminders_ready d') ∧
    (∀ j, j ≠ k → (getReminderById j w').1 = (getReminderById j w).1) ∧
    match (getReminderById k w).1 with
    | Ok (Some before) =>
        ∃ after, (getReminderById k w').1 = Ok (Some after) ∧
          after !! "completed" = Some (JNumber 1) ∧
          after !! "completedAt" = Some (JString (toISOString w (now w))) ∧
          (∀ c, c ≠ "completed" → c ≠ "completedAt" →
                after !! c = before !! c)
    | _ => w' = w
    end.
Proof.
  intros Hw Hd Hready.
  destruct (reminder_columns_updated ["completed"; "completedAt"]
              [Integer 1; Text (toISOString w (now w))] k w d)
    as (w' & Hrun & Hsame & Hready' & Hother & Hk); try done.
  { decide_closed. }
  { decide_closed. }
  { intros r ? ?. by rewrite !assign_lookup_notin' by decide_closed. }
  exists w'. split.
  { unfold completeReminder.
    unfold mbind at 1, async_mbind at 1, async_bind at 1, gets at 1.
    rewrite Hw.
    unfold mbind at 1, async_mbind at 1, async_bind at 1, Date_now_ISO at 1.
    exact Hrun. }
  split; [done|]. split; [done|]. split; [done|].
  destruct (getReminderById k w).1 as [[before|]|e]; try done.
  destruct Hk as (after & Hafter & Hset & Hkeep).
  exists after. split; [done|].
  split; [apply (Hset "completed" (Integer 1)); apply list_elem_of_here|].
  split.
  { apply (Hset "completedAt" (Text (toISOString w (now w)))).
    apply list_elem_of_further, list_elem_of_here. }
  intros c H1 H2. apply Hkeep.
  rewrite !not_elem_of_cons. repeat split; try done. apply not_elem_of_nil.
Qed.

Lemma completeReminder_marks_completed_witness :
  ∃ w', completeReminder 1 in_use = (Ok tt, w') ∧
    same_but "reminders" in_use w' ∧
    (∀ d', db w' = Some d' → reminders_ready d') ∧
    (∀ j, j ≠ 1 → (getReminderById j w').1 = (getReminderById j in_use).1) ∧
    match (getReminderById 1 in_use).1 with
    | Ok (Some before) =>
        ∃ after, (getReminderById 1 w').1 = Ok (Some after) ∧
          after !! "completed" = Some (JNumber 1) ∧
          after !! "completedAt"
            = Some (JString (toISOString in_use (now in_use))) ∧
          (∀ c, c ≠ "completed" → c ≠ "completedAt" →
                after !! c = before !! c)
    | _ => w' = in_use
    end.
Proof.
  apply (completeReminder_marks_completed 1 in_use in_use_db).
  - reflexivity.
  - reflexivity.
  - decide_closed.
Defined.

(** Outside web-fallback mode [snoozeReminder k newDate] moves the
    reminder [k] to the new date and changes nothing else: the other
    columns of the reminder, the other reminders and the other tables are
    as before, and for an identifier that is not in use nothing
    changes. *)
Theorem snoozeReminder_reschedules k newDate w d :
  isWebFallback w = false → db w = Some d → reminders_ready d →
  ∃ w', snoozeReminder k newDate w = (Ok tt, w') ∧
    same_but "reminders" w w' ∧
    (∀ d', db w' = Some d' → reminders_ready d') ∧
    (∀ j, j ≠ k → (getReminderById j w').1 = (getReminderById j w).1) ∧
    match (getReminderById k w).1 with
    | Ok (Some before) =>
        ∃ after, (getReminderById k w').1 = Ok (Some after) ∧
          after !! "scheduledFor" = Some (JString newDate) ∧
          (∀ c, c ≠ "scheduledFor" → after !! c = before !! c)
    | _ => w' = w
    end.
Proof.
  intros Hw Hd Hready.
  destruct (reminder_columns_updated ["scheduledFor"] [Text newDate] k w d)
    as (w' & Hrun & Hsame & Hready' & Hother & Hk); try done.
  { decide_closed. }
  { decide_closed. }
  { intros r ? ?. rewrite assign_lookup_notin' by decide_closed.
    split; [done|]. unfold cell.
    by rewrite (assign_lookup_in _ _ _ "scheduledFor" (Text newDate))
      by (decide_closed || apply list_elem_of_here). }
  exists w'. split.
  { unfold snoozeReminder.
    unfold mbind at 1, async_mbind at 1, async_bind at 1, gets at 1.
    by rewrite Hw. }
  split; [done|]. split; [done|]. split; [done|].
  destruct (getReminderById k w).1 as [[before|]|e]; try done.
  destruct Hk as (after & Hafter & Hset & Hkeep).
  exists after. split; [done|].
  split; [apply (Hset "scheduledFor" (Text newDate)); apply list_elem_of_here|].
  intros c H1. apply Hkeep.
  rewrite !not_elem_of_cons. repeat split; try done. apply not_elem_of_nil.
Qed.

Lemma snoozeReminder_reschedules_witness :
  ∃ w', snoozeReminder 1 "2024-06-10T09:00:00.000Z" in_use = (Ok tt, w') ∧
    same_but "reminders" in_use w' ∧
    (∀ d', db w' = Some d' → reminders_ready d') ∧
    (∀ j, j ≠ 1 → (getReminderById j w').1 = (getReminderById j in_use).1) ∧
    match (getReminderById 1 in_use).1 with
    | Ok (Some before) =>
        ∃ after, (getReminderById 1 w').1 = Ok (Some after) ∧
          after !! "scheduledFor" = Some (JString "2024-06-10T09:00:00.000Z") ∧
          (∀ c, c ≠ "scheduledFor" → after !! c = before !! c)
    | _ => w' = in_use
    end.
Proof.
  apply (snoozeReminder_reschedules 1 "2024-06-10T09:00:00.000Z" in_use in_use_db).
  - reflexivity.
  - reflexivity.
  - decide_closed.
Defined.

(** After a snooze the reminders come in the new order. *)
Example snooze_reorders :
  match (getAllReminders
           (snoozeReminder 2 "2024-06-10T09:00:00.000Z" in_use).2).1 with
  | Ok l => (λ o : gmap string json, (o !! "id", o !! "scheduledFor")) <$> l
  | Throw _ => []
  end
  = [ (Some (JNumber 1), Some (JString "2024-06-03T09:00:00.000Z"));
      (Some (JNumber 2), Some (JString "2024-06-10T09:00:00.000Z")) ].
Proof. vm_refl. Qed.

(** Outside web-fallback mode [updateReminderNotificationId k n] records
    the notification identifier [n] with the reminder [k], or clears it
    when [n] is [null], and changes nothing else. *)
Theorem updateReminderNotificationId_records k n w d :
  isWebFallback w = false → db w = Some d → reminders_ready d →
  ∃ w', updateReminderNotificationId k n w = (Ok tt, w') ∧
    same_but "reminders" w w' ∧
    (∀ d', db w' = Some d' → reminders_ready d') ∧
    (∀ j, j ≠ k → (getReminderById j w').1 = (getReminderById j w).1) ∧
    match (getReminderById k w).1 with
    | Ok (Some before) =>
        ∃ after, (getReminderById k w').1 = Ok (Some after) ∧
          after !! "notificationId"
            = Some (match n with Some s => JString s | None => JNull end) ∧
          (∀ c, c ≠ "notificationId" → after !! c = before !! c)
    | _ => w' = w
    end.
Proof.
  intros Hw Hd Hready.
  destruct (reminder_columns_updated ["notificationId"] [text n] k w d)
    as (w' & Hrun & Hsame & Hready' & Hother & Hk); try done.
  { decide_closed. }
  { decide_closed. }
  { intros r ? ?. by rewrite !assign_lookup_notin' by decide_closed. }
  exists w'. split.
  { unfold updateReminderNotificationId.
    unfold mbind at 1, async_mbind at 1, async_bind at 1, gets at 1.
    by rewrite Hw. }
  split; [done|]. split; [done|]. split; [done|].
  destruct (getReminderById k w).1 as [[before|]|e]; try done.
  destruct Hk as (after & Hafter & Hset & Hkeep).
  exists after. split; [done|]. split.
  { rewrite (Hset "notificationId" (text n)); [|apply list_elem_of_here].
    by destruct n. }
  intros c H1. apply Hkeep.
  rewrite !not_elem_of_cons. repeat split; try done. apply not_elem_of_nil.
Qed.

Lemma updateReminderNotificationId_records_witness :
  ∃ w', updateReminderNotificationId 2 (Some "n-17") in_use = (Ok tt, w') ∧
    same_but "reminders" in_use w' ∧
    (∀ d', db w' = Some d' → reminders_ready d') ∧
    (∀ j, j ≠ 2 → (getReminderById j w').1 = (getReminderById j in_use).1) ∧
    match (getReminderById 2 in_use).1 with
    | Ok (Some before) =>
        ∃ after, (getReminderById 2 w').1 = Ok (Some after) ∧
          after !! "notificationId"
            = Some (match Some "n-17" with
                    | Some s => JString s
                    | None => JNull
                    end) ∧
          (∀ c, c ≠ "notificationId" → after !! c = before !! c)
    | _ => w' = in_use
    end.
Proof.
  apply (updateReminderNotificationId_records 2 (Some "n-17") in_use in_use_db).
  - reflexivity.
  - reflexivity.
  - decide_closed.
Defined.

(** *** Editing a reminder *)

Definition edit_columns : list string :=
  ["title"; "description"; "type"; "profileId"; "scheduledFor"].

Definition edit_values (u : reminderUpdate.t) : list value :=
  [ text (reminderUpdate.title u); text (reminderUpdate.description u);
    text (reminderUpdate.type u); integer (reminderUpdate.profileId u);
    text (reminderUpdate.scheduledFor u) ].

Lemma updateReminder_unfold u w :
  isWebFallback w = false →
  updateReminder u w
    = exec (λ d, update_where_id d "reminders" edit_columns (edit_values u)
                   (reminderUpdate.id u)) w.
Proof.
  intros Hw. unfold updateReminder.
  unfold mbind at 1, async_mbind at 1, async_bind at 1, gets at 1.
  by rewrite Hw.
Qed.

Lemma edit_writable tb u :
  columns tb = reminders_schema → writable tb edit_columns (edit_values u).
Proof. intros Hc. apply writable_reminders; [done..|decide_closed]. Qed.

Lemma edit_cells u (row : gmap string value) c v :
  (c, v) ∈ zip edit_columns (edit_values u) →
  cell (assign edit_columns (edit_values u) row) c = v.
Proof.
  intros Hin. unfold cell. rewrite (assign_lookup_in _ _ _ c v); [done| |done].
  decide_closed.
Qed.

(** Outside web-fallback mode [updateReminder] overwrites the title, the
    description, the type, the owner and the date of the reminder with
    the given [id] (an absent description, type or owner becomes NULL)
    and leaves its other columns, the other reminders and the other
    tables alone; the name and the photo shown with the reminder are
    those of the new owner.  Without a title or without a date the
    reminder is not changed and the error of the database is thrown.  For
    an [id] that is absent or not in use nothing changes. *)
Theorem updateReminder_overwrites u w d p :
  isWebFallback w = false → db w = Some d → reminders_ready d →
  d !! "profiles" = Some p →
  match reminderUpdate.id u with
  | None => updateReminder u w = (Ok tt, w)
  | Some k =>
      match (getReminderById k w).1 with
      | Ok (Some before) =>
          match reminderUpdate.title u, reminderUpdate.scheduledFor u with
          | Some t, Some s =>
              ∃ w' after,
                updateReminder u w = (Ok tt, w') ∧
                same_but "reminders" w w' ∧
                (∀ d', db w' = Some d' → reminders_ready d') ∧
                (∀ j, j ≠ k →
                   (getReminderById j w').1 = (getReminderById j w).1) ∧
                (getReminderById k w').1 = Ok (Some after) ∧
                after !! "title" = Some (JString t) ∧
                after !! "description"
                  = Some (to_json (text (reminderUpdate.description u))) ∧
                after !! "type"
                  = Some (to_json (text (reminderUpdate.type u))) ∧
                after !! "profileId"
                  = Some (to_json (integer (reminderUpdate.profileId u))) ∧
                after !! "scheduledFor" = Some (JString s) ∧
                after !! "profileName"
                  = Some (to_json
                            (from_option (λ o, cell o "name") Null
                               (reminderUpdate.profileId u ≫= λ i, rows p !! i))) ∧
                after !! "profilePhoto"
                  = Some (to_json
                            (from_option (λ o, cell o "photoUri") Null
                               (reminderUpdate.profileId u ≫= λ i, rows p !! i))) ∧
                (∀ c, c ∈ ["id"; "completed"; "completedAt"; "notificationId";
                           "createdAt"] →
                      after !! c = before !! c)
          | _, _ => ∃ e, updateReminder u w = (Throw e, w)
          end
      | _ => updateReminder u w = (Ok tt, w)
      end
  end.
Proof.
  intros Hw Hd (r & p' & Hr & Hp & Hint & Hn & Hph)%reminders_ready_inv Hp'.
  rewrite Hp in Hp'. injection Hp' as ->.
  rewrite updateReminder_unfold by done.
  pose proof (edit_writable r u (proj1 Hint)) as Hwr.
  destruct (reminderUpdate.id u) as [k|] eqn:Hid.
  2:{ erewrite exec_ok; [|done|].
      - by rewrite set_db_same.
      - unfold update_where_id. rewrite Hr. by rewrite decide_True. }
  cbn [update_where_id].
  rewrite (getReminderById_ready k w d r p) by (done || apply Hint).
  destruct (rows r !! k) as [row|] eqn:Hrow; simpl.
  2:{ erewrite exec_ok; [|done|by apply (update_no_row _ _ r)].
      by rewrite set_db_same. }
  set (row' := assign edit_columns (edit_values u) row).
  assert (cell row' "title" = text (reminderUpdate.title u)) as Htitle
    by (apply edit_cells; unfold edit_columns, edit_values; cbn; in_literal).
  assert (cell row' "scheduledFor" = text (reminderUpdate.scheduledFor u))
    as Hdate
    by (apply edit_cells; unfold edit_columns, edit_values; cbn; in_literal).
  destruct (reminderUpdate.title u) as [t|] eqn:Ht.
  2:{ eexists. eapply exec_throw; [done|]. cbv beta.
      apply (update_rejected _ _ r _ _ _ row); try done.
      apply not_false_iff_true. intros Hok.
      apply (reminders_notnull r _ (proj1 Hint)) in Hok as [Hok _].
      by apply Hok. }
  destruct (reminderUpdate.scheduledFor u) as [s0|] eqn:Hs.
  2:{ eexists. eapply exec_throw; [done|]. cbv beta.
      apply (update_rejected _ _ r _ _ _ row); try done.
      apply not_false_iff_true. intros Hok.
      apply (reminders_notnull r _ (proj1 Hint)) in Hok as [_ Hok].
      by apply Hok. }
  assert (violates_notnull r row' = false) as Hok.
  { apply reminders_notnull; [apply Hint|]. by rewrite Htitle, Hdate. }
  destruct (reminder_rewritten k w d r p row' (sequence r))
    as (Hsame & Hready & Hother & _ & Hafter); try done.
  eexists _, _. split.
  { eapply exec_ok; [done|]. cbv beta. by apply (update_row _ _ r). }
  split; [done|]. split; [by intros d' [= <-]|]. split; [done|].
  split; [exact Hafter|].
  assert (∀ c v, (c, v) ∈ zip edit_columns (edit_values u) →
            (to_json <$> joined_row r p k row') !! c = Some (to_json v))
    as Hset.
  { intros c v Hcv.
    assert (c ∈ edit_columns) as Hin.
    { apply (list_elem_of_fmap_2 fst) in Hcv.
      by rewrite fst_zip in Hcv by (cbn; lia). }
    rewrite joined_row_reminder; [|apply Hint|].
    2:{ revert Hin. unfold edit_columns, reminder_columns.
        rewrite !elem_of_cons. tauto. }
    rewrite decide_False by (intros ->; revert Hin; decide_closed).
    unfold row'. by rewrite (edit_cells u row c v). }
  assert (cell row' "profileId" = integer (reminderUpdate.profileId u)) as Howner
    by (apply edit_cells; unfold edit_columns, edit_values; cbn; in_literal).
  destruct (joined_row_owner r p k row') as [Hname Hphoto].
  unfold owner_cell in Hname, Hphoto. rewrite Howner in Hname, Hphoto.
  rewrite (Hset "title" (Text t))
    by (unfold edit_columns, edit_values; rewrite Ht; cbn; in_literal).
  rewrite (Hset "description" (text (reminderUpdate.description u)))
    by (unfold edit_columns, edit_values; cbn; in_literal).
  rewrite (Hset "type" (text (reminderUpdate.type u)))
    by (unfold edit_columns, edit_values; cbn; in_literal).
  rewrite (Hset "profileId" (integer (reminderUpdate.profileId u)))
    by (unfold edit_columns, edit_values; cbn; in_literal).
  rewrite (Hset "scheduledFor" (Text s0))
    by (unfold edit_columns, edit_values; rewrite Hs; cbn; in_literal).
  rewrite Hname, Hphoto.
  repeat (split; [done|]).
  split; [by destruct (reminderUpdate.profileId u)|].
  split; [by destruct (reminderUpdate.profileId u)|].
  intros c Hc.
  rewrite !joined_row_reminder;
    [|apply Hint|revert Hc; unfold reminder_columns; rewrite !elem_of_cons; tauto
     |apply Hint|revert Hc; unfold reminder_columns; rewrite !elem_of_cons; tauto].
  destruct (decide (c = "id")); [done|].
  unfold row'. rewrite assign_lookup_notin'; [done|].
  revert Hc. unfold edit_columns. rewrite !elem_of_cons, !elem_of_nil.
  intros [->|[->|[->|[->|[->|[]]]]]]; decide_closed.
Qed.

Definition water_ferns : reminderUpdate.t :=
  {| reminderUpdate.id := Some 2;
     reminderUpdate.title := Some "Water the ferns";
     reminderUpdate.description := Some "twice";
     reminderUpdate.type := None;
     reminderUpdate.profileId := Some 1;
     reminderUpdate.scheduledFor := Some "2024-06-05T07:30:00.000Z" |}.

Lemma updateReminder_overwrites_witness :
  match reminderUpdate.id water_ferns with
  | None => updateReminder water_ferns in_use = (Ok tt, in_use)
  | Some k =>
      match (getReminderById k in_use).1 with
      | Ok (Some before) =>
          match reminderUpdate.title water_ferns,
                reminderUpdate.scheduledFor water_ferns with
          | Some t, Some s =>
              ∃ w' after,
                updateReminder water_ferns in_use = (Ok tt, w') ∧
                same_but "reminders" in_use w' ∧
                (∀ d', db w' = Some d' → reminders_ready d') ∧
                (∀ j, j ≠ k →
                   (getReminderById j w').1 = (getReminderById j in_use).1) ∧
                (getReminderById k w').1 = Ok (Some after) ∧
                after !! "title" = Some (JString t) ∧
                after !! "description"
                  = Some (to_json (text (reminderUpdate.description water_ferns))) ∧
                after !! "type"
                  = Some (to_json (text (reminderUpdate.type water_ferns))) ∧
                after !! "profileId"
                  = Some (to_json (integer (reminderUpdate.profileId water_ferns))) ∧
                after !! "scheduledFor" = Some (JString s) ∧
                after !! "profileName"
                  = Some (to_json
                            (from_option (λ o, cell o "name") Null
                               (reminderUpdate.profileId water_ferns ≫=
                                  λ i, rows (table_of in_use_db "profiles") !! i))) ∧
                after !! "profilePhoto"
                  = Some (to_json
                            (from_option (λ o, cell o "photoUri") Null
                               (reminderUpdate.profileId water_ferns ≫=
                                  λ i, rows (table_of in_use_db "profiles") !! i))) ∧
                (∀ c, c ∈ ["id"; "completed"; "completedAt"; "notificationId";
                           "createdAt"] →
                      after !! c = before !! c)
          | _, _ => ∃ e, updateReminder water_ferns in_use = (Throw e, in_use)
          end
      | _ => updateReminder water_ferns in_use = (Ok tt, in_use)
      end
  end.
Proof.
  apply (updateReminder_overwrites water_ferns in_use in_use_db
           (table_of in_use_db "profiles")).
  - reflexivity.
  - reflexivity.
  - decide_closed.
  - vm_refl.
Defined.

(** The second reminder of the example, edited: it now belongs to Ana. *)
Example updateReminder_in_use :
  match (getReminderById 2 (updateReminder water_ferns in_use).2).1 with
  | Ok (Some o) =>
      (o !! "title", o !! "type", o !! "profileName", o !! "createdAt")
  | _ => (None, None, None, None)
  end
  = (Some (JString "Water the ferns"), Some JNull, Some (JString "Ana"),
     Some (JString "2024-06-01T10:00:00.000Z")).
Proof. vm_refl. Qed.

(** *** Deleting a reminder *)

(** Outside web-fallback mode [deleteReminder k] removes the reminder
    [k] and nothing else: [getReminderById k] then returns [null], the
    other reminders and the other tables are unchanged, and deleting
    again changes nothing more. *)
Theorem deleteReminder_removes k w d :
  isWebFallback w = false → db w = Some d → reminders_ready d →
  ∃ w', deleteReminder k w = (Ok tt, w') ∧
    same_but "reminders" w w' ∧
    (∀ d', db w' = Some d' → reminders_ready d') ∧
    (getReminderById k w').1 = Ok None ∧
    (∀ j, j ≠ k → (getReminderById j w').1 = (getReminderById j w).1) ∧
    deleteReminder k w' = (Ok tt, w').
Proof.
  intros Hw Hd (r & p & Hr & Hp & Hint & Hn & Hph)%reminders_ready_inv.
  set (r' := without k r). set (d' := <["reminders" := r']> d).
  assert (∀ w0 d0 r0, isWebFallback w0 = false → db w0 = Some d0 →
            d0 !! "reminders" = Some r0 →
            deleteReminder k w0
              = (Ok tt, set_db (<["reminders" := without k r0]> d0) w0))
    as Hrun.
  { intros w0 d0 r0 Hw0 Hd0 Hr0. unfold deleteReminder.
    unfold mbind at 1, async_mbind at 1, async_bind at 1, gets at 1.
    rewrite Hw0. eapply exec_ok; [done|]. cbv beta.
    unfold delete_by_id. by rewrite Hr0. }
  assert (d' !! "reminders" = Some r') as Hr' by apply lookup_insert_eq.
  assert (d' !! "profiles" = Some p) as Hp'
    by (unfold d'; by rewrite lookup_insert_ne).
  assert (intact reminders_schema r') as Hint'.
  { destruct Hint as [Hc Hrows]. split; [done|].
    unfold r', without. simpl. by apply map_Forall_delete. }
  exists (set_db d' w). split; [by apply Hrun|].
  split; [by apply same_but_set_db|].
  split.
  { intros d0 [= <-]. unfold reminders_ready. by rewrite Hr', Hp'. }
  split; [|split].
  - rewrite (getReminderById_ready k (set_db d' w) d' r' p);
      try done; [|apply Hint'].
    unfold r', without. simpl. by rewrite lookup_delete_eq.
  - intros j Hj.
    rewrite (getReminderById_ready j (set_db d' w) d' r' p);
      try done; [|apply Hint'].
    rewrite (getReminderById_ready j w d r p); try done; [|apply Hint].
    unfold r', without. simpl. by rewrite lookup_delete_ne.
  - rewrite (Hrun (set_db d' w) d' r'); try done.
    rewrite set_db_set_db. do 2 f_equal. unfold d'.
    rewrite insert_insert_eq. f_equal. unfold r', without. simpl.
    f_equal. apply delete_delete_eq.
Qed.

Lemma deleteReminder_removes_witness :
  ∃ w', deleteReminder 1 in_use = (Ok tt, w') ∧
    same_but "reminders" in_use w' ∧
    (∀ d', db w' = Some d' → reminders_ready d') ∧
    (getReminderById 1 w').1 = Ok None ∧
    (∀ j, j ≠ 1 → (getReminderById j w').1 = (getReminderById j in_use).1) ∧
    deleteReminder 1 w' = (Ok tt, w').
Proof.
  apply (deleteReminder_removes 1 in_use in_use_db).
  - reflexivity.
  - reflexivity.
  - decide_closed.
Defined.

(** *** Creating a reminder *)




Lemma run_ok {A} (stmt : gmap string table → outcome (gmap string table * A))
    w d d' a :
  db w = Some d → stmt d = Ok (d', a) → run stmt w = (Ok a, set_db d' w).
Proof. intros Hd Hs. exec_all. by rewrite Hd, Hs. Qed.

Lemma run_throw {A} (stmt : gmap string table → outcome (gmap string table * A))
    w d e :
  db w = Some d → stmt d = Throw e → run stmt w = (Throw e, w).
Proof. intros Hd Hs. exec_all. by rewrite Hd, Hs. Qed.




(** A reminder without a date is refused. *)
Example createReminder_without_date :
  (createReminder
     {| profileId := Some 1; title := Some "Call Ana"; description := None;
        type := None; scheduledFor := None |} one_profile).1
  = Throw (Error "NOT NULL constraint failed: reminders").
Proof. vm_refl. Qed.

(** *** One reminder and all reminders *)

Lemma strict_equal_number_spec (x : option json) k :
  strict_equal_number x k = true ↔ x = Some (JNumber k).
Proof.
  unfold strict_equal_number. destruct x as [[]|]; try (split; done).
  rewrite bool_decide_eq_true. split; [by intros ->|by intros [= ->]].
Qed.

Lemma getReminderById_fallback k w :
  isWebFallback w = true →
  getReminderById k w
    = (Ok (List.find (λ reminder, strict_equal_number (reminder !! "id") k)
             (mockReminders w)), w).
Proof.
  intros Hw. unfold getReminderById, getAllReminders.
  unfold mbind, async_mbind, async_bind, gets, mret, async_mret, async_ret.
  rewrite Hw. cbv beta. by rewrite Hw.
Qed.

(** In both modes [getReminderById k] returns the reminder of
    [getAllReminders] whose [id] is [k], and [null] exactly when there is
    none; neither method fails or changes anything. *)
Theorem getReminderById_agrees_with_getAllReminders k w :
  isWebFallback w = true ∨ (∃ d, db w = Some d ∧ reminders_ready d) →
  ∃ all,
    getAllReminders w = (Ok all, w) ∧
    match getReminderById k w with
    | (Ok (Some row), w') =>
        w' = w ∧ row ∈ all ∧ row !! "id" = Some (JNumber k)
    | (Ok None, w') =>
        w' = w ∧ ∀ row, row ∈ all → row !! "id" ≠ Some (JNumber k)
    | (Throw _, _) => False
    end.
Proof.
  destruct (isWebFallback w) eqn:Hw.
  - intros _. exists (mockReminders w). split.
    { unfold getAllReminders, mbind, async_mbind, async_bind, gets.
      by rewrite Hw. }
    rewrite getReminderById_fallback by done.
    generalize (mockReminders w). intros l.
    destruct (find _ l) as [row|] eqn:Hfind.
    + apply find_some in Hfind as [Hin Hid]. split; [done|].
      split; [by apply list_elem_of_In|]. by apply strict_equal_number_spec.
    + split; [done|]. intros row Hin%list_elem_of_In Hid.
      apply (find_none _ _ Hfind) in Hin.
      apply strict_equal_number_spec in Hid. congruence.
  - intros [?|(d & Hd & (r & p & Hr & Hp & Hint & Hn & Hph)%reminders_ready_inv)];
      [done|].
    assert (∀ c, c ∈ reminder_columns → c ∈ column_names r) as Hcols.
    { intros c Hc. unfold column_names.
      by rewrite (proj1 Hint), reminders_schema_names. }
    eexists. split.
    { apply (getAllReminders_embedded w d r p); try done;
        apply Hcols; decide_closed. }
    rewrite (getReminderById_ready k w d r p); try done; [|apply Hint].
    destruct (rows r !! k) as [row|] eqn:Hrow; simpl.
    + split; [done|]. split.
      * apply (list_elem_of_fmap_2 (λ row : gmap string value, to_json <$> row)).
        rewrite order_by_permutation.
        apply (list_elem_of_fmap_2 (λ kr, joined_row r p kr.1 kr.2) _ (k, row)).
        by apply elem_of_map_to_list.
      * rewrite joined_row_reminder; [done|apply Hint|apply list_elem_of_here].
    + split; [done|]. intros row Hin.
      apply list_elem_of_fmap in Hin as (jr & -> & Hin).
      rewrite order_by_permutation in Hin.
      apply list_elem_of_fmap in Hin as ([j rowj] & -> & Hin).
      apply elem_of_map_to_list in Hin. simpl.
      rewrite joined_row_reminder; [|apply Hint|apply list_elem_of_here].
      rewrite decide_True by done. intros [= ->]. congruence.
Qed.

Lemma getReminderById_agrees_with_getAllReminders_witness :
  ∃ all,
    getAllReminders in_use = (Ok all, in_use) ∧
    match getReminderById 2 in_use with
    | (Ok (Some row), w') =>
        w' = in_use ∧ row ∈ all ∧ row !! "id" = Some (JNumber 2)
    | (Ok None, w') =>
        w' = in_use ∧ ∀ row, row ∈ all → row !! "id" ≠ Some (JNumber 2)
    | (Throw _, _) => False
    end.
Proof.
  apply (getReminderById_agrees_with_getAllReminders 2 in_use).
  right. exists in_use_db. split; [reflexivity|decide_closed].
Defined.

(** In web-fallback mode the reminders are the two mock ones. *)
Example getReminderById_mock :
  match (getReminderById 2 (device true None)).1 with
  | Ok (Some o) => o !! "title"
  | _ => None
  end = Some (JString "Birthday reminder") ∧
  (getReminderById 3 (device true None)).1 = Ok None.
Proof. split; vm_refl. Qed.

(** *** Web-fallback mode *)

Lemma simulated_id_range r :
  unit_interval r → 1 ≤ simulated_id r ≤ 1000.
Proof.
  intros Hr. pose proof (mock_id_range r Hr) as H.
  unfold mock_id in H. unfold simulated_id. lia.
Qed.

(** In web-fallback mode no method writes: completing, snoozing, editing
    and deleting a reminder, recording a notification identifier and
    clearing the data return without touching anything, database or not;
    creating a reminder, an interaction or a life event returns an
    identifier between 1 and 1000 and stores nothing. *)
Theorem web_fallback_never_writes w :
  isWebFallback w = true →
  (∀ k, completeReminder k w = (Ok tt, w)) ∧
  (∀ k newDate, snoozeReminder k newDate w = (Ok tt, w)) ∧
  (∀ k n, updateReminderNotificationId k n w = (Ok tt, w)) ∧
  (∀ u, updateReminder u w = (Ok tt, w)) ∧
  (∀ k, deleteReminder k w = (Ok tt, w)) ∧
  clearAllData w = (Ok tt, w) ∧
  (∀ rd, createReminder rd w = (Ok (simulated_id (random w)), w)) ∧
  (∀ i, addInteraction i w = (Ok (simulated_id (random w)), w)) ∧
  (∀ e, addLifeEvent e w = (Ok (simulated_id (random w)), w)) ∧
  (unit_interval (random w) → 1 ≤ simulated_id (random w) ≤ 1000).
Proof.
  intros Hw.
  unfold completeReminder, snoozeReminder, updateReminderNotificationId,
    updateReminder, deleteReminder, clearAllData, createReminder,
    addInteraction, addLifeEvent,
    mbind, async_mbind, async_bind, gets, mret, async_mret, async_ret.
  rewrite Hw. repeat (split; [done|]). apply simulated_id_range.
Qed.

Lemma web_fallback_never_writes_witness :
  (∀ k, completeReminder k (device true None) = (Ok tt, device true None)) ∧
  (∀ k newDate,
     snoozeReminder k newDate (device true None) = (Ok tt, device true None)) ∧
  (∀ k n, updateReminderNotificationId k n (device true None)
          = (Ok tt, device true None)) ∧
  (∀ u, updateReminder u (device true None) = (Ok tt, device true None)) ∧
  (∀ k, deleteReminder k (device true None) = (Ok tt, device true None)) ∧
  clearAllData (device true None) = (Ok tt, device true None) ∧
  (∀ rd, createReminder rd (device true None)
         = (Ok (simulated_id (random (device true None))), device true None)) ∧
  (∀ i, addInteraction i (device true None)
        = (Ok (simulated_id (random (device true None))), device true None)) ∧
  (∀ e, addLifeEvent e (device true None)
        = (Ok (simulated_id (random (device true None))), device true None)) ∧
  (unit_interval (random (device true None)) →
   1 ≤ simulated_id (random (device true None)) ≤ 1000).
Proof.
  apply (web_fallback_never_writes (device true None)). reflexivity.
Defined.

End ReminderFacts.

(** ** Interactions and life events *)

Module InteractionFacts.
Import Json Sql DatabaseService SqlFacts DatabaseFacts ReminderFacts.

Lemma interactions_notnull tb r :
  columns tb = interactions_schema →
  violates_notnull tb r = false ↔ cell r "description" ≠ Null.
Proof.
  intros Hc. unfold violates_notnull. rewrite Hc.
  cbn [interactions_schema existsb col col_required col_notnull col_name andb orb].
  by rewrite orb_false_r, bool_decide_eq_false.
Qed.

Lemma life_events_notnull tb r :
  columns tb = life_events_schema →
  violates_notnull tb r = false ↔ cell r "eventType" ≠ Null.
Proof.
  intros Hc. unfold violates_notnull. rewrite Hc.
  cbn [life_events_schema existsb col col_required col_notnull col_name andb orb].
  by rewrite orb_false_r, bool_decide_eq_false.
Qed.

(** What an INSERT that succeeds does to its table: one new row under a
    rowid that is larger than every rowid in use, the other rows as they
    were. *)
Definition inserted (t : string) (k : Z) (row : gmap string value)
    (d d' : gmap string table) : Prop :=
  (∀ t', t' ≠ t → d' !! t' = d !! t') ∧
  ∃ tb tb', d !! t = Some tb ∧ d' !! t = Some tb' ∧
    columns tb' = columns tb ∧
    rows tb !! k = None ∧ (∀ j, is_Some (rows tb !! j) → j < k) ∧
    rows tb' !! k = Some row ∧
    (∀ j, j ≠ k → rows tb' !! j = rows tb !! j).

Lemma insert_inserted d t tb cols vals :
  d !! t = Some tb → writable tb cols vals →
  violates_notnull tb (assign cols vals ∅) = false →
  ∃ d', insert d t cols vals = Ok (d', next_rowid tb) ∧
        inserted t (next_rowid tb) (assign cols vals ∅) d d'.
Proof.
  intros Ht Hw Hn. eexists. split; [by apply insert_row|].
  split; [by intros t' Hne; apply lookup_insert_ne|].
  eexists tb, _. split; [done|]. split; [apply lookup_insert_eq|].
  split; [done|]. split; [apply next_rowid_fresh|]. split.
  - intros j Hj. destruct (largest_rowid_bound tb) as [_ Hb].
    specialize (Hb j Hj). unfold next_rowid. lia.
  - simpl. split; [apply lookup_insert_eq|].
    intros j Hj. by apply lookup_insert_ne.
Qed.

Definition interaction_columns : list string :=
  ["profileId"; "description"; "extractedData"; "type"; "location"; "createdAt"].

Definition interaction_values (i : interactionData.t) (now : string) : list value :=
  [ integer (interactionData.profileId i); text (interactionData.description i);
    text (interactionData.extractedData i);
    Text (default "conversation" (interactionData.type i));
    text (interactionData.location i); Text now ].

Lemma addInteraction_unfold i w :
  isWebFallback w = false →
  addInteraction i w
    = run (λ d, insert d "interactions" interaction_columns
                  (interaction_values i (toISOString w (now w)))) w.
Proof.
  intros Hw. unfold addInteraction.
  unfold mbind at 1, async_mbind at 1, async_bind at 1, gets at 1.
  by rewrite Hw.
Qed.

Lemma interaction_writable tb i now :
  columns tb = interactions_schema →
  writable tb interaction_columns (interaction_values i now).
Proof.
  intros Hc. split; [done|]. unfold column_names. rewrite Hc. decide_closed.
Qed.

Lemma interaction_cells i now c v :
  (c, v) ∈ zip interaction_columns (interaction_values i now) →
  assign interaction_columns (interaction_values i now) ∅ !! c = Some v.
Proof. intros Hin. apply assign_lookup_in; [decide_closed|done]. Qed.

(** Outside web-fallback mode [addInteraction], given a description,
    stores one new interaction and returns its identifier, which is
    larger than every identifier in use: the row has the given owner,
    description, extracted data and location (NULL for an absent one),
    the type [conversation] when none is given, and the current time as
    [createdAt]; the other interactions and the other tables are
    unchanged.  Without a description nothing is stored and the error of
    the database is thrown. *)
Theorem addInteraction_stores i w d tb :
  isWebFallback w = false → db w = Some d →
  d !! "interactions" = Some tb → columns tb = interactions_schema →
  match interactionData.description i with
  | Some words =>
      ∃ k d' row,
        addInteraction i w = (Ok k, set_db d' w) ∧
        inserted "interactions" k row d d' ∧
        row !! "profileId" = Some (integer (interactionData.profileId i)) ∧
        row !! "description" = Some (Text words) ∧
        row !! "extractedData" = Some (text (interactionData.extractedData i)) ∧
        row !! "type"
          = Some (Text (default "conversation" (interactionData.type i))) ∧
        row !! "location" = Some (text (interactionData.location i)) ∧
        row !! "createdAt" = Some (Text (toISOString w (now w)))
  | None => ∃ e, addInteraction i w = (Throw e, w)
  end.
Proof.
  intros Hw Hd Ht Hc. rewrite addInteraction_unfold by done.
  set (vals := interaction_values i (toISOString w (now w))).
  pose proof (interaction_writable tb i (toISOString w (now w)) Hc) as Hwr.
  assert (assign interaction_columns vals ∅ !! "description"
          = Some (text (interactionData.description i))) as Hdesc
    by (apply interaction_cells; unfold interaction_columns, interaction_values;
        cbn; in_literal).
  destruct (interactionData.description i) as [words|] eqn:Hwords.
  - destruct (insert_inserted d "interactions" tb interaction_columns vals)
      as (d' & Hins & Hd'); try done.
    { apply interactions_notnull; [done|]. unfold cell. by rewrite Hdesc. }
    eexists _, d', _. split; [by eapply run_ok|]. split; [exact Hd'|].
    split; [|split; [done|]; repeat split];
      apply interaction_cells; unfold interaction_columns, interaction_values;
      cbn; in_literal.
  - eexists. eapply run_throw; [done|]. cbv beta.
    apply (insert_rejected _ _ tb); try done.
    apply not_false_iff_true. intros Hok.
    apply (interactions_notnull tb _ Hc) in Hok. apply Hok.
    unfold cell. by rewrite Hdesc.
Qed.

Definition coffee : interactionData.t :=
  {| interactionData.profileId := Some 1;
     interactionData.description := Some "Coffee with Ana";
     interactionData.extractedData := None;
     interactionData.type := None;
     interactionData.location := Some "Kiez" |}.

Lemma addInteraction_stores_witness :
  match interactionData.description coffee with
  | Some words =>
      ∃ k d' row,
        addInteraction coffee in_use = (Ok k, set_db d' in_use) ∧
        inserted "interactions" k row in_use_db d' ∧
        row !! "profileId" = Some (integer (interactionData.profileId coffee)) ∧
        row !! "description" = Some (Text words) ∧
        row !! "extractedData"
          = Some (text (interactionData.extractedData coffee)) ∧
        row !! "type"
          = Some (Text (default "conversation" (interactionData.type coffee))) ∧
        row !! "location" = Some (text (interactionData.location coffee)) ∧
        row !! "createdAt" = Some (Text (toISOString in_use (now in_use)))
  | None => ∃ e, addInteraction coffee in_use = (Throw e, in_use)
  end.
Proof.
  apply (addInteraction_stores coffee in_use in_use_db
           (table_of in_use_db "interactions")).
  - reflexivity.
  - reflexivity.
  - vm_refl.
  - vm_refl.
Defined.

Definition event_columns : list string :=
  ["profileId"; "eventType"; "description"; "eventDate"; "importance"; "createdAt"].

Definition event_values (e : eventData.t) (now : string) : list value :=
  [ integer (eventData.profileId e); text (eventData.eventType e);
    text (eventData.description e); text (eventData.eventDate e);
    Integer (default 1 (eventData.importance e)); Text now ].

Lemma addLifeEvent_unfold e w :
  isWebFallback w = false →
  addLifeEvent e w
    = run (λ d, insert d "life_events" event_columns
                  (event_values e (toISOString w (now w)))) w.
Proof.
  intros Hw. unfold addLifeEvent.
  unfold mbind at 1, async_mbind at 1, async_bind at 1, gets at 1.
  by rewrite Hw.
Qed.

Lemma event_cells e now c v :
  (c, v) ∈ zip event_columns (event_values e now) →
  assign event_columns (event_values e now) ∅ !! c = Some v.
Proof. intros Hin. apply assign_lookup_in; [decide_closed|done]. Qed.

(** Outside web-fallback mode [addLifeEvent], given an event type, stores
    one new life event and returns its identifier, which is larger than
    every identifier in use: the row has the given owner, type,
    description and date (NULL for an absent one), the importance 1 when
    none is given, and the current time as [createdAt]; the other events
    and the other tables are unchanged.  Without an event type nothing is
    stored and the error of the database is thrown. *)
Theorem addLifeEvent_stores e w d tb :
  isWebFallback w = false → db w = Some d →
  d !! "life_events" = Some tb → columns tb = life_events_schema →
  match eventData.eventType e with
  | Some kind =>
      ∃ k d' row,
        addLifeEvent e w = (Ok k, set_db d' w) ∧
        inserted "life_events" k row d d' ∧
        row !! "profileId" = Some (integer (eventData.profileId e)) ∧
        row !! "eventType" = Some (Text kind) ∧
        row !! "description" = Some (text (eventData.description e)) ∧
        row !! "eventDate" = Some (text (eventData.eventDate e)) ∧
        row !! "importance"
          = Some (Integer (default 1 (eventData.importance e))) ∧
        row !! "createdAt" = Some (Text (toISOString w (now w)))
  | None => ∃ err, addLifeEvent e w = (Throw err, w)
  end.
Proof.
  intros Hw Hd Ht Hc. rewrite addLifeEvent_unfold by done.
  set (vals := event_values e (toISOString w (now w))).
  assert (writable tb event_columns vals) as Hwr.
  { split; [done|]. unfold column_names. rewrite Hc. decide_closed. }
  assert (assign event_columns vals ∅ !! "eventType"
          = Some (text (eventData.eventType e))) as Hkind
    by (apply event_cells; unfold event_columns, event_values; cbn; in_literal).
  destruct (eventData.eventType e) as [kind|] eqn:Hk.
  - destruct (insert_inserted d "life_events" tb event_columns vals)
      as (d' & Hins & Hd'); try done.
    { apply life_events_notnull; [done|]. unfold cell. by rewrite Hkind. }
    eexists _, d', _. split; [by eapply run_ok|]. split; [exact Hd'|].
    split; [|split; [done|]; repeat split];
      apply event_cells; unfold event_columns, event_values; cbn; in_literal.
  - eexists. eapply run_throw; [done|]. cbv beta.
    apply (insert_rejected _ _ tb); try done.
    apply not_false_iff_true. intros Hok.
    apply (life_events_notnull tb _ Hc) in Hok. apply Hok.
    unfold cell. by rewrite Hkind.
Qed.

Definition new_job : eventData.t :=
  {| eventData.profileId := Some 1; eventData.eventType := Some "job";
     eventData.description := Some "Ana starts at the lab";
     eventData.eventDate := Some "2024-07-01"; eventData.importance := None |}.

Lemma addLifeEvent_stores_witness :
  match eventData.eventType new_job with
  | Some kind =>
      ∃ k d' row,
        addLifeEvent new_job in_use = (Ok k, set_db d' in_use) ∧
        inserted "life_events" k row in_use_db d' ∧
        row !! "profileId" = Some (integer (eventData.profileId new_job)) ∧
        row !! "eventType" = Some (Text kind) ∧
        row !! "description" = Some (text (eventData.description new_job)) ∧
        row !! "eventDate" = Some (text (eventData.eventDate new_job)) ∧
        row !! "importance"
          = Some (Integer (default 1 (eventData.importance new_job))) ∧
        row !! "createdAt" = Some (Text (toISOString in_use (now in_use)))
  | None => ∃ err, addLifeEvent new_job in_use = (Throw err, in_use)
  end.
Proof.
  apply (addLifeEvent_stores new_job in_use in_use_db
           (table_of in_use_db "life_events")).
  - reflexivity.
  - reflexivity.
  - vm_refl.
  - vm_refl.
Defined.

(** An interaction without a description is refused. *)
Example addInteraction_without_description :
  (addInteraction
     {| interactionData.profileId := Some 1;
        interactionData.description := None;
        interactionData.extractedData := None;
        interactionData.type := None;
        interactionData.location := None |} in_use).1
  = Throw (Error "NOT NULL constraint failed: interactions").
Proof. vm_refl. Qed.

(** *** Interactions and the deletion of their profile *)

#[local] Instance has_column_decision d t c : Decision (has_column d t c).
Proof. unfold has_column. destruct (d !! t); apply _. Defined.

Lemma ready_insert d t tb tb' :
  d !! t = Some tb → columns tb' = columns tb → ready d →
  ready (<[t := tb']> d).
Proof.
  intros Ht Hc [Hp Hdep]. split.
  - destruct (decide (t = "profiles")) as [->|Hne].
    + rewrite lookup_insert_eq. by eexists.
    + by rewrite lookup_insert_ne.
  - eapply Forall_impl; [exact Hdep|]. intros t' Hcol.
    unfold has_column in *.
    destruct (decide (t = t')) as [->|Hne].
    + rewrite lookup_insert_eq. rewrite Ht in Hcol.
      unfold column_names in *. by rewrite Hc.
    + by rewrite lookup_insert_ne.
Qed.

(** An interaction that is added for a profile is deleted with the
    profile; one that is added for another profile, or for none, stays
    when the profile is deleted. *)
Theorem added_interaction_goes_with_its_profile i k w d tb words :
  isWebFallback w = false → db w = Some d → ready d →
  d !! "interactions" = Some tb → columns tb = interactions_schema →
  interactionData.description i = Some words →
  ∃ j w1 w2 d2 tb2,
    addInteraction i w = (Ok j, w1) ∧
    deleteProfile k w1 = (Ok tt, w2) ∧
    db w2 = Some d2 ∧ d2 !! "interactions" = Some tb2 ∧
    (interactionData.profileId i = Some k → rows tb2 !! j = None) ∧
    (interactionData.profileId i ≠ Some k → is_Some (rows tb2 !! j)).
Proof.
  intros Hw Hd Hready Ht Hc Hwords.
  set (vals := interaction_values i (toISOString w (now w))).
  set (row := assign interaction_columns vals ∅).
  set (j := next_rowid tb).
  set (tb1 := with_row tb j row j).
  set (d1 := <["interactions" := tb1]> d).
  assert (row !! "description" = Some (Text words)) as Hdesc.
  { apply interaction_cells. unfold interaction_columns, interaction_values.
    rewrite Hwords. cbn. in_literal. }
  assert (row !! "profileId" = Some (integer (interactionData.profileId i)))
    as Howner
    by (apply interaction_cells; unfold interaction_columns, interaction_values;
        cbn; in_literal).
  assert (addInteraction i w = (Ok j, set_db d1 w)) as Hadd.
  { rewrite addInteraction_unfold by done. eapply run_ok; [done|]. cbv beta.
    apply (insert_row _ _ tb); [done|by apply interaction_writable|].
    apply interactions_notnull; [done|]. fold vals. fold row.
    unfold cell. by rewrite Hdesc. }
  assert (ready d1) as Hready1 by by apply (ready_insert d _ tb).
  exists j, (set_db d1 w), (set_db (after_delete k d1) (set_db d1 w)),
    (after_delete k d1), (prune k tb1).
  split; [done|].
  split; [by apply deleteProfile_embedded|]. split; [done|].
  split.
  { rewrite after_delete_dependent by (unfold dependent_tables; in_literal).
    unfold d1. by rewrite lookup_insert_eq. }
  assert (rows tb1 !! j = Some row) as Hj
    by (unfold tb1, with_row; simpl; apply lookup_insert_eq).
  assert (cell row "profileId" = integer (interactionData.profileId i)) as Hcell
    by (unfold cell; by rewrite Howner).
  split.
  - intros Hk. destruct (rows (prune k tb1) !! j) as [row'|] eqn:Hrow'; [|done].
    apply prune_lookup in Hrow' as [Hrow' Hne]. rewrite Hj in Hrow'.
    injection Hrow' as <-. rewrite Hcell, Hk in Hne. done.
  - intros Hk. exists row. apply prune_lookup. split; [done|].
    rewrite Hcell. intros Heq. apply Hk.
    by destruct (interactionData.profileId i); simplify_eq/=.
Qed.

Lemma added_interaction_goes_with_its_profile_witness :
  ∃ j w1 w2 d2 tb2,
    addInteraction coffee in_use = (Ok j, w1) ∧
    deleteProfile 1 w1 = (Ok tt, w2) ∧
    db w2 = Some d2 ∧ d2 !! "interactions" = Some tb2 ∧
    (interactionData.profileId coffee = Some 1 → rows tb2 !! j = None) ∧
    (interactionData.profileId coffee ≠ Some 1 → is_Some (rows tb2 !! j)).
Proof.
  apply (added_interaction_goes_with_its_profile coffee 1 in_use in_use_db
           (table_of in_use_db "interactions") "Coffee with Ana").
  - reflexivity.
  - reflexivity.
  - decide_closed.
  - vm_refl.
  - vm_refl.
  - reflexivity.
Defined.

End InteractionFacts.

(** ** Start-up *)

Module StartupFacts.
Import Json Sql DatabaseService SqlFacts DatabaseFacts ReminderFacts.

(** *** Creating the tables *)

(** The tables of [createTables], in the order of their statements. *)
Definition schemas : list (string * list column) :=
  [ ("profiles", profiles_schema); ("interactions", interactions_schema);
    ("reminders", reminders_schema); ("life_events", life_events_schema);
    ("feedback", feedback_schema) ].

Definition empty_table (schema : list column) : table :=
  {| columns := schema; rows := ∅; sequence := 0 |}.

(** A database after [migrateDatabase]. *)
Definition migrated (d : gmap string table) : gmap string table :=
  match d !! "profiles" with
  | Some tb => <["profiles" := extend tb (text_columns (missing_in tb))]> d
  | None => d
  end.

Definition with_tables (d : gmap string table) : gmap string table :=
  foldl (λ d ts, create_table d ts.1 ts.2) d schemas.

Lemma create_table_lookup d t cols t' :
  create_table d t cols !! t'
    = if decide (t' = t) then Some (default (empty_table cols) (d !! t))
      else d !! t'.
Proof.
  unfold create_table. destruct (decide (t' = t)) as [->|Hne].
  - destruct (d !! t) as [tb|] eqn:Ht; [by rewrite Ht|].
    by rewrite lookup_insert_eq.
  - destruct (d !! t); [done|]. by rewrite lookup_insert_ne.
Qed.

Lemma create_tables_lookup (l : list (string * list column)) d t :
  foldl (λ d ts, create_table d ts.1 ts.2) d l !! t
    = match d !! t with
      | Some tb => Some tb
      | None => empty_table <$> (list_to_map l : gmap string (list column)) !! t
      end.
Proof.
  revert d. induction l as [|[n cols] l IH]; intros d.
  - cbn [foldl]. rewrite list_to_map_nil, lookup_empty. by destruct (d !! t).
  - cbn [foldl fst snd]. rewrite IH, create_table_lookup, list_to_map_cons.
    destruct (decide (t = n)) as [->|Hne].
    + rewrite lookup_insert_eq. by destruct (d !! n).
    + by rewrite lookup_insert_ne.
Qed.

Lemma with_tables_lookup d t :
  with_tables d !! t
    = match d !! t with
      | Some tb => Some tb
      | None => empty_table <$> (list_to_map schemas : gmap _ _) !! t
      end.
Proof. apply create_tables_lookup. Qed.

Lemma createTables_embedded w d :
  db w = Some d →
  createTables w = (Ok tt, set_db (with_tables (migrated d)) w).
Proof.
  intros Hd. unfold createTables.
  unfold mbind at 1, async_mbind at 1, async_bind at 1, gets at 1.
  rewrite Hd. unfold try_catch.
  assert (migrateDatabase w = (Ok tt, set_db (migrated d) w)) as Hm.
  { unfold migrated. destruct (d !! "profiles") as [tb|] eqn:Ht.
    - by apply migrateDatabase_table.
    - rewrite (migrateDatabase_no_table w d) by done. by rewrite set_db_same. }
  erewrite bind_ok; [|exact Hm].
  do 4 (erewrite bind_ok; [|eapply exec_ok; [reflexivity|reflexivity]]).
  erewrite exec_ok; [|reflexivity|reflexivity].
  by rewrite !set_db_set_db.
Qed.

Lemma migrated_lookup d t :
  migrated d !! t
    = if decide (t = "profiles")
      then (λ tb, extend tb (text_columns (missing_in tb))) <$> d !! t
      else d !! t.
Proof.
  unfold migrated. destruct (decide (t = "profiles")) as [->|Hne].
  - destruct (d !! "profiles") as [tb|] eqn:Ht; [|by rewrite Ht].
    by rewrite lookup_insert_eq.
  - destruct (d !! "profiles"); [|done]. by rewrite lookup_insert_ne.
Qed.

Lemma extend_nothing tb : extend tb [] = tb.
Proof. destruct tb. unfold extend. simpl. by rewrite app_nil_r. Qed.

Lemma migrated_migrated d : migrated (migrated d) = migrated d.
Proof.
  apply map_eq. intros t. rewrite !migrated_lookup.
  destruct (decide (t = "profiles")) as [->|]; [|done].
  destruct (d !! "profiles") as [tb|]; [|done]. simpl.
  by rewrite missing_in_extend, extend_nothing.
Qed.





(** The first start: a new database file gets the five empty tables. *)
Example createTables_first_start :
  (λ t, (t, column_names <$> installed_db !! t)) <$>
    ["profiles"; "feedback"; "history"]
  = [ ("profiles",
       Some ["id"; "name"; "age"; "phone"; "email"; "relationship"; "job";
             "notes"; "tags"; "photoUri"; "parents"; "kids"; "brothers";
             "sisters"; "siblings"; "pets"; "foodLikes"; "foodDislikes";
             "interests"; "instagram"; "snapchat"; "twitter"; "tiktok";
             "facebook"; "birthday"; "lastContactDate"; "createdAt";
             "updatedAt"]);
      ("feedback",
       Some ["id"; "type"; "subject"; "message"; "userEmail"; "deviceInfo";
             "appVersion"; "status"; "createdAt"]);
      ("history", None) ].
Proof. vm_refl. Qed.

(** *** Clearing the data *)

(** A database after the four DROP TABLE statements of [clearAllData]. *)
Definition dropped (d : gmap string table) : gmap string table :=
  drop_table (drop_table (drop_table (drop_table d "life_events") "reminders")
                "interactions") "profiles".

Lemma dropped_lookup d t :
  dropped d !! t
    = if decide (t ∈ ["life_events"; "reminders"; "interactions"; "profiles"])
      then None else d !! t.
Proof.
  unfold dropped, drop_table.
  destruct (decide (t ∈ _)) as [Hin|Hnot].
  - repeat (apply elem_of_cons in Hin as [->|Hin]);
      [..|by apply elem_of_nil in Hin];
      rewrite ?lookup_delete_ne by done; by rewrite lookup_delete_eq.
  - rewrite !not_elem_of_cons in Hnot. destruct Hnot as (? & ? & ? & ? & _).
    by rewrite !lookup_delete_ne by done.
Qed.

Lemma clearAllData_embedded w d :
  isWebFallback w = false → db w = Some d →
  clearAllData w = (Ok tt, set_db (with_tables (dropped d)) w).
Proof.
  intros Hw Hd. unfold clearAllData.
  unfold mbind at 1, async_mbind at 1, async_bind at 1, gets at 1.
  rewrite Hw.
  erewrite bind_ok; [|eapply exec_ok; [done|reflexivity]].
  fold (dropped d).
  rewrite (createTables_embedded _ (dropped d)) by done.
  rewrite set_db_set_db. do 3 f_equal.
  unfold migrated. rewrite dropped_lookup. by rewrite decide_True by in_literal.
Qed.

(** Outside web-fallback mode [clearAllData] leaves the profiles, the
    interactions, the reminders and the life events empty, in tables with
    the columns of [createTables] and with their identifiers starting
    over; the feedback is kept (and its table made if it was missing),
    and tables that are not the service's are left alone.  Afterwards
    [getAllProfiles] and [getAllReminders] return the empty list. *)
Theorem clearAllData_empties w d :
  isWebFallback w = false → db w = Some d →
  ∃ d',
    clearAllData w = (Ok tt, set_db d' w) ∧
    (∀ t schema, (t, schema) ∈ schemas → t ≠ "feedback" →
       d' !! t = Some (empty_table schema)) ∧
    d' !! "feedback"
      = Some (default (empty_table feedback_schema) (d !! "feedback")) ∧
    (∀ t, t ∉ fst <$> schemas → d' !! t = d !! t) ∧
    getAllProfiles (set_db d' w) = (Ok [], set_db d' w) ∧
    getAllReminders (set_db d' w) = (Ok [], set_db d' w).
Proof.
  intros Hw Hd. exists (with_tables (dropped d)).
  split; [by apply clearAllData_embedded|].
  assert (∀ t schema, (t, schema) ∈ schemas → t ≠ "feedback" →
            with_tables (dropped d) !! t = Some (empty_table schema)) as Hempty.
  { intros t schema Hin Hne. rewrite with_tables_lookup, dropped_lookup.
    assert ((list_to_map schemas : gmap _ _) !! t = Some schema) as ->
      by (apply elem_of_list_to_map; [decide_closed|done]).
    rewrite decide_True; [done|].
    apply (list_elem_of_fmap_2 fst) in Hin. revert Hin. cbn.
    rewrite !elem_of_cons.
    intros [->|[->|[->|[->|[->|[]%elem_of_nil]]]]]; first [done|auto 7]. }
  split; [done|]. split; [|split; [|split]].
  - rewrite with_tables_lookup, dropped_lookup.
    rewrite decide_False by decide_closed.
    destruct (d !! "feedback"); [done|]. vm_refl.
  - intros t Hnot. rewrite with_tables_lookup, dropped_lookup.
    assert ((list_to_map schemas : gmap _ _) !! t = None) as ->
      by by apply not_elem_of_list_to_map.
    rewrite decide_False; [by destruct (d !! t)|].
    intros Hin. apply Hnot. revert Hin. cbn. rewrite !elem_of_cons.
    intros [->|[->|[->|[->|[]%elem_of_nil]]]]; auto 7.
  - erewrite getAllProfiles_embedded; [|done|reflexivity|].
    2:{ apply Hempty; [in_literal|done]. }
    cbn [empty_table rows]. by rewrite map_to_list_empty.
  - erewrite getAllReminders_embedded; [|done|reflexivity| | |..].
    2:{ apply Hempty; [unfold schemas; in_literal|done]. }
    2:{ apply Hempty; [unfold schemas; in_literal|done]. }
    + cbn [empty_table rows]. by rewrite map_to_list_empty.
    + decide_closed.
    + decide_closed.
    + decide_closed.
    + decide_closed.
Qed.

Lemma clearAllData_empties_witness :
  ∃ d',
    clearAllData in_use = (Ok tt, set_db d' in_use) ∧
    (∀ t schema, (t, schema) ∈ schemas → t ≠ "feedback" →
       d' !! t = Some (empty_table schema)) ∧
    d' !! "feedback"
      = Some (default (empty_table feedback_schema) (in_use_db !! "feedback")) ∧
    (∀ t, t ∉ fst <$> schemas → d' !! t = in_use_db !! t) ∧
    getAllProfiles (set_db d' in_use) = (Ok [], set_db d' in_use) ∧
    getAllReminders (set_db d' in_use) = (Ok [], set_db d' in_use).
Proof.
  apply (clearAllData_empties in_use in_use_db); reflexivity.
Defined.

(** *** Initialising the service *)






(** A phone or a browser before the first call. *)
Definition before_start (os : NotificationService.OS)
    (file : outcome (gmap string table)) : startup :=
  {| state := device false None; readyPromise := false; Platform_OS := os;
     SQLite_openDatabaseAsync := file |}.

Example init_examples :
  isWebFallback (state (init (before_start NotificationService.web (Ok ∅))).2)
    = true ∧
  db (state (init (before_start NotificationService.ios (Ok ∅))).2)
    = Some installed_db ∧
  (let s := (init (before_start NotificationService.android
                     (Throw (Error "Error: unable to open database file")))).2 in
   (isWebFallback (state s), readyPromise s)) = (true, true) ∧
  init (before_start NotificationService.android (Throw (Error "disk I/O error")))
    = (Throw (Error "disk I/O error"),
       before_start NotificationService.android (Throw (Error "disk I/O error"))).
Proof. repeat split; vm_refl. Qed.


End StartupFacts.

(** ** Feedback *)

Module FeedbackFacts.
Import Json Sql DatabaseService SqlFacts DatabaseFacts ReminderFacts
  InteractionFacts.

(** A request to the remote table that gives the method its result. *)
Definition succeeds {A} (o : outcome (response A)) (usable : response A → Prop)
    : Prop :=
  match o with
  | Ok r => error r = None ∧ usable r
  | Throw _ => False
  end.

Lemma try_remote_succeeds {A B} client (request : feedbackClient → outcome (response A))
    (result : response A → async world B) r b w :
  request client = Ok r → error r = None → result r w = (Ok b, w) →
  try_remote (Some client) request result w = (Ok (Some b), w).
Proof.
  intros Hreq Herr Hres. unfold try_remote, try_catch.
  unfold mbind at 1, async_mbind at 1, async_bind at 1, lift at 1.
  rewrite Hreq, Herr.
  unfold mbind, async_mbind, async_bind. by rewrite Hres.
Qed.

Lemma try_remote_fails {A B} sup (request : feedbackClient → outcome (response A))
    (result : response A → async world B) w :
  match sup with
  | None => True
  | Some client =>
      match request client with
      | Ok r => error r ≠ None ∨ ∃ e, result r w = (Throw e, w)
      | Throw _ => True
      end
  end →
  try_remote sup request result w = (Ok None, w).
Proof.
  unfold try_remote, try_catch. destruct sup as [client|]; [|done].
  unfold mbind at 1, async_mbind at 1, async_bind at 1, lift at 1.
  destruct (request client) as [r|e]; [|done].
  destruct (error r) as [err|]; [done|].
  intros [?|[e He]]; [done|].
  unfold mbind, async_mbind, async_bind. by rewrite He.
Qed.

(** The three feedback methods try the remote table first.  When the
    request succeeds its result is the method's result ([data.id], the
    rows or the empty list for [null], nothing) and the local database is
    not touched.  When there is no remote client, or the request rejects
    or answers with an error (or, for [submitFeedback], without a row),
    the method does what it does without a client: it never fails
    because of the remote side. *)
Theorem feedback_tries_remote_first sup f k status w :
  (∀ client r row,
     sup = Some client → feedback_insert client = Ok r →
     error r = None → data r = Some row →
     submitFeedback sup f w = (Ok (row !! "id"), w)) ∧
  (∀ client r,
     sup = Some client → feedback_select client = Ok r → error r = None →
     getAllFeedback sup w = (Ok (default [] (data r)), w)) ∧
  (∀ client r,
     sup = Some client → feedback_update client = Ok r → error r = None →
     updateFeedbackStatus sup k status w = (Ok tt, w)) ∧
  (match sup with
   | None => True
   | Some client => ¬ succeeds (feedback_insert client) (λ r, is_Some (data r))
   end → submitFeedback sup f w = submitFeedback None f w) ∧
  (match sup with
   | None => True
   | Some client => ¬ succeeds (feedback_select client) (λ _, True)
   end → getAllFeedback sup w = getAllFeedback None w) ∧
  (match sup with
   | None => True
   | Some client => ¬ succeeds (feedback_update client) (λ _, True)
   end → updateFeedbackStatus sup k status w = updateFeedbackStatus None k status w).
Proof.
  split; [|split; [|split; [|split; [|split]]]].
  - intros client r row -> Hreq Herr Hrow. unfold submitFeedback.
    erewrite bind_ok; last first.
    { eapply try_remote_succeeds; [done..|]. by rewrite Hrow. }
    done.
  - intros client r -> Hreq Herr. unfold getAllFeedback.
    erewrite bind_ok; last first.
    { by eapply try_remote_succeeds. }
    done.
  - intros client r -> Hreq Herr. unfold updateFeedbackStatus.
    erewrite bind_ok; last first.
    { by eapply try_remote_succeeds. }
    done.
  - intros Hfail. unfold submitFeedback.
    rewrite !(bind_ok _ _ w None w); [done|done|].
    apply try_remote_fails. destruct sup as [client|]; [|done].
    unfold succeeds in Hfail. destruct (feedback_insert client) as [r|]; [|done].
    destruct (error r); [by left|]. right.
    destruct (data r); [exfalso; apply Hfail; by split|]. by eexists.
  - intros Hfail. unfold getAllFeedback.
    rewrite !(bind_ok _ _ w None w); [done|done|].
    apply try_remote_fails. destruct sup as [client|]; [|done].
    unfold succeeds in Hfail. destruct (feedback_select client) as [r|]; [|done].
    destruct (error r); [by left|]. exfalso. by apply Hfail.
  - intros Hfail. unfold updateFeedbackStatus.
    rewrite !(bind_ok _ _ w None w); [done|done|].
    apply try_remote_fails. destruct sup as [client|]; [|done].
    unfold succeeds in Hfail. destruct (feedback_update client) as [r|]; [|done].
    destruct (error r); [by left|]. exfalso. by apply Hfail.
Qed.

(** *** Feedback kept on the device *)

Lemma feedback_notnull tb r :
  columns tb = feedback_schema →
  violates_notnull tb r = false ↔
  cell r "type" ≠ Null ∧ cell r "subject" ≠ Null ∧ cell r "message" ≠ Null.
Proof.
  intros Hc. unfold violates_notnull. rewrite Hc.
  cbn [feedback_schema existsb col col_required col_notnull col_name andb orb].
  rewrite orb_false_r, !orb_false_iff, !bool_decide_eq_false. done.
Qed.

Definition feedback_columns : list string :=
  ["type"; "subject"; "message"; "userEmail"; "deviceInfo"; "appVersion";
   "createdAt"; "status"].

Definition feedback_values (f : feedbackData.t) (now : string) : list value :=
  [ text (feedbackData.type f); text (feedbackData.subject f);
    text (feedbackData.message f); text (feedbackData.userEmail f);
    text (feedbackData.deviceInfo f); text (feedbackData.appVersion f);
    Text now; Text "open" ].

Lemma submitFeedback_local f w :
  isWebFallback w = false →
  submitFeedback None f w
    = (k ← run (λ d, insert d "feedback" feedback_columns
                       (feedback_values f (toISOString w (now w))));
       mret (Some (JNumber k))) w.
Proof.
  intros Hw. unfold submitFeedback, try_remote.
  unfold mbind at 1, async_mbind at 1, async_bind at 1.
  unfold mret at 1, async_mret at 1, async_ret at 1.
  unfold mbind at 1, async_mbind at 1, async_bind at 1, gets at 1.
  rewrite Hw.
  unfold mbind at 1, async_mbind at 1, async_bind at 1, Date_now_ISO at 1.
  reflexivity.
Qed.

Lemma feedback_cells f now c v :
  (c, v) ∈ zip feedback_columns (feedback_values f now) →
  assign feedback_columns (feedback_values f now) ∅ !! c = Some v.
Proof. intros Hin. apply assign_lookup_in; [decide_closed|done]. Qed.

(** Without a remote client and outside web-fallback mode
    [submitFeedback], given a type, a subject and a message, stores one
    new feedback row with the given fields, the status [open] and the
    current time, and returns its identifier, which is larger than every
    identifier in use; the other rows and tables are unchanged.  Without
    a type, a subject or a message nothing is stored and the error of the
    database is thrown. *)
Theorem submitFeedback_stores_open_feedback f w d tb :
  isWebFallback w = false → db w = Some d →
  d !! "feedback" = Some tb → columns tb = feedback_schema →
  match feedbackData.type f, feedbackData.subject f, feedbackData.message f with
  | Some kind, Some subject, Some message =>
      ∃ k d' row,
        submitFeedback None f w = (Ok (Some (JNumber k)), set_db d' w) ∧
        inserted "feedback" k row d d' ∧
        row !! "type" = Some (Text kind) ∧
        row !! "subject" = Some (Text subject) ∧
        row !! "message" = Some (Text message) ∧
        row !! "userEmail" = Some (text (feedbackData.userEmail f)) ∧
        row !! "deviceInfo" = Some (text (feedbackData.deviceInfo f)) ∧
        row !! "appVersion" = Some (text (feedbackData.appVersion f)) ∧
        row !! "status" = Some (Text "open") ∧
        row !! "createdAt" = Some (Text (toISOString w (now w)))
  | _, _, _ => ∃ e, submitFeedback None f w = (Throw e, w)
  end.
Proof.
  intros Hw Hd Ht Hc. rewrite submitFeedback_local by done.
  set (vals := feedback_values f (toISOString w (now w))).
  set (row := assign feedback_columns vals ∅).
  assert (writable tb feedback_columns vals) as Hwr.
  { split; [done|]. unfold column_names. rewrite Hc. decide_closed. }
  assert (∀ c v, (c, v) ∈ zip feedback_columns vals → cell row c = v) as Hcell.
  { intros c v Hin. unfold cell, row. unfold vals in *.
    by rewrite (feedback_cells f _ c v). }
  assert (cell row "type" = text (feedbackData.type f)) as Hkind
    by (apply Hcell; unfold vals, feedback_columns, feedback_values; cbn; in_literal).
  assert (cell row "subject" = text (feedbackData.subject f)) as Hsubject
    by (apply Hcell; unfold vals, feedback_columns, feedback_values; cbn; in_literal).
  assert (cell row "message" = text (feedbackData.message f)) as Hmessage
    by (apply Hcell; unfold vals, feedback_columns, feedback_values; cbn; in_literal).
  assert (violates_notnull tb row = true →
            (k ← run (λ d, insert d "feedback" feedback_columns vals);
             mret (Some (JNumber k))) w
            = (Throw (Error ("NOT NULL constraint failed: " +:+ "feedback")), w))
    as Hrefused.
  { intros Hbad. erewrite bind_throw; [done|].
    eapply run_throw; [done|]. cbv beta. by apply (insert_rejected _ _ tb). }
  assert (∀ c, cell row c = Null → c ∈ ["type"; "subject"; "message"] →
            violates_notnull tb row = true) as Hbad.
  { intros c Hnull Hin. apply not_false_iff_true. intros Hok.
    apply (feedback_notnull tb _ Hc) in Hok as (H1 & H2 & H3).
    revert Hin. rewrite !elem_of_cons, elem_of_nil.
    intros [->|[->|[->|[]]]]; done. }
  destruct (feedbackData.type f) as [kind|] eqn:Hk.
  2:{ eexists. apply Hrefused. apply (Hbad "type"); [done|in_literal]. }
  destruct (feedbackData.subject f) as [subject|] eqn:Hs.
  2:{ eexists. apply Hrefused. apply (Hbad "subject"); [done|in_literal]. }
  destruct (feedbackData.message f) as [message|] eqn:Hm.
  2:{ eexists. apply Hrefused. apply (Hbad "message"); [done|in_literal]. }
  destruct (insert_inserted d "feedback" tb feedback_columns vals)
    as (d' & Hins & Hd'); try done.
  { apply feedback_notnull; [done|]. fold row. by rewrite Hkind, Hsubject, Hmessage. }
  eexists _, d', row. split.
  { erewrite bind_ok; last first.
    { by eapply run_ok. }
    done. }
  split; [exact Hd'|].
  assert (∀ c v, (c, v) ∈ zip feedback_columns vals → row !! c = Some v) as Hrow.
  { intros c v Hin. unfold row. unfold vals in *. by apply feedback_cells. }
  repeat split; apply Hrow; unfold vals, feedback_columns, feedback_values;
    rewrite ?Hk, ?Hs, ?Hm; cbn; in_literal.
Qed.

Definition crash_report : feedbackData.t :=
  {| feedbackData.type := Some "bug";
     feedbackData.subject := Some "Crash on save";
     feedbackData.message := Some "Saving a profile without a photo crashes.";
     feedbackData.userEmail := None;
     feedbackData.deviceInfo := Some "Pixel 8, Android 14";
     feedbackData.appVersion := Some "1.0.0" |}.

Lemma submitFeedback_stores_open_feedback_witness :
  match feedbackData.type crash_report, feedbackData.subject crash_report,
        feedbackData.message crash_report with
  | Some kind, Some subject, Some message =>
      ∃ k d' row,
        submitFeedback None crash_report in_use
          = (Ok (Some (JNumber k)), set_db d' in_use) ∧
        inserted "feedback" k row in_use_db d' ∧
        row !! "type" = Some (Text kind) ∧
        row !! "subject" = Some (Text subject) ∧
        row !! "message" = Some (Text message) ∧
        row !! "userEmail" = Some (text (feedbackData.userEmail crash_report)) ∧
        row !! "deviceInfo" = Some (text (feedbackData.deviceInfo crash_report)) ∧
        row !! "appVersion" = Some (text (feedbackData.appVersion crash_report)) ∧
        row !! "status" = Some (Text "open") ∧
        row !! "createdAt" = Some (Text (toISOString in_use (now in_use)))
  | _, _, _ => ∃ e, submitFeedback None crash_report in_use = (Throw e, in_use)
  end.
Proof.
  apply (submitFeedback_stores_open_feedback crash_report in_use in_use_db
           (table_of in_use_db "feedback")).
  - reflexivity.
  - reflexivity.
  - vm_refl.
  - vm_refl.
Defined.

(** Newest first. *)
Definition newest_first (a b : gmap string value) : Prop :=
  value_le (cell b "createdAt") (cell a "createdAt").

(** Without a remote client [getAllFeedback] returns, in web-fallback
    mode, the two mock rows; otherwise every row of the feedback table
    once, with all its columns, ordered by [createdAt] from the newest to
    the oldest; it changes nothing. *)
Theorem getAllFeedback_newest_first w :
  (isWebFallback w = true → getAllFeedback None w = (Ok mockFeedback, w)) ∧
  (isWebFallback w = false →
   ∀ d tb, db w = Some d → d !! "feedback" = Some tb →
     ∃ result,
       getAllFeedback None w
         = (Ok ((λ row : gmap string value, to_json <$> row) <$> result), w) ∧
       result ≡ₚ (λ kr, result_row tb kr.1 kr.2) <$> map_to_list (rows tb) ∧
       StronglySorted newest_first result).
Proof.
  split.
  - intros Hw. unfold getAllFeedback, try_remote.
    unfold mbind, async_mbind, async_bind, mret, async_mret, async_ret, gets.
    by rewrite Hw.
  - intros Hw d tb Hd Ht. eexists. split; [|split].
    + unfold getAllFeedback, try_remote.
      unfold mbind at 1, async_mbind at 1, async_bind at 1.
      unfold mret at 1, async_mret at 1, async_ret at 1.
      unfold mbind at 1, async_mbind at 1, async_bind at 1, gets at 1.
      rewrite Hw.
      unfold mbind at 1, async_mbind at 1, async_bind at 1.
      rewrite (query_ok _ w d Hd). unfold select_all. rewrite Ht.
      reflexivity.
    + apply order_by_permutation.
    + exact (order_by_sorted "createdAt" true _).
Qed.

Lemma update_status_cells status (r : gmap string value) :
  assign ["status"] [Text status] r !! "status" = Some (Text status) ∧
  ∀ c, c ≠ "status" → assign ["status"] [Text status] r !! c = r !! c.
Proof.
  split.
  - apply assign_lookup_in; [decide_closed|apply list_elem_of_here].
  - intros c Hc. apply assign_lookup_notin.
    by intros ?%list_elem_of_singleton.
Qed.

(** Without a remote client and outside web-fallback mode
    [updateFeedbackStatus k status] sets the status of the feedback row
    [k] and changes nothing else: the other columns of the row, the other
    rows and the other tables are as before, and for an identifier that
    is not in use nothing changes. *)
Theorem updateFeedbackStatus_sets_status k status w d tb :
  isWebFallback w = false → db w = Some d →
  d !! "feedback" = Some tb → intact feedback_schema tb →
  ∃ d' tb',
    updateFeedbackStatus None k status w = (Ok tt, set_db d' w) ∧
    (∀ t, t ≠ "feedback" → d' !! t = d !! t) ∧
    d' !! "feedback" = Some tb' ∧ columns tb' = columns tb ∧
    (∀ j, j ≠ k → rows tb' !! j = rows tb !! j) ∧
    match rows tb !! k with
    | Some r =>
        ∃ r', rows tb' !! k = Some r' ∧
              r' !! "status" = Some (Text status) ∧
              ∀ c, c ≠ "status" → r' !! c = r !! c
    | None => d' = d
    end.
Proof.
  intros Hw Hd Ht [Hc Hrows].
  assert (updateFeedbackStatus None k status w
          = exec (λ d, update d "feedback" ["status"] [Text status] k) w) as ->.
  { unfold updateFeedbackStatus, try_remote.
    unfold mbind at 1, async_mbind at 1, async_bind at 1.
    unfold mret at 1, async_mret at 1, async_ret at 1.
    unfold mbind at 1, async_mbind at 1, async_bind at 1, gets at 1.
    by rewrite Hw. }
  assert (writable tb ["status"] [Text status]) as Hwr.
  { split; [done|]. unfold column_names. rewrite Hc. decide_closed. }
  destruct (rows tb !! k) as [r|] eqn:Hr.
  - destruct (update_status_cells status r) as [Hset Hkeep].
    eexists _, _. split.
    { eapply exec_ok; [done|]. cbv beta. apply (update_row _ _ tb); try done.
      apply feedback_notnull; [done|].
      specialize (Hrows k r Hr). simpl in Hrows.
      apply (feedback_notnull tb r Hc) in Hrows as (H1 & H2 & H3).
      unfold cell. by rewrite !Hkeep by done. }
    split; [by intros t Hne; apply lookup_insert_ne|].
    split; [apply lookup_insert_eq|]. split; [done|]. simpl.
    split; [by intros j Hj; apply lookup_insert_ne|].
    eexists. split; [apply lookup_insert_eq|]. done.
  - exists d, tb. split.
    { erewrite exec_ok; [|done|by apply (update_no_row _ _ tb)].
      by rewrite set_db_same. }
    done.
Qed.

(** The phone of the example after the report has been stored. *)
Definition reported_db : gmap string table :=
  default ∅ (db (submitFeedback None crash_report in_use).2).

Definition reported : world := device false (Some reported_db).

Lemma updateFeedbackStatus_sets_status_witness :
  ∃ d' tb',
    updateFeedbackStatus None 1 "closed" reported = (Ok tt, set_db d' reported) ∧
    (∀ t, t ≠ "feedback" → d' !! t = reported_db !! t) ∧
    d' !! "feedback" = Some tb' ∧
    columns tb' = columns (table_of reported_db "feedback") ∧
    (∀ j, j ≠ 1 → rows tb' !! j = rows (table_of reported_db "feedback") !! j) ∧
    match rows (table_of reported_db "feedback") !! 1 with
    | Some r =>
        ∃ r', rows tb' !! 1 = Some r' ∧
              r' !! "status" = Some (Text "closed") ∧
              ∀ c, c ≠ "status" → r' !! c = r !! c
    | None => d' = reported_db
    end.
Proof.
  apply (updateFeedbackStatus_sets_status 1 "closed" reported reported_db
           (table_of reported_db "feedback")).
  - reflexivity.
  - reflexivity.
  - vm_refl.
  - decide_closed.
Defined.

(** A report is open until its status is set. *)
Example feedback_round_trip :
  match (getAllFeedback None (submitFeedback None crash_report in_use).2).1 with
  | Ok l => (λ o : gmap string json, (o !! "subject", o !! "status")) <$> l
  | Throw _ => []
  end = [(Some (JString "Crash on save"), Some (JString "open"))] ∧
  match (getAllFeedback None
           (updateFeedbackStatus None 1 "closed" reported).2).1 with
  | Ok l => (λ o : gmap string json, (o !! "subject", o !! "status")) <$> l
  | Throw _ => []
  end = [(Some (JString "Crash on save"), Some (JString "closed"))].
Proof. split; vm_refl. Qed.

End FeedbackFacts.

(** ** The profile screens *)

Module ScreenFacts.
Import Json Sql DatabaseService SqlFacts DatabaseFacts ReminderFacts Screens.

#[local] Arguments stringify : simpl never.
#[local] Arguments parse : simpl never.

(** A screen that shows one more alert. *)
Definition alerted (title message : string) (u : screen) : screen :=
  {| saving := saving u; alerts := alerts u ++ [(title, message)];
     service := service u |}.

(** The screen after a save that the service answered with [o], leaving
    the service in the state [w]. *)
Definition saved_screen (success failure : string) (o : outcome Z) (w : world)
    (u : screen) : screen :=
  {| saving := false;
     alerts := alerts u ++ [match o with
                            | Ok _ => ("Success", success)
                            | Throw _ => ("Error", failure)
                            end];
     service := w |}.

Lemma CreateProfile_handleSave_unfold trim profile u :
  CreateProfile_handleSave trim profile u =
    if name_missing trim profile
    then (Ok tt, alerted "Error" "Name is required" u)
    else
      let p := with_lastContactDate
                 (toISOString (service u) (now (service u)))
                 (default no_profile profile) in
      (Ok tt,
       saved_screen "Profile created successfully" "Failed to create profile"
         (createOrUpdateProfile p (service u)).1
         (createOrUpdateProfile p (service u)).2 u).
Proof.
  unfold CreateProfile_handleSave.
  destruct (name_missing trim profile); [done|]. cbv zeta.
  unfold mbind, async_mbind, async_bind, setSaving, modify, try_catch,
    on_service, Date_now_ISO, Alert_alert, saved_screen.
  cbn [fst snd set_saving set_service saving alerts service].
  by destruct (createOrUpdateProfile _ (service u)) as [[k|e] w'].
Qed.

Lemma EditProfile_handleSave_unfold trim profile u :
  EditProfile_handleSave trim profile u =
    if name_missing trim profile
    then (Ok tt, alerted "Error" "Name is required" u)
    else
      (Ok tt,
       saved_screen "Profile updated successfully" "Failed to save profile"
         (createOrUpdateProfile (default no_profile profile) (service u)).1
         (createOrUpdateProfile (default no_profile profile) (service u)).2 u).
Proof.
  unfold EditProfile_handleSave.
  destruct (name_missing trim profile); [done|].
  unfold mbind, async_mbind, async_bind, setSaving, modify, try_catch,
    on_service, Alert_alert, saved_screen.
  cbn [fst snd set_saving set_service saving alerts service].
  by destruct (createOrUpdateProfile _ (service u)) as [[k|e] w'].
Qed.

(** In both screens [handleSave] never throws.  Without a profile, without
    a name, or with a name that trims to the empty string it shows the
    alert [Name is required] and does nothing else: the service is not
    called and the [saving] flag is as it was.  Otherwise it calls
    [createOrUpdateProfile] once, the create screen with the profile of
    the form and the current time as the date of the last contact, the
    edit screen with the profile of the form as it is; it shows one alert,
    [Success] when the save returned and [Error] when it threw, and leaves
    [saving] cleared. *)
Theorem handleSave_never_throws trim profile u :
  ∃ created edited,
    CreateProfile_handleSave trim profile u = (Ok tt, created) ∧
    EditProfile_handleSave trim profile u = (Ok tt, edited) ∧
    (name_missing trim profile = true →
       created = alerted "Error" "Name is required" u ∧ edited = created) ∧
    (name_missing trim profile = false →
       ∀ p dated,
         p = default no_profile profile →
         dated = with_lastContactDate
                   (toISOString (service u) (now (service u))) p →
         saving created = false ∧ saving edited = false ∧
         service created = (createOrUpdateProfile dated (service u)).2 ∧
         alerts created
           = alerts u ++
               [match (createOrUpdateProfile dated (service u)).1 with
                | Ok _ => ("Success", "Profile created successfully")
                | Throw _ => ("Error", "Failed to create profile")
                end] ∧
         service edited = (createOrUpdateProfile p (service u)).2 ∧
         alerts edited
           = alerts u ++
               [match (createOrUpdateProfile p (service u)).1 with
                | Ok _ => ("Success", "Profile updated successfully")
                | Throw _ => ("Error", "Failed to save profile")
                end]).
Proof.
  rewrite CreateProfile_handleSave_unfold, EditProfile_handleSave_unfold.
  destruct (name_missing trim profile).
  - eexists _, _. split; [done|]. split; [done|]. split; [done|]. done.
  - eexists _, _. split; [done|]. split; [done|]. split; [done|].
    intros _ p dated -> ->. cbv zeta.
    cbn [saved_screen saving alerts service]. done.
Qed.

(** *** A save from a screen *)

(** A save of a profile with a name, on tables that can take it, returns
    an identifier under which the profile is read back. *)
Lemma save_and_read p w d tb n :
  isWebFallback w = false → db w = Some d →
  d !! "profiles" = Some tb → current tb →
  name p = Some n →
  (∀ k, truthy_number (id p) = Some k → is_Some (rows tb !! k)) →
  ∃ k w' saved,
    createOrUpdateProfile p w = (Ok k, w') ∧
    (truthy_number (id p) = None → rows tb !! k = None) ∧
    (∀ j, truthy_number (id p) = Some j → k = j) ∧
    getProfileById k w' = (Ok (Some saved), w') ∧
    (∀ c v, (c, v) ∈ scalar_cells p → saved !! c = Some (to_json v)) ∧
    (∀ c l, (c, l) ∈ list_cells p → saved !! c = Some (JArray l)).
Proof.
  intros Hw Hd Ht Hcur Hname Hid.
  rewrite save_unfold. unfold local_save. rewrite Hw, Hd.
  destruct (truthy_number (id p)) as [k|] eqn:Hk.
  - destruct (Hid k eq_refl) as [r Hr].
    destruct (update_profile_row p (toISOString w (now w)) k d tb r Ht Hr)
      as (r' & (Hcells & _) & _ & Hup).
    rewrite Hup by eauto using stored_name.
    set (d' := <["profiles" := _]> d).
    destruct (log_returns p (operation p) (Some k) (set_db d' w))
      as (_ & Hdb & Hfb & _).
    set (w' := (logProfileDataForCollection _ _ _ _).2) in *.
    destruct (read_back p k w' d' (with_row tb k r' (sequence tb)) r')
      as (saved & Hget & Hs & Hl); try done.
    + by rewrite Hfb.
    + apply lookup_insert_eq.
    + by apply current_data_columns.
    + apply lookup_insert_eq.
    + exists k, w', saved. split; [done|]. split; [done|].
      split; [by intros j [= ->]|done].
  - destruct (insert_profile_row p (toISOString w (now w)) d tb Ht)
      as (r' & (Hcells & _) & _ & Hins).
    rewrite Hins by eauto using stored_name.
    set (k := next_rowid tb). set (d' := <["profiles" := _]> d).
    destruct (log_returns p (operation p) (Some k) (set_db d' w))
      as (_ & Hdb & Hfb & _).
    set (w' := (logProfileDataForCollection _ _ _ _).2) in *.
    destruct (read_back p k w' d' (with_row tb k r' k) r')
      as (saved & Hget & Hs & Hl); try done.
    + by rewrite Hfb.
    + apply lookup_insert_eq.
    + by apply current_data_columns.
    + apply lookup_insert_eq.
    + exists k, w', saved. split; [done|].
      split; [intros _; apply next_rowid_fresh|]. split; [done|done].
Qed.

Lemma scalar_cells_with_lastContactDate date p c v :
  (c, v) ∈ scalar_cells p → c ≠ "lastContactDate" →
  (c, v) ∈ scalar_cells (with_lastContactDate date p).
Proof.
  unfold scalar_cells.
  cbn [with_lastContactDate name age phone email relationship job notes
       photoUri instagram snapchat twitter tiktok facebook birthday
       lastContactDate].
  rewrite !elem_of_cons, !elem_of_nil. intros H Hne.
  repeat (destruct H as [H|H]; [tauto|]).
  by destruct H as [[= -> _]|[]].
Qed.

(** Outside web-fallback mode and on a profiles table with the columns
    of the service, a profile whose name does not trim to the empty
    string is always saved from the screens, with the alert [Success]:
    the create screen stores a new profile, with the current time as its
    date of last contact, and the edit screen overwrites the profile with
    the [id] of the form when that profile exists; [getProfileById] then
    returns what was in the form. *)
Theorem handleSave_saves_named_profile trim p n u d tb :
  isWebFallback (service u) = false → db (service u) = Some d →
  d !! "profiles" = Some tb → current tb →
  name p = Some n → trim n ≠ "" →
  (truthy_number (id p) = None →
   ∃ k u' saved,
     CreateProfile_handleSave trim (Some p) u = (Ok tt, u') ∧
     saving u' = false ∧
     alerts u' = alerts u ++ [("Success", "Profile created successfully")] ∧
     rows tb !! k = None ∧
     getProfileById k (service u') = (Ok (Some saved), service u') ∧
     saved !! "lastContactDate"
       = Some (JString (toISOString (service u) (now (service u)))) ∧
     (∀ c v, (c, v) ∈ scalar_cells p → c ≠ "lastContactDate" →
             saved !! c = Some (to_json v)) ∧
     (∀ c l, (c, l) ∈ list_cells p → saved !! c = Some (JArray l))) ∧
  (∀ k, truthy_number (id p) = Some k → is_Some (rows tb !! k) →
   ∃ u' saved,
     EditProfile_handleSave trim (Some p) u = (Ok tt, u') ∧
     saving u' = false ∧
     alerts u' = alerts u ++ [("Success", "Profile updated successfully")] ∧
     getProfileById k (service u') = (Ok (Some saved), service u') ∧
     (∀ c v, (c, v) ∈ scalar_cells p → saved !! c = Some (to_json v)) ∧
     (∀ c l, (c, l) ∈ list_cells p → saved !! c = Some (JArray l))).
Proof.
  intros Hw Hd Ht Hcur Hname Htrim.
  assert (name_missing trim (Some p) = false) as Hguard.
  { unfold name_missing. rewrite Hname. by apply bool_decide_eq_false. }
  split.
  - intros Hid. rewrite CreateProfile_handleSave_unfold, Hguard. cbv zeta.
    set (date := toISOString (service u) (now (service u))).
    destruct (save_and_read (with_lastContactDate date p) (service u) d tb n)
      as (k & w' & saved & Hsave & Hfresh & _ & Hget & Hs & Hl); try done.
    { intros k Hk. simpl in Hk. congruence. }
    change (default no_profile (Some p)) with p. rewrite Hsave.
    exists k, (saved_screen "Profile created successfully"
                 "Failed to create profile" (Ok k) w' u), saved.
    split; [done|]. split; [done|]. split; [done|].
    split; [by apply Hfresh|]. split; [done|].
    split.
    { apply (Hs "lastContactDate" (Text date)).
      unfold scalar_cells. cbn. in_literal. }
    split; [|done].
    intros c v Hcv Hne. apply Hs. by apply scalar_cells_with_lastContactDate.
  - intros k Hk Hrow. rewrite EditProfile_handleSave_unfold, Hguard.
    destruct (save_and_read p (service u) d tb n)
      as (k' & w' & saved & Hsave & _ & Hsame & Hget & Hs & Hl); try done.
    { intros j Hj. congruence. }
    rewrite (Hsame k Hk) in *.
    change (default no_profile (Some p)) with p. rewrite Hsave.
    exists (saved_screen "Profile updated successfully"
              "Failed to save profile" (Ok k) w' u), saved.
    done.
Qed.

#[local] Instance current_decision tb : Decision (current tb).
Proof. unfold current. apply _. Defined.

(** A stand-in for [trim] in the examples: it removes the spaces at both
    ends. *)
Fixpoint without_leading_spaces (s : string) : string :=
  match s with
  | String " " rest => without_leading_spaces rest
  | _ => s
  end.

Definition string_rev (s : string) : string :=
  string_of_list_ascii (rev (list_ascii_of_string s)).

Definition without_spaces (s : string) : string :=
  string_rev (without_leading_spaces (string_rev (without_leading_spaces s))).

(** The create screen on a phone after the first start. *)
Definition fresh_screen : screen :=
  {| saving := false; alerts := []; service := installed |}.

Lemma handleSave_saves_named_profile_witness :
  (truthy_number (id ana) = None →
   ∃ k u' saved,
     CreateProfile_handleSave without_spaces (Some ana) fresh_screen = (Ok tt, u') ∧
     saving u' = false ∧
     alerts u'
       = alerts fresh_screen ++ [("Success", "Profile created successfully")] ∧
     rows (table_of installed_db "profiles") !! k = None ∧
     getProfileById k (service u') = (Ok (Some saved), service u') ∧
     saved !! "lastContactDate"
       = Some (JString (toISOString (service fresh_screen)
                          (now (service fresh_screen)))) ∧
     (∀ c v, (c, v) ∈ scalar_cells ana → c ≠ "lastContactDate" →
             saved !! c = Some (to_json v)) ∧
     (∀ c l, (c, l) ∈ list_cells ana → saved !! c = Some (JArray l))) ∧
  (∀ k, truthy_number (id ana) = Some k →
        is_Some (rows (table_of installed_db "profiles") !! k) →
   ∃ u' saved,
     EditProfile_handleSave without_spaces (Some ana) fresh_screen = (Ok tt, u') ∧
     saving u' = false ∧
     alerts u'
       = alerts fresh_screen ++ [("Success", "Profile updated successfully")] ∧
     getProfileById k (service u') = (Ok (Some saved), service u') ∧
     (∀ c v, (c, v) ∈ scalar_cells ana → saved !! c = Some (to_json v)) ∧
     (∀ c l, (c, l) ∈ list_cells ana → saved !! c = Some (JArray l))).
Proof.
  apply (handleSave_saves_named_profile without_spaces ana "Ana" fresh_screen
           installed_db (table_of installed_db "profiles")).
  - reflexivity.
  - reflexivity.
  - vm_refl.
  - decide_closed.
  - reflexivity.
  - decide_closed.
Defined.

(** A name of spaces is refused and nothing is stored; a name is
    saved. *)
Example handleSave_examples :
  (CreateProfile_handleSave without_spaces
     (Some (with_lastContactDate "" (DatabaseFacts.without_name ana)))
     fresh_screen).2
  = {| saving := false; alerts := [("Error", "Name is required")];
       service := installed |} ∧
  alerts (CreateProfile_handleSave without_spaces (Some ana) fresh_screen).2
  = [("Success", "Profile created successfully")] ∧
  alerts (EditProfile_handleSave without_spaces (Some ana)
            {| saving := false; alerts := [];
               service := device false None |}).2
  = [("Error", "Failed to save profile")].
Proof. repeat split; vm_refl. Qed.

(** *** Tags *)

Lemma filter_index_remove {A} (index : Z) (start : nat) (items : list A) :
  filter_index (λ i, negb (bool_decide (Z.of_nat i = index))) start items
  = if decide (Z.of_nat start ≤ index < Z.of_nat start + Z.of_nat (length items))
    then take (Z.to_nat (index - Z.of_nat start)) items ++
         drop (S (Z.to_nat (index - Z.of_nat start))) items
    else items.
Proof.
  revert start. induction items as [|a rest IH]; intros start.
  - cbn [filter_index]. destruct (decide _); [|done].
    by rewrite take_nil, drop_nil.
  - cbn [filter_index]. rewrite IH. cbn [length].
    destruct (bool_decide_reflect (Z.of_nat start = index)) as [Heq|Hne];
      cbn [negb].
    + rewrite decide_False by lia. rewrite decide_True by lia.
      replace (Z.to_nat (index - Z.of_nat start)) with 0%nat by lia. done.
    + destruct (decide (Z.of_nat (S start) ≤ index
                        < Z.of_nat (S start) + Z.of_nat (length rest)))
        as [Hin|Hout].
      * rewrite decide_True by lia.
        replace (Z.to_nat (index - Z.of_nat start))
          with (S (Z.to_nat (index - Z.of_nat (S start)))) by lia.
        done.
      * by rewrite decide_False by lia.
Qed.

(** The tag handlers.  [addTag] does nothing for a tag that trims to the
    empty string; otherwise it appends one tag, the trimmed text with the
    selected colour, to the tags of the form (an absent list counts as
    empty), clears the input and changes no other field.  [removeTag]
    removes the tag at the given position and keeps the others in their
    order; for a position outside the list it changes nothing; without a
    list of tags it throws.  Removing the tag that was just added gives
    back the tags as they were. *)
Theorem tags_are_added_and_removed trim f :
  (trim (newTag f) = "" → addTag trim f = f) ∧
  (trim (newTag f) ≠ "" →
     tags (profile (addTag trim f))
       = Some (default [] (tags (profile f)) ++
                 [JObject [("text", JString (trim (newTag f)));
                           ("color", selectedTagColor f)]]) ∧
     newTag (addTag trim f) = "" ∧
     with_tags [] (profile (addTag trim f)) = with_tags [] (profile f) ∧
     ∃ f', removeTag (Z.of_nat (length (default [] (tags (profile f)))))
             (addTag trim f) = Ok f' ∧
           tags (profile f') = Some (default [] (tags (profile f)))) ∧
  (∀ index items,
     tags (profile f) = Some items →
     ∃ f', removeTag index f = Ok f' ∧
           newTag f' = newTag f ∧
           with_tags [] (profile f') = with_tags [] (profile f) ∧
           tags (profile f')
             = Some (if decide (0 ≤ index < Z.of_nat (length items))
                     then take (Z.to_nat index) items ++
                          drop (S (Z.to_nat index)) items
                     else items)) ∧
  (tags (profile f) = None → ∀ index, ∃ e, removeTag index f = Throw e).
Proof.
  split; [|split; [|split]].
  - intros Hblank. unfold addTag. by rewrite bool_decide_eq_true_2.
  - intros Hword. unfold addTag. rewrite bool_decide_eq_false_2 by done.
    cbv zeta. cbn [profile newTag with_tags tags]. split; [done|].
    split; [done|]. split; [done|].
    unfold removeTag. cbn [profile newTag with_tags tags selectedTagColor].
    eexists. split; [reflexivity|]. cbn [profile with_tags tags]. f_equal.
    rewrite filter_index_remove. rewrite length_app. cbn [length].
    rewrite decide_True by lia.
    replace (Z.to_nat (Z.of_nat (length (default [] (tags (profile f))))
                       - Z.of_nat 0))
      with (length (default [] (tags (profile f)))) by lia.
    rewrite take_app_length.
    rewrite drop_ge by (rewrite length_app; cbn; lia).
    by rewrite app_nil_r.
  - intros index items Hitems. unfold removeTag. rewrite Hitems.
    eexists. split; [reflexivity|]. cbn [profile newTag with_tags tags].
    split; [done|]. split; [done|]. f_equal.
    rewrite filter_index_remove. change (Z.of_nat 0) with 0.
    rewrite Z.add_0_l, Z.sub_0_r. done.
  - intros Hnone index. unfold removeTag. rewrite Hnone. by eexists.
Qed.

Example tags_example :
  tags (profile
          (addTag without_spaces
             {| profile := no_profile; newTag := "  climbing ";
                selectedTagColor := blue |}))
  = Some [JObject [("text", JString "climbing"); ("color", blue)]] ∧
  removeTag 1 {| profile := with_tags [JString "a"; JString "b"; JString "c"]
                              no_profile;
                 newTag := ""; selectedTagColor := blue |}
  = Ok {| profile := with_tags [JString "a"; JString "c"] no_profile;
          newTag := ""; selectedTagColor := blue |}.
Proof. split; reflexivity. Qed.

End ScreenFacts.

